(** * Sailing recommendations (sailing_rec_UI_v1.py): a shallow embedding

  The development follows the Python source function by function:

  - [Binary64]: the float arithmetic the program performs
    ([int / int], [a + (b - a) * random()], [round(x, 2)]);
  - [PyRandom]: the hidden generator behind [random.uniform];
  - [Pandas]: the DataFrame operations used by
    [create_dummy_recommendations_with_scores];
  - [App]: the session state, the step [handle_weights] and the cells and
    filters of the result tabs;
  - [Builtins]: the Python built-ins and pandas operations of the other
    steps ([str], [join], [sorted], the formats ['.1f'] and ['.1%'],
    [try ... except]);
  - [Steps]: [handle_file_upload], [handle_preferences],
    [create_preferences_summary_sheet], the three result tabs,
    [handle_recommendations] and [main]. *)

From Stdlib Require Import ZArith QArith Qabs Lia Lqa String DecimalString.
From stdpp Require Import base decidable option list sorting.

(** * The program *)

(** ** IEEE-754 binary64 arithmetic, as far as the program uses it *)

Module Binary64.
Local Open Scope Z_scope.

(** A finite double is [Fnum * 2 ^ Fexp] with [|Fnum| <= 2 ^ 53].  The pair
    need not be normalised; numeric comparison goes through [to_Q].  The
    exponent range is not modelled: every value the program computes lies
    between [2 ^ -53] and [95] in magnitude (or is zero), far from overflow
    and from the subnormal range. *)
Record float := Float { Fnum : Z; Fexp : Z }.

(** Nearest integer to [n / d] for [d > 0], ties to even. *)
Definition rne (n d : Z) : Z :=
  let q := n / d in
  match 2 * (n mod d) ?= d with
  | Lt => q
  | Gt => q + 1
  | Eq => if Z.even q then q else q + 1
  end.

(** Rounding of the exact result [m * 2 ^ e] to 53 significant bits. *)
Definition round53 (m e : Z) : float :=
  let s := Z.log2 (Z.abs m) - 52 in
  if s <=? 0 then Float m e else Float (rne m (2 ^ s)) (e + s).

Definition of_Z (z : Z) : float := round53 z 0.

Definition add (x y : float) : float :=
  let e := Z.min (Fexp x) (Fexp y) in
  round53 (Fnum x * 2 ^ (Fexp x - e) + Fnum y * 2 ^ (Fexp y - e)) e.

Definition mul (x y : float) : float :=
  round53 (Fnum x * Fnum y) (Fexp x + Fexp y).

(** The [k] with [2 ^ 52 <= a * 2 ^ k / b < 2 ^ 53], for [a, b > 0]. *)
Definition scale_exp (a b : Z) : Z :=
  let l := Z.log2 a - Z.log2 b in
  if b * 2 ^ Z.max l 0 <=? a * 2 ^ Z.max (- l) 0 then 52 - l else 53 - l.

(** Correctly rounded quotient of two integers, [0 <= a] and [0 < b]:
    Python's [a / b] on ints, and the float nearest to a decimal [a / 10^n]. *)
Definition div_Z (a b : Z) : float :=
  if a <=? 0 then Float 0 0
  else
    let k := scale_exp a b in
    round53 (rne (a * 2 ^ Z.max k 0) (b * 2 ^ Z.max (- k) 0)) (- k).

(** Python's [round(x, ndigits)] for a float [x >= 0] and [ndigits >= 0]:
    the exact value of [x] is rounded half-even to [ndigits] decimals, and
    the decimal is converted back to the nearest double. *)
Definition decimal_digits (x : float) (ndigits : Z) : Z :=
  let n := 10 ^ ndigits * Fnum x in
  if 0 <=? Fexp x then n * 2 ^ Fexp x else rne n (2 ^ (- Fexp x)).

Definition round (x : float) (ndigits : Z) : float :=
  div_Z (decimal_digits x ndigits) (10 ^ ndigits).

(** The exact rational value of a double. *)
Definition to_Q (x : float) : Q :=
  if 0 <=? Fexp x then inject_Z (Fnum x * 2 ^ Fexp x)
  else Qmake (Fnum x) (Z.to_pos (2 ^ (- Fexp x))).

Definition le (x y : float) : Prop := (to_Q x <= to_Q y)%Q.
Definition leb (x y : float) : bool := Qle_bool (to_Q x) (to_Q y).
Definition eqb (x y : float) : bool := Qeq_bool (to_Q x) (to_Q y).
End Binary64.

(** ** The module-level generator of Python's [random] *)

Module PyRandom.
Import Binary64.
Local Open Scope Z_scope.

(** The generator is hidden global state.  All the program observes of it
    is the sequence of 53-bit integers [k] from which successive calls of
    [random.random()] build [k / 2 ^ 53]; [mt_index] counts the calls made
    so far. *)
Record Random := { mt_output : nat -> Z; mt_index : nat }.

Definition draw (g : Random) : Z := mt_output g (mt_index g) mod 2 ^ 53.

Definition advance (n : nat) (g : Random) : Random :=
  {| mt_output := mt_output g; mt_index := (mt_index g + n)%nat |}.

(** [random.random()]: the double [k / 2 ^ 53], exactly. *)
Definition random (g : Random) : float * Random :=
  (Float (draw g) (-53), advance 1 g).

(** [random.uniform(a, b)], that is [a + (b - a) * self.random()], called
    with int bounds. *)
Definition uniform (a b : Z) (g : Random) : float * Random :=
  let (u, g') := random g in
  (add (of_Z a) (mul (of_Z (b - a)) u), g').
End PyRandom.

(** ** The pandas operations of the recommendation step *)

Module Pandas.
Import Binary64 PyRandom.

Inductive cell :=
| Str (s : string)
| Int (z : Z)
| Num (x : float)
| NaN.

(** A DataFrame: its column labels and its rows in positional order.  The
    row index is not modelled: [read_excel] yields the default range index,
    list values are assigned by position, and the recommendation step ends
    with [reset_index(drop=True)]. *)
Record DataFrame := { columns : list string; rows : list (list cell) }.

(** What [read_excel] guarantees: distinct column labels (duplicates are
    renamed) and one cell per column in every row. *)
Definition well_formed (df : DataFrame) : Prop :=
  NoDup (columns df) ∧ Forall (λ r, length r = length (columns df)) (rows df).

Inductive exn :=
| ValueError (msg : string)
| KeyError (key : string)
| TypeError (msg : string)
| IndexError (msg : string)
| NoSuchObject (ref : nat).  (* a dangling reference: no Python program has one *)

(** [df.columns.get_loc(name)] *)
Fixpoint get_loc (name : string) (cols : list string) : option nat :=
  match cols with
  | [] => None
  | c :: cols' => if String.eqb c name then Some 0%nat else S <$> get_loc name cols'
  end.

(** [df[name]] read as a list of cells. *)
Definition getitem (name : string) (df : DataFrame) : option (list cell) :=
  i ← get_loc name (columns df); mapM (λ r, r !! i) (rows df).

(** [df[name] = values] for a list [values]: an existing column is
    overwritten in place, a new one is appended as the last column. *)
Definition setitem (name : string) (values : list cell) (df : DataFrame)
  : exn + DataFrame :=
  if negb (length values =? length (rows df))%nat
  then inl (ValueError "Length of values does not match length of index")
  else inr
    match get_loc name (columns df) with
    | Some i =>
        {| columns := columns df;
           rows := zip_with (λ r v, <[i := v]> r) (rows df) values |}
    | None =>
        {| columns := columns df ++ [name];
           rows := zip_with (λ r v, r ++ [v]) (rows df) values |}
    end.

(** [df.insert(loc, name, values)] with the default
    [allow_duplicates=False]. *)
Definition insert (loc : nat) (name : string) (values : list cell)
  (df : DataFrame) : exn + DataFrame :=
  match get_loc name (columns df) with
  | Some _ => inl (ValueError ("cannot insert " ++ name ++ ", already exists"))
  | None =>
      if negb (length values =? length (rows df))%nat
      then inl (ValueError "Length of values does not match length of index")
      else if (length (columns df) <? loc)%nat
      then inl (IndexError "index out of bounds")
      else inr
        {| columns := take loc (columns df) ++ name :: drop loc (columns df);
           rows := zip_with (λ r v, take loc r ++ v :: drop loc r)
                     (rows df) values |}
  end.

(** The sort behind [sort_values(..., ascending=False)].  The call leaves
    [kind] at its default, ['quicksort'], for which pandas and numpy promise
    a reordering of the rows into descending key order and nothing about
    the order of rows with equal keys.  Rows travel with their key. *)
Class SortKind := {
  sort_descending : list (float * list cell) → list (float * list cell);
  sort_descending_perm : ∀ l, sort_descending l ≡ₚ l;
  sort_descending_sorted :
    ∀ l, Sorted (λ a b, le (fst b) (fst a)) (sort_descending l)
}.

Definition float_key (i : nat) (r : list cell) : option float :=
  match r !! i with
  | Some (Num x) => Some x
  | _ => None
  end.

(** [df.sort_values(by, ascending=False)] on a column of floats (the only
    use the program makes of it); other columns are outside the model and
    are reported as a [TypeError]. *)
Definition sort_values_descending `{SortKind} (by_ : string) (df : DataFrame)
  : exn + DataFrame :=
  match get_loc by_ (columns df) with
  | None => inl (KeyError by_)
  | Some i =>
      match mapM (float_key i) (rows df) with
      | None => inl (TypeError "sort key is not a float column")
      | Some keys =>
          inr {| columns := columns df;
                 rows := (sort_descending (zip keys (rows df))).*2 |}
      end
  end.

(** *** Objects, references and the interpreter state *)

(** DataFrames are mutable objects: a variable holds a reference into
    [frames].  [generator] is the state of the [random] module. *)
Record state := { frames : list DataFrame; generator : Random }.

Inductive outcome (A : Type) :=
| Return (a : A) (st : state)
| Raise (e : exn) (st : state).
Arguments Return {A} a st.
Arguments Raise {A} e st.

Definition M (A : Type) : Type := state → outcome A.

#[global] Instance M_ret : MRet M := λ A a st, Return a st.
#[global] Instance M_bind : MBind M := λ A B f m st,
  match m st with
  | Return a st' => f a st'
  | Raise e st' => Raise e st'
  end.

Definition lift {A} (r : exn + A) : M A := λ st,
  match r with
  | inl e => Raise e st
  | inr a => Return a st
  end.

Definition deref (r : nat) : M DataFrame := λ st,
  match frames st !! r with
  | Some df => Return df st
  | None => Raise (NoSuchObject r) st
  end.

Definition alloc (df : DataFrame) : M nat := λ st,
  Return (length (frames st))
    {| frames := frames st ++ [df]; generator := generator st |}.

Definition update (r : nat) (df : DataFrame) : M unit := λ st,
  Return tt {| frames := <[r := df]> (frames st); generator := generator st |}.

(** [df.copy()] *)
Definition df_copy (r : nat) : M nat := df ← deref r; alloc df.

(** [len(df)] *)
Definition df_len (r : nat) : M nat := df ← deref r; mret (length (rows df)).

Definition df_setitem (r : nat) (name : string) (values : list cell) : M unit :=
  df ← deref r; df' ← lift (setitem name values df); update r df'.

Definition df_sort_values `{SortKind} (r : nat) (by_ : string) : M nat :=
  df ← deref r; df' ← lift (sort_values_descending by_ df); alloc df'.

(** [df.reset_index(drop=True)]: a new frame with the same columns and rows. *)
Definition df_reset_index (r : nat) : M nat := df ← deref r; alloc df.

Definition df_insert (r : nat) (loc : nat) (name : string) (values : list cell)
  : M unit :=
  df ← deref r; df' ← lift (insert loc name values df); update r df'.

(** [random.uniform(a, b)] on the module-level generator. *)
Definition random_uniform (a b : Z) : M float := λ st,
  let (x, g) := uniform a b (generator st) in
  Return x {| frames := frames st; generator := g |}.

(** [[body for _ in range(n)]] *)
Fixpoint comprehension {A} (n : nat) (body : M A) : M (list A) :=
  match n with
  | O => mret []
  | S n' => x ← body; l ← comprehension n' body; mret (x :: l)
  end.

(** [range(start, start + n)] as cells. *)
Definition range_cells (start n : nat) : list cell :=
  (λ i, Int (Z.of_nat i)) <$> seq start n.

(** *** [create_dummy_recommendations_with_scores] *)

Definition create_dummy_recommendations_with_scores `{SortKind}
  (original_df : nat) : M nat :=
  recommendations ← df_copy original_df;
  n ← df_len recommendations;
  scores ← comprehension n (x ← random_uniform 65 95; mret (round x 2));
  df_setitem recommendations "Match Score" (Num <$> scores);;
  sorted ← df_sort_values recommendations "Match Score";
  recommendations ← df_reset_index sorted;
  n ← df_len recommendations;
  df_insert recommendations 0 "Rank" (range_cells 1 n);;
  mret recommendations.
End Pandas.

(** ** Session state, weights and filters *)

Module App.
Import Binary64 PyRandom Pandas.

(** The uploaded workbook, as [pd.read_excel(file, sheet_name='Master
    Sailings Grid')] parses it: [None] when it has no sheet of that name.
    [master_sailings_grid_nrows n] is the parse of the same call with
    [nrows=n]: pandas infers the type of a column from the rows it reads, so
    the cells of a partial parse are not always those of the first rows of
    the full parse, and the partial parse is a datum of its own. *)
Record UploadedFile := {
  name : string;
  master_sailings_grid : option DataFrame;
  master_sailings_grid_nrows : nat → option DataFrame
}.

(** [pd.read_excel(uploaded_file, sheet_name='Master Sailings Grid')]: every
    call builds a new frame. *)
Definition read_excel (file : option UploadedFile) : M nat :=
  match file with
  | Some f =>
      match master_sailings_grid f with
      | Some df => alloc df
      | None => lift (inl (ValueError "Worksheet named 'Master Sailings Grid' not found"))
      end
  | None => lift (inl (ValueError "Invalid file path or buffer object type"))
  end.

Record Preferences := {
  ships : list string;
  months : list Z;
  ports : list string
}.

Record factors (A : Type) := Factors { ship : A; month : A; port : A; theo : A }.
Arguments Factors {A} ship month port theo.
Arguments ship {A} f.
Arguments month {A} f.
Arguments port {A} f.
Arguments theo {A} f.

Record Weights := { raw : factors Z; normalized : factors float }.

(** [st.session_state]: the empty dict [{}] of a step not yet completed is
    [None]. *)
Record session_state := {
  uploaded_file : option UploadedFile;
  preferences : option Preferences;
  weights : option Weights
}.

(** *** Step 3: [handle_weights] *)

Inductive weights_view :=
| UploadFirstWarning
| AllZeroError
| WeightDistribution (normalized_weights : factors float).

(** The four arguments are the slider positions (ints from 0 to 10). *)
Definition handle_weights (ship_weight month_weight port_weight theo_weight : Z)
  (s : session_state) : session_state * weights_view :=
  match uploaded_file s with
  | None => (s, UploadFirstWarning)
  | Some _ =>
      let weights_ := [ship_weight; month_weight; port_weight; theo_weight] in
      if forallb (λ w, w =? 0)%Z weights_ then (s, AllZeroError)
      else
        let total_weight := foldl Z.add 0%Z weights_ in
        let normalized_weights :=
          Factors (div_Z ship_weight total_weight)
                  (div_Z month_weight total_weight)
                  (div_Z port_weight total_weight)
                  (div_Z theo_weight total_weight) in
        ({| uploaded_file := uploaded_file s;
            preferences := preferences s;
            weights := Some
              {| raw := Factors ship_weight month_weight port_weight theo_weight;
                 normalized := normalized_weights |} |},
         WeightDistribution normalized_weights)
  end.

(** *** Step 4: what [handle_recommendations] answers *)

Definition missing_steps (s : session_state) : list string :=
  (if uploaded_file s is None then ["Upload file (Step 1)"%string] else [])
  ++ (if preferences s is None then ["Set preferences (Step 2)"%string] else [])
  ++ (if weights s is None then ["Configure weights (Step 3)"%string] else []).

(** The two data sheets of the downloadable workbook.  Its third sheet,
    'Preferences & Weights', is a text rendering of the session and is left
    out. *)
Record workbook := {
  master_sailings_grid_sheet : DataFrame;
  sailing_recommendations_sheet : DataFrame
}.

Inductive recommendations_view :=
| MissingStepsWarning (steps : list string)
| AwaitingClick
| Generated (recommendations_df : nat) (download : workbook).

(** *** Cells, filters and the score threshold of the "Full Results" tab *)

Definition cell_eqb (a b : cell) : bool :=
  match a, b with
  | Str s, Str t => String.eqb s t
  | Int x, Int y => (x =? y)%Z
  | Num x, Num y => eqb x y
  | Int x, Num y | Num y, Int x => eqb (of_Z x) y
  | NaN, NaN => true
  | _, _ => false
  end.

(** [series.isin(values)] on one cell. *)
Definition isin (values : list cell) (c : cell) : bool :=
  existsb (cell_eqb c) values.

(** [st.multiselect(label, options)]: the user's picks among the options. *)
Definition multiselect (options picks : list cell) : list cell :=
  filter (λ p, isin options p = true) picks.

Definition column_cells (i : nat) (rs : list (list cell)) : list cell :=
  (λ r, default NaN (r !! i)) <$> rs.

(** The widget of a filter column: the user's picks when the column exists,
    the empty list when it does not. *)
Definition column_filter (col : string) (picks : list cell) (df : DataFrame)
  : list cell :=
  match get_loc col (columns df) with
  | Some i => multiselect (column_cells i (rows df)) picks
  | None => []
  end.

(** [filtered_df[filtered_df[col].isin(chosen)]], applied when [chosen] is
    not empty and the column exists. *)
Definition apply_filter (col : string) (chosen : list cell) (df : DataFrame)
  (rs : list (list cell)) : list (list cell) :=
  match chosen, get_loc col (columns df) with
  | _ :: _, Some i => filter (λ r, isin chosen (default NaN (r !! i)) = true) rs
  | _, _ => rs
  end.

(** [score >= min_score] on the score cell of a row, for a score that is a
    number or missing (a missing score compares false). *)
Definition score_at_least (j : nat) (min_score : Z) (r : list cell) : bool :=
  match r !! j with
  | Some (Num x) => leb (of_Z min_score) x
  | Some (Int z) => (min_score <=? z)%Z
  | _ => false
  end.
End App.

(** ** Python built-ins and pandas operations of the other steps *)

Module Builtins.
Import Binary64 Pandas App.
Local Open Scope string_scope.

(** [str(n)] for an int. *)
Definition str (n : Z) : string := NilZero.string_of_int (Z.to_int n).

(** [sep.join(items)] for a list of str. *)
Definition join (sep : string) (items : list string) : string :=
  String.concat sep items.

Definition str_item (c : cell) : option string :=
  match c with
  | Str s => Some s
  | _ => None
  end.

(** What [sep.join(items)] demands of a list read from a column: every item
    must be a str. *)
Definition str_items (items : list cell) : exn + list string :=
  match mapM (M:=option) str_item items with
  | Some l => inr l
  | None => inl (TypeError "sequence item: expected str instance")
  end.

(** The str items of a list. *)
Definition texts (items : list cell) : list string := omap str_item items.

(** [l.index(x)] *)
Definition index (x : string) (l : list string) : exn + nat :=
  match get_loc x l with
  | Some i => inr i
  | None => inl (ValueError ("'" ++ x ++ "' is not in list"))
  end.

(** [l[i]] for a list: a negative index counts from the end. *)
Definition list_getitem {A} (l : list A) (i : Z) : exn + A :=
  let j := if (i <? 0)%Z then (i + Z.of_nat (length l))%Z else i in
  if (j <? 0)%Z then inl (IndexError "list index out of range")
  else match l !! Z.to_nat j with
       | Some x => inr x
       | None => inl (IndexError "list index out of range")
       end.

(** A number with one decimal, from its count of tenths. *)
Definition fixed_1 (tenths : Z) : string :=
  str (tenths / 10) ++ "." ++ str (tenths mod 10).

(** [f"{x:.1f}"]: the exact value of the double, rounded half-even to one
    decimal. *)
Definition format_1f (x : float) : string :=
  if (Fnum x <? 0)%Z
  then "-" ++ fixed_1 (decimal_digits (Float (- Fnum x) (Fexp x)) 1)
  else fixed_1 (decimal_digits x 1).

(** [f"{x:.1%}"]: the float product [x * 100] in the format ['.1f'],
    followed by a percent sign. *)
Definition format_percent (x : float) : string :=
  format_1f (mul x (of_Z 100)) ++ "%".

(** [series.dropna()] *)
Definition notna (c : cell) : bool :=
  match c with
  | NaN => false
  | _ => true
  end.

Definition dropna (cs : list cell) : list cell := filter (λ c, notna c = true) cs.

(** [series.unique()]: the values in the order of their first appearance. *)
Definition unique (cs : list cell) : list cell :=
  foldl (λ seen c, if isin seen c then seen else (seen ++ [c])%list) [] cs.

Definition is_str (c : cell) : bool :=
  match c with
  | Str _ => true
  | _ => false
  end.

Definition number (c : cell) : option Q :=
  match c with
  | Int z => Some (inject_Z z)
  | Num x => Some (to_Q x)
  | _ => None
  end.

(** [a <= b] on values of one kind: str by code points, numbers by value. *)
Definition cell_leb (a b : cell) : bool :=
  match a, b with
  | Str s, Str t => String.leb s t
  | _, _ =>
      match number a, number b with
      | Some x, Some y => Qle_bool x y
      | _, _ => false
      end
  end.

Definition cell_le (a b : cell) : Prop := cell_leb a b = true.

#[global] Instance cell_le_dec a b : Decision (cell_le a b).
Proof. unfold cell_le. apply _. Defined.

(** [sorted(values)] on the values of a column: a list that mixes str with
    numbers or with a missing cell (a float) raises, as [<] does between
    them.  A missing cell among numbers compares false with everything and
    raises nothing; the program uses the result as a set of options. *)
Definition sorted (values : list cell) : exn + list cell :=
  if forallb is_str values || forallb (λ c, negb (is_str c)) values
  then inr (merge_sort cell_le values)
  else inl (TypeError "'<' not supported between instances of 'str' and 'int'").

(** [try: body except: handler] *)
Definition try_except {A} (body : M A) (handler : exn → M A) : M A := λ st,
  match body st with
  | Return a st' => Return a st'
  | Raise e st' => handler e st'
  end.

(** [pd.read_excel(uploaded_file, sheet_name='Master Sailings Grid',
    nrows=nrows)]: the partial parse of the workbook. *)
Definition read_excel_nrows (file : option UploadedFile) (nrows : nat) : M nat :=
  match file with
  | Some f =>
      match master_sailings_grid_nrows f nrows with
      | Some df => alloc df
      | None => lift (inl (ValueError "Worksheet named 'Master Sailings Grid' not found"))
      end
  | None => lift (inl (ValueError "Invalid file path or buffer object type"))
  end.

(** [df.head(n)] *)
Definition df_head (r : nat) (n : nat) : M nat :=
  df ← deref r; alloc {| columns := columns df; rows := take n (rows df) |}.

(** [repr(labels)] for a list of str without quote characters. *)
Definition repr_labels (labels : list string) : string :=
  "[" ++ join ", " ((λ label, "'" ++ label ++ "'") <$> labels) ++ "]".

(** The message of the [KeyError] that pandas 2 raises when [missing], a
    part of the requested labels [names], is not among the columns. *)
Definition not_in_index (names missing : list string) : string :=
  if (length missing =? length names)%nat
  then "None of [Index(" ++ repr_labels names
       ++ ", dtype='object')] are in the [columns]"
  else repr_labels missing ++ " not in index".

(** [df[names]] for a list of labels: a new frame with these columns, in
    this order; a [KeyError] naming the missing labels when there are
    any. *)
Definition getitem_columns (names : list string) (df : DataFrame)
  : exn + DataFrame :=
  match mapM (M:=option) (λ c, get_loc c (columns df)) names with
  | Some locs =>
      inr {| columns := names;
             rows := (λ r : list cell, (λ i, default NaN (r !! i)) <$> locs)
                     <$> rows df |}
  | None =>
      inl (KeyError
             (not_in_index names
                (filter (λ c, get_loc c (columns df) = None) names)))
  end.

Definition df_getitem_columns (r : nat) (names : list string) : M nat :=
  df ← deref r; df' ← lift (getitem_columns names df); alloc df'.

(** [df[name]] *)
Definition df_getitem (r : nat) (name : string) : M (list cell) :=
  df ← deref r;
  match getitem name df with
  | Some cells => mret cells
  | None => lift (inl (KeyError name))
  end.
End Builtins.

(** ** The Streamlit steps *)

Module Steps.
Import Binary64 PyRandom Pandas App Builtins.
Local Open Scope string_scope.

(** *** Step 1: [handle_file_upload] *)

Inductive upload_view :=
| FilePreview (file_name : string) (preview : DataFrame)
    (available_columns : list string)
| ReadError (e : exn)
| UploadWarning.

(** [uploaded] is the value of the file uploader.  The file size shown
    beside the name is not part of the model. *)
Definition handle_file_upload (uploaded : option UploadedFile)
  (s : session_state) : M (session_state * upload_view) :=
  match uploaded with
  | Some f =>
      let s' := {| uploaded_file := Some f;
                   preferences := preferences s;
                   weights := weights s |} in
      try_except
        (r ← read_excel_nrows (Some f) 5;
         df ← deref r;
         mret (s', FilePreview (name f) df (columns df)))
        (λ e, mret (s', ReadError e))
  | None => mret (s, UploadWarning)
  end.

(** *** Step 2: [handle_preferences] *)

Definition default_ships : list string :=
  ["IC"; "ST"; "WN"; "SY"; "AL"; "OV"; "HM"; "VY"; "QN"; "GR"; "RH"; "LB"].

Definition default_ports : list string :=
  ["MIA"; "FLL"; "PCA"; "BAY"; "NYC"; "NOR"].

Definition month_names : list string :=
  ["January"; "February"; "March"; "April"; "May"; "June";
   "July"; "August"; "September"; "October"; "November"; "December"].

(** The list the summary rebinds [month_names] to. *)
Definition short_month_names : list string :=
  ["Jan"; "Feb"; "Mar"; "Apr"; "May"; "Jun";
   "Jul"; "Aug"; "Sep"; "Oct"; "Nov"; "Dec"].

(** [st.multiselect(label, options)] with str options: the user's picks
    among them. *)
Definition multiselect_str (options picks : list string) : list string :=
  filter (λ p, existsb (String.eqb p) options = true) picks.

Record preferences_summary := {
  ships_line : string;
  months_line : string;
  ports_line : string
}.

Inductive preferences_view :=
| PleaseUploadFirst
| PreferencesForm (available_ships available_ports : list string)
    (summary : option preferences_summary).

(** The three arguments are what the user picks in the three multiselects. *)
Definition handle_preferences (ship_picks month_picks port_picks : list string)
  (s : session_state) : M (session_state * preferences_view) :=
  match uploaded_file s with
  | None => mret (s, PleaseUploadFirst)
  | Some _ =>
      available_ships ←
        try_except
          (r ← read_excel (uploaded_file s);
           df ← deref r;
           match get_loc "Ship Code" (columns df) with
           | Some i =>
               available ← lift (sorted (unique (dropna (column_cells i (rows df)))));
               lift (str_items available);;
               mret (texts available)
           | None => mret default_ships
           end)
          (λ _, mret default_ships);
      let ship_list := multiselect_str available_ships ship_picks in
      let selected_month_names := multiselect_str month_names month_picks in
      month_list ←
        mapM (λ month, i ← lift (index month month_names);
                       mret (Z.of_nat i + 1)%Z)
             selected_month_names;
      available_ports ←
        try_except
          (r ← read_excel (uploaded_file s);
           df ← deref r;
           match get_loc "Originating Port" (columns df) with
           | Some i =>
               available ← lift (sorted (unique (dropna (column_cells i (rows df)))));
               lift (str_items (take 10 available));;
               mret (texts available)
           | None => mret default_ports
           end)
          (λ _, mret default_ports);
      let port_list := multiselect_str available_ports port_picks in
      let s' := {| uploaded_file := uploaded_file s;
                   preferences := Some {| ships := ship_list;
                                          months := month_list;
                                          ports := port_list |};
                   weights := weights s |} in
      match ship_list, month_list, port_list with
      | [], [], [] => mret (s', PreferencesForm available_ships available_ports None)
      | _, _, _ =>
          month_display ←
            mapM (λ m, short ← lift (list_getitem short_month_names (m - 1));
                       mret (short ++ " (" ++ str m ++ ")"))
                 month_list;
          mret (s', PreferencesForm available_ships available_ports
                  (Some {| ships_line := if ship_list is [] then "None specified"
                                         else join ", " ship_list;
                           months_line := if month_list is [] then "None specified"
                                          else join ", " month_display;
                           ports_line := if port_list is [] then "None specified"
                                         else join ", " port_list |}))
      end
  end.

(** *** The 'Preferences & Weights' sheet:
    [create_preferences_summary_sheet] *)

(** The function receives the two session dicts; an empty dict ([None]) has
    none of the keys it reads.  The result is the frame written to the sheet
    'Preferences & Weights'. *)
Definition create_preferences_summary_sheet (preferences_ : option Preferences)
  (weights_ : option Weights) : exn + DataFrame :=
  match preferences_ with
  | None => inl (KeyError "ships")
  | Some p =>
      match weights_ with
      | None => inl (KeyError "normalized")
      | Some w =>
          let normalized_weights := normalized w in
          let raw_weights := raw w in
          let summary_data : list (list string) :=
            [ ["PREFERENCES:"; ""];
              ["Ships:"; if ships p is [] then "None specified"
                         else join ", " (ships p)];
              ["Months:"; if months p is [] then "None specified"
                          else join ", " (str <$> months p)];
              ["Ports:"; if ports p is [] then "None specified"
                         else join ", " (ports p)];
              [""; ""];
              ["WEIGHTS:"; ""];
              ["Ship Importance:"; format_percent (ship normalized_weights)];
              ["Month Importance:"; format_percent (month normalized_weights)];
              ["Port Importance:"; format_percent (port normalized_weights)];
              ["Theo Adjustment Importance:"; format_percent (theo normalized_weights)];
              [""; ""];
              ["RAW WEIGHTS (0-10):"; ""];
              ["Ship (Raw):"; str (ship raw_weights)];
              ["Month (Raw):"; str (month raw_weights)];
              ["Port (Raw):"; str (port raw_weights)];
              ["Theo (Raw):"; str (theo raw_weights)] ] in
          inr {| columns := ["Setting"; "Value"];
                 rows := (λ row : list string, Str <$> row) <$> summary_data |}
      end
  end.

(** *** The "Top Recommendations" tab: [display_top_recommendations] *)

(** [f"{x:.1f}%"] applied to a cell of the 'Match Score' column. *)
Definition format_score (c : cell) : exn + cell :=
  match c with
  | Num x => inr (Str (format_1f x ++ "%"))
  | Int z => inr (Str (format_1f (of_Z z) ++ "%"))
  | NaN => inr (Str "nan%")
  | Str _ => inl (ValueError "Unknown format code 'f' for object of type 'str'")
  end.

Fixpoint apply_format (cells : list cell) : exn + list cell :=
  match cells with
  | [] => inr []
  | c :: cells' =>
      match format_score c with
      | inl e => inl e
      | inr c' =>
          match apply_format cells' with
          | inl e => inl e
          | inr l => inr (c' :: l)
          end
      end
  end.

(** The function returns the frame it hands to [st.dataframe]. *)
Definition display_top_recommendations (df : nat) : M nat :=
  top_10 ← df_head df 10;
  d ← deref df;
  let available_columns := columns d in
  let display_columns :=
    (["Rank"; "Match Score"]
     ++ filter (λ col, existsb (String.eqb col) available_columns = true)
          ["Ship Code"; "Month"; "Sailing Date"; "Originating Port"])%list in
  selected ← df_getitem_columns top_10 display_columns;
  display_df ← df_copy selected;
  scores ← df_getitem display_df "Match Score";
  formatted ← lift (apply_format scores);
  df_setitem display_df "Match Score" formatted;;
  mret display_df.

(** *** The "Score Breakdown" tab: [display_score_breakdown] *)

(** Of each expander the view keeps the formatted score and the labels of
    the detail lines it shows.  The text of the other values
    ([f"{row[col]}"], the str of a cell) is not modelled. *)
Record score_breakdown := {
  final_match_score : cell;
  sailing_details : list string
}.

(** [row[name]] on a row of [df.iterrows()] *)
Definition row_getitem (cols : list string) (row : list cell) (name : string)
  : exn + cell :=
  match get_loc name cols with
  | Some i => inr (default NaN (row !! i))
  | None => inl (KeyError name)
  end.

(** [col in row.index and pd.notna(row[col])] *)
Definition detail_shown (cols : list string) (row : list cell) (col : string)
  : bool :=
  match get_loc col cols with
  | Some i => notna (default NaN (row !! i))
  | None => false
  end.

Definition display_score_breakdown (df : nat) : M (list score_breakdown) :=
  top_5 ← df_head df 5;
  d ← deref top_5;
  mapM (λ row,
          lift (row_getitem (columns d) row "Rank");;
          score ← lift (row_getitem (columns d) row "Match Score");
          text ← lift (format_score score);
          mret {| final_match_score := text;
                  sailing_details :=
                    filter (λ col, detail_shown (columns d) row col = true)
                      ["Ship Code"; "Sailing Date"; "Originating Port";
                       "Rdss Product Code"; "Month"] |})
       (rows d).

(** *** The "Full Results" tab: [display_full_results] *)

(** The table shown by the tab.  [ship_picks] and [month_picks] are what
    the user selects in the two multiselects, [min_score] the slider.  The
    options of the month filter are [sorted(df['Month'].unique())], which
    raises on a column that mixes str with numbers or missing cells; the
    comparison of the scores with the slider raises on a score that is a
    str. *)
Definition display_full_results (df : DataFrame)
  (ship_picks month_picks : list cell) (min_score : Z) : exn + DataFrame :=
  let ship_filter := column_filter "Ship Code" ship_picks df in
  match
    match get_loc "Month" (columns df) with
    | Some i =>
        match sorted (unique (column_cells i (rows df))) with
        | inr options => inr (multiselect options month_picks)
        | inl e => inl e
        end
    | None => inr []
    end
  with
  | inl e => inl e
  | inr month_filter =>
      let filtered := apply_filter "Ship Code" ship_filter df (rows df) in
      let filtered := apply_filter "Month" month_filter df filtered in
      match get_loc "Match Score" (columns df) with
      | None => inl (KeyError "Match Score")
      | Some j =>
          if existsb (λ r, is_str (default NaN (r !! j))) filtered
          then inl (TypeError
                      "'>=' not supported between instances of 'str' and 'int'")
          else inr {| columns := columns df;
                      rows := filter (λ r, score_at_least j min_score r = true)
                                filtered |}
      end
  end.

(** *** Step 4: [handle_recommendations] *)

(** [clicked] is the state of the "Generate Recommendations" button.  The
    three tabs are rendered before the download is built: they work on
    copies of [recommendations_df] and what they show is not part of the
    answer, but an exception of theirs ends the run.  The widgets of the
    "Full Results" tab are created in this very run, so they hold their
    defaults: nothing picked, the slider at 70. *)
Definition handle_recommendations `{SortKind} (clicked : bool)
  (s : session_state) : M recommendations_view :=
  match missing_steps s with
  | _ :: _ => mret (MissingStepsWarning (missing_steps s))
  | [] =>
      if clicked then
        original_df ← read_excel (uploaded_file s);
        recommendations_df ← create_dummy_recommendations_with_scores original_df;
        display_top_recommendations recommendations_df;;
        display_score_breakdown recommendations_df;;
        shown ← deref recommendations_df;
        lift (display_full_results shown [] [] 70);;
        original ← deref original_df;
        recommendations ← deref recommendations_df;
        mret (Generated recommendations_df
                {| master_sailings_grid_sheet := original;
                   sailing_recommendations_sheet := recommendations |})
      else mret AwaitingClick
  end.

(** *** [main]: one run of the script *)

(** The step chosen in the sidebar, with the values of its widgets. *)
Inductive interaction :=
| UploadData (uploaded : option UploadedFile)
| SetPreferences (ship_picks month_picks port_picks : list string)
| ConfigureWeights (ship_weight month_weight port_weight theo_weight : Z)
| GenerateRecommendations (clicked : bool).

Inductive page :=
| UploadPage (v : upload_view)
| PreferencesPage (v : preferences_view)
| WeightsPage (v : weights_view)
| RecommendationsPage (v : recommendations_view).

(** The session of a new visitor, after [main] has initialised the three
    keys. *)
Definition new_session : session_state :=
  {| uploaded_file := None; preferences := None; weights := None |}.

Definition main `{SortKind} (i : interaction) (s : session_state)
  : M (session_state * page) :=
  match i with
  | UploadData uploaded =>
      '(s', v) ← handle_file_upload uploaded s; mret (s', UploadPage v)
  | SetPreferences ship_picks month_picks port_picks =>
      '(s', v) ← handle_preferences ship_picks month_picks port_picks s;
      mret (s', PreferencesPage v)
  | ConfigureWeights ship_weight month_weight port_weight theo_weight =>
      let '(s', v) :=
        handle_weights ship_weight month_weight port_weight theo_weight s in
      mret (s', WeightsPage v)
  | GenerateRecommendations clicked =>
      v ← handle_recommendations clicked s; mret (s, RecommendationsPage v)
  end.
End Steps.

(** * Vocabulary of the statements *)

(** ** The frames the recommendation step computes *)

Module Shape.
Import Binary64 PyRandom Pandas App.

(** The scores the list comprehension draws: one call of
    [round(random.uniform(65, 95), 2)] per row, in row order. *)
Fixpoint drawn_scores (g : Random) (n : nat) : list float :=
  match n with
  | O => []
  | S n' => round (uniform 65 95 g).1 2 :: drawn_scores (advance 1 g) n'
  end.

(** A row after [df['Match Score'] = scores]. *)
Definition attach_score (cols : list string) (y : float) (r : list cell)
  : list cell :=
  match get_loc "Match Score" cols with
  | Some i => <[i := Num y]> r
  | None => r ++ [Num y]
  end.

Definition score_columns (cols : list string) : list string :=
  match get_loc "Match Score" cols with
  | Some _ => cols
  | None => cols ++ ["Match Score"%string]
  end.

Definition score_loc (cols : list string) : nat :=
  match get_loc "Match Score" cols with
  | Some i => i
  | None => length cols
  end.

(** The frame after [df['Match Score'] = scores], each row with its score. *)
Definition scored_frame (cols : list string) (scored : list (float * list cell))
  : DataFrame :=
  {| columns := score_columns cols;
     rows := (λ p, attach_score cols p.1 p.2) <$> scored |}.

(** The frame the step returns, from the scored rows in their final order. *)
Definition ranked (cols : list string) (scored : list (float * list cell))
  : DataFrame :=
  {| columns := "Rank"%string :: score_columns cols;
     rows := zip_with (λ r v, v :: r) (rows (scored_frame cols scored))
               (range_cells 1 (length scored)) |}.

(** The sort keys and rows handed to the sort, and the frames computed from
    the original frame [df] and the drawn scores [ys]. *)
Definition keyed_rows (cols : list string) (ys : list float)
  (rs : list (list cell)) : list (float * list cell) :=
  (λ p, (p.1, attach_score cols p.1 p.2)) <$> zip ys rs.

Definition sorted_frame `{SortKind} (df : DataFrame) (ys : list float)
  : DataFrame :=
  {| columns := score_columns (columns df);
     rows := (sort_descending (keyed_rows (columns df) ys (rows df))).*2 |}.

Definition recommendations_frame `{SortKind} (df : DataFrame) (ys : list float)
  : DataFrame :=
  {| columns := "Rank"%string :: score_columns (columns df);
     rows := zip_with (λ r v, v :: r) (rows (sorted_frame df ys))
               (range_cells 1 (length (rows df))) |}.

(** A score as the step produces it: the double nearest to a two-decimal
    number between 65.00 and 95.00. *)
Definition two_decimal_score (y : float) : Prop :=
  ∃ h : Z, (6500 ≤ h ≤ 9500)%Z ∧ y = div_Z h 100 ∧ (65 <= to_Q y <= 95)%Q.

(** A normalised weight [y] for the raw weight [x] and the sum [total]: it
    lies in [0, 1] and is [x / total] up to the rounding of one float
    division. *)
Definition normalized_from (x total : Z) (y : float) : Prop :=
  (0 <= to_Q y <= 1)%Q
  ∧ (Qabs (to_Q y - (x # Z.to_pos total)) <= 1 # 10000000000000000)%Q.

(** The boolean form of [normalized_from], and the check of one quotient
    [x / total] with [x <= total]. *)
Definition normalized_from_b (x total : Z) (y : float) : bool :=
  Qle_bool 0 (to_Q y) && Qle_bool (to_Q y) 1
  && Qle_bool (Qabs (to_Q y - (x # Z.to_pos total))) (1 # 10000000000000000).

Definition quotient_checked (total x : Z) : bool :=
  (total <? x)%Z || normalized_from_b x total (div_Z x total).

(** The four normalised weights add up to 1 within the tolerance 1e-9. *)
Definition sums_to_one (nw : factors float) : Prop :=
  (Qabs (to_Q (ship nw) + to_Q (month nw) + to_Q (port nw) + to_Q (theo nw) - 1)
   <= 1 # 1000000000)%Q.

(** The aggregate of the specification: 100 times the weighted sum of the
    four factor scores. *)
Definition weighted_sum (w s : factors Q) : Q :=
  100 * (ship w * ship s + month w * month s + port w * port s + theo w * theo s).

(** The state a run ends in, returned or raised. *)
Definition final_state {A} (o : outcome A) : state :=
  match o with
  | Return _ st | Raise _ st => st
  end.
End Shape.

(** ** Sample inputs *)

Module Samples.
Import Binary64 PyRandom Pandas App.
Local Open Scope string_scope.

Definition sample_sheet : DataFrame :=
  {| columns := ["Ship Code"; "Month"; "Originating Port"];
     rows := [[Str "IC"; Int 1; Str "MIA"];
              [Str "ST"; Int 2; Str "FLL"];
              [Str "IC"; Int 1; Str "MIA"]] |}.

(** Successive calls of [random.random()] return 0, 1/8, 2/8, 3/8, ... *)
Definition sample_generator : Random :=
  {| mt_output := λ i, (Z.of_nat i * 2 ^ 50)%Z; mt_index := 0 |}.

(** Every call of [random.random()] returns 0. *)
Definition constant_generator : Random :=
  {| mt_output := λ _, 0%Z; mt_index := 0 |}.

Definition sample_state : state :=
  {| frames := [sample_sheet]; generator := sample_generator |}.

(** A workbook holding [sample_sheet].  No column of the sheet has a blank
    cell, so a partial parse types the columns as the full parse does. *)
Definition sample_file : UploadedFile :=
  {| name := "sailings.xlsx";
     master_sailings_grid := Some sample_sheet;
     master_sailings_grid_nrows := λ n,
       Some {| columns := columns sample_sheet;
               rows := take n (rows sample_sheet) |} |}.

(** The session after steps 1 and 2. *)
Definition sample_session : session_state :=
  {| uploaded_file := Some sample_file;
     preferences := Some {| ships := ["IC"]; months := [1%Z]; ports := ["MIA"] |};
     weights := None |}.

(** The same session after step 3 with the sliders at their default, 3. *)
Definition ready_session : session_state := (handle_weights 3 3 3 3 sample_session).1.


(** A sheet with none of the ship, month, port and profitability fields. *)
Definition dates_only_file : UploadedFile :=
  {| name := "dates.xlsx";
     master_sailings_grid :=
       Some {| columns := ["Sailing Date"];
               rows := [[Str "2025-01-04"]; [Str "2025-01-11"]] |};
     master_sailings_grid_nrows := λ n,
       Some {| columns := ["Sailing Date"];
               rows := take n [[Str "2025-01-04"]; [Str "2025-01-11"]] |} |}.

Definition dates_only_session : session_state :=
  {| uploaded_file := Some dates_only_file;
     preferences := preferences ready_session;
     weights := weights ready_session |}.

(** A fresh interpreter: no frame yet. *)
Definition start_state : state := {| frames := []; generator := sample_generator |}.

(** A sheet that already has a column named 'Match Score'. *)
Definition prescored_sheet : DataFrame :=
  {| columns := ["Ship Code"; "Match Score"]; rows := [[Str "IC"; Int 99]] |}.

(** A sheet that already has a column named 'Rank'. *)
Definition preranked_sheet : DataFrame :=
  {| columns := ["Rank"; "Ship Code"]; rows := [[Int 7; Str "IC"]] |}.

(** The positions of a weight slider. *)
Definition slider_positions : list Z := [0; 1; 2; 3; 4; 5; 6; 7; 8; 9; 10]%Z.

(** The sums four sliders can reach. *)
Definition slider_totals : list Z := Z.of_nat <$> seq 1 40.
End Samples.

(** ** A sort kind that meets the contract *)

Module SortKinds.
Import Binary64 Pandas.

Definition descending (a b : float * list cell) : Prop := le b.1 a.1.

#[global] Instance descending_dec a b : Decision (descending a b).
Proof.
  unfold descending, le.
  destruct (Qlt_le_dec (to_Q a.1) (to_Q b.1)) as [Hlt|Hle]; [right|by left].
  by apply Qlt_not_le.
Defined.

#[global] Instance descending_total : Total descending.
Proof.
  intros a b. unfold descending, le.
  destruct (Qlt_le_dec (to_Q a.1) (to_Q b.1)) as [Hlt|Hle]; [right|by left].
  by apply Qlt_le_weak.
Qed.

(** A stable merge sort. *)
Definition stable_kind : SortKind :=
  {| sort_descending := merge_sort descending;
     sort_descending_perm := merge_sort_Permutation descending;
     sort_descending_sorted := Sorted_merge_sort descending |}.
End SortKinds.

(** ** Vocabulary for the steps *)

Module Views.
Import Binary64 PyRandom Pandas App Shape Builtins Steps.

(** The options a multiselect of step 2 offers for the column [col]: the
    distinct text values of the column in sorted order when the sheet has
    the column and every cell that is not missing is a str, the fixed list
    [fallback] otherwise. *)
Definition column_options (file : option UploadedFile) (col : string)
  (fallback : list string) : list string :=
  match file with
  | Some f =>
      match master_sailings_grid f with
      | Some df =>
          match get_loc col (columns df) with
          | Some i =>
              let values := dropna (column_cells i (rows df)) in
              if forallb is_str values
              then texts (merge_sort cell_le (unique values))
              else fallback
          | None => fallback
          end
      | None => fallback
      end
  | None => fallback
  end.

(** Values of one kind, which [sorted] accepts: all of them str, or none
    of them. *)
Definition one_kind (values : list cell) : bool :=
  forallb is_str values || forallb (λ c, negb (is_str c)) values.

(** The 'Month' column of a frame, when there is one, holds values of one
    kind: it does not mix text with numbers or with blank cells. *)
Definition month_one_kind (df : DataFrame) : bool :=
  match get_loc "Month" (columns df) with
  | Some i => one_kind (column_cells i (rows df))
  | None => true
  end.

(** What the month filter of the "Full Results" tab holds for the picks of
    the user, once its options were sorted. *)
Definition month_choice (df : DataFrame) (picks : list cell) : list cell :=
  match get_loc "Month" (columns df) with
  | Some i => multiselect (merge_sort cell_le (unique (column_cells i (rows df)))) picks
  | None => []
  end.

(** No score of the frame is a str. *)
Definition numeric_scores (df : DataFrame) : bool :=
  match get_loc "Match Score" (columns df) with
  | Some j => forallb (λ r, negb (is_str (default NaN (r !! j)))) (rows df)
  | None => true
  end.

(** The number step 2 stores for a month name. *)
Definition month_number (month : string) : Z :=
  (Z.of_nat (default 0%nat (get_loc month month_names)) + 1)%Z.

(** What step 2 offers for a column of the sheet [df]: [fallback] when the
    sheet has no such column or the column holds a value that is neither
    text nor missing, the text values of the column otherwise. *)
Definition offered (df : DataFrame) (col : string) (fallback options : list string)
  : Prop :=
  match get_loc col (columns df) with
  | None => options = fallback
  | Some i =>
      if forallb is_str (dropna (column_cells i (rows df)))
      then ∀ x, x ∈ options ↔ Str x ∈ column_cells i (rows df)
      else options = fallback
  end.

(** The sliders of step 3 only take the values 0 to 10. *)
Definition slider_values (i : interaction) : Prop :=
  match i with
  | ConfigureWeights ship_weight month_weight port_weight theo_weight =>
      (0 ≤ ship_weight ≤ 10)%Z ∧ (0 ≤ month_weight ≤ 10)%Z
      ∧ (0 ≤ port_weight ≤ 10)%Z ∧ (0 ≤ theo_weight ≤ 10)%Z
  | _ => True
  end.

(** The sessions a visitor can be in: the new session, and the session any
    run of [main] that returns leaves behind.  A run that raises stores
    nothing. *)
Inductive reachable `{SortKind} : session_state → Prop :=
| reachable_new : reachable new_session
| reachable_main i s st s' v st' :
    reachable s → slider_values i → main i s st = Return (s', v) st' →
    reachable s'.

(** Stored weights as step 3 computes them from sliders that are not all
    zero. *)
Definition valid_weights (w : Weights) : Prop :=
  let total := (ship (raw w) + month (raw w) + port (raw w) + theo (raw w))%Z in
  ((0 ≤ ship (raw w) ≤ 10)%Z ∧ (0 ≤ month (raw w) ≤ 10)%Z
   ∧ (0 ≤ port (raw w) ≤ 10)%Z ∧ (0 ≤ theo (raw w) ≤ 10)%Z)
  ∧ (0 < total)%Z
  ∧ normalized w = Factors (div_Z (ship (raw w)) total) (div_Z (month (raw w)) total)
                           (div_Z (port (raw w)) total) (div_Z (theo (raw w)) total)
  ∧ sums_to_one (normalized w).

Definition consistent (s : session_state) : Prop :=
  match weights s with
  | Some w => is_Some (uploaded_file s) ∧ valid_weights w
  | None => True
  end
  ∧ match preferences s with
    | Some p => is_Some (uploaded_file s) ∧ Forall (λ m, 1 ≤ m ≤ 12)%Z (months p)
    | None => True
    end.

(** The tenths of a percent that [f"{x:.1%}"] shows for a weight [x]. *)
Definition percent_tenths (x : float) : Z := decimal_digits (mul x (of_Z 100)) 1.

(** The check of one displayed quotient [x / total]: the text is the one of
    [percent_tenths], which is within half a tenth of [100 * x / total]. *)
Definition percent_checked (total x : Z) : bool :=
  (total <? x)%Z
  || (String.eqb (format_percent (div_Z x total))
        (fixed_1 (percent_tenths (div_Z x total)) ++ "%")
      && (2 * Z.abs (percent_tenths (div_Z x total) * total - 1000 * x) <=? total)%Z).

(** The keys of the two weight dicts. *)
Inductive factor := Ship | Month | Port | Theo.

Definition weight_of {A} (k : factor) (w : factors A) : A :=
  match k with
  | Ship => ship w
  | Month => month w
  | Port => port w
  | Theo => theo w
  end.

(** The check of two quotients over the same total: they compare as their
    numerators do, and a quotient is zero only for the numerator 0. *)
Definition order_checked (total x1 x2 : Z) : bool :=
  (total <? x1)%Z || (total <? x2)%Z
  || (Bool.eqb (x1 <=? x2)%Z (leb (div_Z x1 total) (div_Z x2 total))
      && Bool.eqb (x1 =? 0)%Z (Qle_bool (to_Q (div_Z x1 total)) 0)).

(** The columns of the "Top Recommendations" table for the frame [d], and
    the table itself: of each of the first ten rows the cells at [locs], the
    second one replaced by the formatted score. *)
Definition top_columns (d : DataFrame) : list string :=
  "Rank"%string :: "Match Score"%string
  :: filter (λ col, existsb (String.eqb col) (columns d) = true)
       ["Ship Code"; "Month"; "Sailing Date"; "Originating Port"]%string.

Definition top_table (d : DataFrame) (rank_loc : nat) (other_locs : list nat)
  (formatted : list cell) : DataFrame :=
  {| columns := top_columns d;
     rows := zip_with
               (λ (row : list cell) v,
                  default NaN (row !! rank_loc) :: v
                  :: ((λ k, default NaN (row !! k)) <$> other_locs))
               (take 10 (rows d)) formatted |}.
End Views.

(** ** More sample inputs *)

Module MoreSamples.
Import Binary64 PyRandom Pandas App Samples Builtins Steps.
Local Open Scope string_scope.

(** An interpreter holding the sheet that already has a 'Rank' column. *)
Definition preranked_state : state :=
  {| frames := [preranked_sheet]; generator := sample_generator |}.

(** A workbook without a sheet named 'Master Sailings Grid'. *)
Definition sheetless_file : UploadedFile :=
  {| name := "notes.xlsx";
     master_sailings_grid := None;
     master_sailings_grid_nrows := λ _, None |}.

(** A scored table written by hand, with an int among the scores. *)
Definition scored_table : DataFrame :=
  {| columns := ["Rank"; "Month"; "Match Score"];
     rows := [[Int 1; Int 3; Num (div_Z 9125 100)]; [Int 2; Int 7; Int 80]] |}.

Definition scored_table_state : state :=
  {| frames := [scored_table]; generator := sample_generator |}.

(** A session whose file has no 'Master Sailings Grid' sheet. *)
Definition sheetless_session : session_state :=
  {| uploaded_file := Some sheetless_file;
     preferences := preferences ready_session;
     weights := weights ready_session |}.
(** A sheet whose 'Month' column holds a number and a text. *)
Definition mixed_month_sheet : DataFrame :=
  {| columns := ["Ship Code"; "Month"];
     rows := [[Str "IC"; Int 1]; [Str "ST"; Str "Feb"]] |}.

Definition mixed_month_file : UploadedFile :=
  {| name := "mixed.xlsx";
     master_sailings_grid := Some mixed_month_sheet;
     master_sailings_grid_nrows := λ n,
       Some {| columns := columns mixed_month_sheet;
               rows := take n (rows mixed_month_sheet) |} |}.

Definition mixed_month_session : session_state :=
  {| uploaded_file := Some mixed_month_file;
     preferences := preferences ready_session;
     weights := weights ready_session |}.

(** A scored table written by hand, with a text among the scores. *)
Definition text_score_table : DataFrame :=
  {| columns := ["Rank"; "Match Score"];
     rows := [[Int 1; Num (div_Z 9125 100)]; [Int 2; Str "high"]] |}.
End MoreSamples.

(** * Properties *)

(** ** Rounding *)

Module Binary64Facts.
Import Binary64.
Local Open Scope Z_scope.

(** The model at a few values whose doubles are well known: [3 / 10] is
    0x3FD3333333333333, [0.1 + 0.2] is 0x3FD3333333333334, and
    [round(65.125, 2)], a tie, goes to the even 65.12. *)
Example div_Z_three_tenths : div_Z 3 10 = Float 5404319552844595 (-54).
Proof. reflexivity. Qed.

Example add_tenth_two_tenths :
  add (div_Z 1 10) (div_Z 2 10) = Float 5404319552844596 (-54).
Proof. reflexivity. Qed.

Example round_tie_to_even : decimal_digits (div_Z 65125 1000) 2 = 6512.
Proof. reflexivity. Qed.

Lemma rne_bounds (n d lo hi : Z) :
  0 < d → lo * d ≤ n → n ≤ hi * d → lo ≤ rne n d ≤ hi.
Proof.
  intros Hd Hlo Hhi. unfold rne.
  pose proof (Z.div_mod n d ltac:(lia)) as Hdm.
  pose proof (Z.mod_pos_bound n d Hd) as Hr.
  assert (lo ≤ n / d) by (apply Z.div_le_lower_bound; lia).
  assert (n / d ≤ hi) by (apply Z.div_le_upper_bound; lia).
  assert (0 < n mod d → n / d + 1 ≤ hi) by nia.
  destruct (Z.compare_spec (2 * (n mod d)) d); [destruct (Z.even (n / d))|..]; lia.
Qed.

Lemma round53_small (m e : Z) : Z.abs m < 2 ^ 53 → round53 m e = Float m e.
Proof.
  intros Hm. unfold round53.
  assert (Z.log2 (Z.abs m) ≤ 52) as Hl.
  { destruct (Z.eq_dec (Z.abs m) 0) as [->|Hne]; [cbn; lia|].
    assert (Z.log2 (Z.abs m) < 53); [|lia].
    apply Z.log2_lt_pow2; lia. }
  destruct (Z.leb_spec (Z.log2 (Z.abs m) - 52) 0); [reflexivity|lia].
Qed.

Lemma round53_binade (m e s : Z) :
  0 < s → 2 ^ (52 + s) ≤ m < 2 ^ (53 + s) →
  round53 m e = Float (rne m (2 ^ s)) (e + s).
Proof.
  intros Hs Hm. unfold round53.
  assert (0 < 2 ^ (52 + s)) by (apply Z.pow_pos_nonneg; lia).
  rewrite Z.abs_eq by lia.
  assert (Z.log2 m = 52 + s) as ->.
  { apply Z.log2_unique; [lia|]. replace (Z.succ (52 + s)) with (53 + s) by lia. lia. }
  replace (52 + s - 52) with s by lia.
  destruct (Z.leb_spec s 0); [lia|reflexivity].
Qed.

(** A sum between 65 and 95 loses [s] bits to rounding and stays between
    65 and 95. *)
Ltac in_binade s :=
  rewrite (round53_binade _ _ s) by lia;
  eexists; split; [reflexivity|]; apply rne_bounds; lia.

(** The score drawn by [random.uniform(65, 95)] from the 53-bit integer [k]:
    a double of the binade [64, 128), between 65 and 95. *)
Lemma uniform_65_95_binade (k : Z) :
  0 ≤ k < 2 ^ 53 →
  ∃ X, add (of_Z 65) (mul (of_Z (95 - 65)) (Float k (-53))) = Float X (-46)
       ∧ 65 * 2 ^ 46 ≤ X ≤ 95 * 2 ^ 46.
Proof.
  intros Hk.
  change (of_Z 65) with (Float 65 0). change (of_Z (95 - 65)) with (Float 30 0).
  unfold mul. cbn [Fnum Fexp].
  assert (30 * k < 2 ^ 53
          ∨ (∃ s, 1 ≤ s ≤ 5 ∧ 2 ^ (52 + s) ≤ 30 * k < 2 ^ (53 + s))) as [Hs|(s & Hs & Hb)].
  { destruct (Z_lt_dec (30 * k) (2 ^ 53)); [by left|right].
    destruct (Z_lt_dec (30 * k) (2 ^ 54)); [exists 1; lia|].
    destruct (Z_lt_dec (30 * k) (2 ^ 55)); [exists 2; lia|].
    destruct (Z_lt_dec (30 * k) (2 ^ 56)); [exists 3; lia|].
    destruct (Z_lt_dec (30 * k) (2 ^ 57)); [exists 4; lia|].
    exists 5; lia. }
  - rewrite round53_small by lia.
    unfold add. cbn [Fnum Fexp].
    change (Z.min 0 (0 + -53)) with (-53).
    change (2 ^ (0 - -53)) with (2 ^ 53). change (2 ^ (0 + -53 - -53)) with 1.
    in_binade 7.
  - rewrite (round53_binade _ _ s) by lia.
    assert (2 ^ 52 ≤ rne (30 * k) (2 ^ s) ≤ 30 * 2 ^ (53 - s)) as HP.
    { assert (s = 1 ∨ s = 2 ∨ s = 3 ∨ s = 4 ∨ s = 5) as Hc by lia.
      destruct Hc as [-> | [-> | [-> | [-> | ->]]]]; apply rne_bounds; lia. }
    unfold add. cbn [Fnum Fexp].
    assert (s = 1 ∨ s = 2 ∨ s = 3 ∨ s = 4 ∨ s = 5) as Hc by lia.
    destruct Hc as [-> | [-> | [-> | [-> | ->]]]].
    all: match goal with
         | |- context [Z.min ?a ?b] =>
             let m := eval compute in (Z.min a b) in change (Z.min a b) with m
         end.
    all: match goal with
         | |- context [round53 (65 * 2 ^ ?a + _ * 2 ^ ?b) ?e] =>
             let pa := eval compute in (2 ^ a) in
             let pb := eval compute in (2 ^ b) in
             change (2 ^ a) with pa; change (2 ^ b) with pb
         end.
    + in_binade 6.
    + in_binade 5.
    + in_binade 4.
    + in_binade 3.
    + in_binade 2.
Qed.

(** The double nearest to [h / 100], for a decimal between 65.00 and 95.00. *)
Lemma div_Z_hundredths (h : Z) :
  6500 ≤ h ≤ 9500 →
  ∃ Y, div_Z h 100 = Float Y (-46) ∧ 65 * 2 ^ 46 ≤ Y ≤ 95 * 2 ^ 46.
Proof.
  intros Hh. unfold div_Z.
  destruct (Z.leb_spec h 0); [lia|].
  assert (scale_exp h 100 = 46) as ->.
  { unfold scale_exp. change (Z.log2 100) with 6.
    destruct (Z_lt_dec h 8192).
    - assert (Z.log2 h = 12) as -> by (apply Z.log2_unique; cbn; lia).
      change (100 * 2 ^ Z.max (12 - 6) 0) with 6400.
      change (2 ^ Z.max (- (12 - 6)) 0) with 1.
      destruct (Z.leb_spec 6400 (h * 1)); [reflexivity|lia].
    - assert (Z.log2 h = 13) as -> by (apply Z.log2_unique; cbn; lia).
      change (100 * 2 ^ Z.max (13 - 6) 0) with 12800.
      change (2 ^ Z.max (- (13 - 6)) 0) with 1.
      destruct (Z.leb_spec 12800 (h * 1)); [lia|reflexivity]. }
  change (Z.max 46 0) with 46. change (Z.opp 46) with (-46).
  change (100 * 2 ^ Z.max (-46) 0) with 100.
  assert (65 * 2 ^ 46 ≤ rne (h * 2 ^ 46) 100 ≤ 95 * 2 ^ 46) by (apply rne_bounds; lia).
  rewrite round53_small by lia.
  eexists; split; [reflexivity|lia].
Qed.

Lemma decimal_digits_binade (X : Z) :
  65 * 2 ^ 46 ≤ X ≤ 95 * 2 ^ 46 →
  6500 ≤ decimal_digits (Float X (-46)) 2 ≤ 9500.
Proof.
  intros HX. unfold decimal_digits. cbn [Fnum Fexp].
  change (0 <=? -46) with false. cbv iota.
  apply rne_bounds; lia.
Qed.

Lemma to_Q_binade (X : Z) :
  65 * 2 ^ 46 ≤ X ≤ 95 * 2 ^ 46 →
  (65 <= to_Q (Float X (-46)) <= 95)%Q.
Proof.
  intros HX. unfold to_Q. cbn [Fnum Fexp].
  change (0 <=? -46) with false. cbv iota.
  unfold Qle. cbn. lia.
Qed.
End Binary64Facts.

(** ** DataFrame operations and the recommendation step *)

Module PandasFacts.
Import Binary64 PyRandom Pandas Shape.

Lemma get_loc_Some name cols i :
  get_loc name cols = Some i → cols !! i = Some name.
Proof.
  revert i. induction cols as [|c cols IH]; intros i; simpl; [done|].
  destruct (String.eqb_spec c name) as [->|Hne].
  - by intros [= <-].
  - destruct (get_loc name cols) as [j|]; simpl; [|done].
    intros [= <-]. simpl. by apply IH.
Qed.

Lemma get_loc_None name cols : get_loc name cols = None ↔ name ∉ cols.
Proof.
  induction cols as [|c cols IH]; simpl.
  - split; [intros _; apply not_elem_of_nil | done].
  - rewrite not_elem_of_cons.
    destruct (String.eqb_spec c name) as [->|Hne].
    + split; [done | intros [? _]; done].
    + destruct (get_loc name cols) as [j|]; simpl.
      * split; [done|]. intros [_ Hn]. by apply IH in Hn.
      * split; [|done]. intros _. split; [congruence | by apply IH].
Qed.

Lemma get_loc_snoc name cols :
  get_loc name cols = None → get_loc name (cols ++ [name]) = Some (length cols).
Proof.
  induction cols as [|c cols IH]; simpl.
  - by rewrite String.eqb_refl.
  - destruct (String.eqb c name); [done|].
    destruct (get_loc name cols); simpl; [done|].
    intros _. by rewrite IH.
Qed.

Lemma get_loc_app_Some name cols more i :
  get_loc name cols = Some i → get_loc name (cols ++ more) = Some i.
Proof.
  revert i. induction cols as [|c cols IH]; intros i; simpl; [done|].
  destruct (String.eqb c name); [done|].
  destruct (get_loc name cols) as [j|]; simpl; [|done].
  intros [= <-]. by rewrite (IH j).
Qed.

Lemma get_loc_snoc_ne name other cols :
  other ≠ name → get_loc name cols = None → get_loc name (cols ++ [other]) = None.
Proof.
  intros Hne. rewrite !get_loc_None, not_elem_of_app, list_elem_of_singleton.
  naive_solver.
Qed.

Lemma get_loc_score_columns cols :
  get_loc "Match Score" (score_columns cols) = Some (score_loc cols).
Proof.
  unfold score_columns, score_loc.
  destruct (get_loc "Match Score" cols) eqn:E; [done|]. by apply get_loc_snoc.
Qed.

Lemma get_loc_rank_score_columns cols :
  get_loc "Rank" cols = None → get_loc "Rank" (score_columns cols) = None.
Proof.
  intros Hr. unfold score_columns.
  destruct (get_loc "Match Score" cols); [done|].
  by apply get_loc_snoc_ne.
Qed.

Lemma length_attach_score cols y r :
  length r = length cols →
  length (attach_score cols y r) = length (score_columns cols).
Proof.
  intros Hr. unfold attach_score, score_columns.
  destruct (get_loc "Match Score" cols).
  - by rewrite length_insert.
  - rewrite !length_app. simpl. lia.
Qed.

Lemma float_key_attach_score cols y r :
  length r = length cols →
  float_key (score_loc cols) (attach_score cols y r) = Some y.
Proof.
  intros Hr. unfold float_key, score_loc, attach_score.
  destruct (get_loc "Match Score" cols) as [i|] eqn:E.
  - apply get_loc_Some, lookup_lt_Some in E.
    rewrite list_lookup_insert_eq by lia. done.
  - rewrite <- Hr. by rewrite list_lookup_middle.
Qed.

Lemma zip_with_fmap_zip {A B C D} (f : A → B → C) (g : D → B)
  (l : list A) (k : list D) :
  zip_with f l (g <$> k) = (λ p, f p.2 (g p.1)) <$> zip k l.
Proof.
  revert k. induction l as [|a l IH]; intros [|d k]; simpl; try done.
  by rewrite IH.
Qed.

Lemma zip_fmap_zip {A B C} (f : A → B → C) (l : list A) (k : list B) :
  zip l ((λ p, f p.1 p.2) <$> zip l k) = (λ p, (p.1, f p.1 p.2)) <$> zip l k.
Proof.
  revert k. induction l as [|a l IH]; intros [|b k]; simpl; try done.
  by rewrite IH.
Qed.

Lemma setitem_scores ys df :
  length ys = length (rows df) →
  setitem "Match Score" (Num <$> ys) df =
  inr (scored_frame (columns df) (zip ys (rows df))).
Proof.
  intros Hlen. unfold setitem. rewrite length_fmap, Hlen, Nat.eqb_refl. simpl.
  unfold scored_frame, score_columns, attach_score.
  destruct (get_loc "Match Score" (columns df)); by rewrite zip_with_fmap_zip.
Qed.

Lemma float_keys_scores cols ys rs :
  length ys = length rs →
  Forall (λ r, length r = length cols) rs →
  mapM (float_key (score_loc cols))
    ((λ p, attach_score cols p.1 p.2) <$> zip ys rs) = Some ys.
Proof.
  intros Hlen Hrs. apply mapM_Some.
  revert ys Hlen. induction Hrs as [|r rs Hr _ IH]; intros [|y ys]; simpl; try done.
  intros [= Hlen]. constructor; [by apply float_key_attach_score | by apply IH].
Qed.

Lemma sort_values_scores `{SortKind} df ys :
  length ys = length (rows df) →
  Forall (λ r, length r = length (columns df)) (rows df) →
  sort_values_descending "Match Score"
    (scored_frame (columns df) (zip ys (rows df))) =
  inr (sorted_frame df ys).
Proof.
  intros Hlen Hrs. unfold sort_values_descending, scored_frame. cbn [columns rows].
  rewrite get_loc_score_columns, float_keys_scores by done.
  by rewrite zip_fmap_zip.
Qed.

Lemma Sorted_fmap_inv {A B} (f : A → B) (R : relation B) (l : list A) :
  Sorted R (f <$> l) → Sorted (λ a b, R (f a) (f b)) l.
Proof.
  induction l as [|a l IH]; simpl; [constructor|].
  inversion_clear 1 as [|?? Hs Hh]. constructor; [by apply IH|].
  destruct l; simpl in *; constructor. by inversion_clear Hh.
Qed.

Lemma fmap_Permutation_inv {A B} (f : A → B) (l1 : list B) (l2 : list A) :
  l1 ≡ₚ f <$> l2 → ∃ l3, l1 = f <$> l3 ∧ l2 ≡ₚ l3.
Proof. apply (Permutation_map_inv f). Qed.

(** The sorted frame holds the scored rows of the input, reordered into
    descending score order. *)
Lemma sorted_frame_scored `{SortKind} df ys :
  ∃ scored,
    zip ys (rows df) ≡ₚ scored
    ∧ Sorted (λ a b, le b.1 a.1) scored
    ∧ sorted_frame df ys = scored_frame (columns df) scored.
Proof.
  unfold sorted_frame, keyed_rows.
  set (F := λ p : float * list cell, (p.1, attach_score (columns df) p.1 p.2)).
  destruct (fmap_Permutation_inv F _ _
              (sort_descending_perm (F <$> zip ys (rows df))))
    as (scored & Heq & Hperm).
  exists scored. split; [done|]. split.
  - pose proof (sort_descending_sorted (F <$> zip ys (rows df))) as Hs.
    rewrite Heq in Hs. by apply Sorted_fmap_inv in Hs.
  - rewrite Heq. unfold scored_frame. f_equal. by rewrite <- list_fmap_compose.
Qed.

Lemma length_rows_sorted_frame `{SortKind} df ys :
  length ys = length (rows df) →
  length (rows (sorted_frame df ys)) = length (rows df).
Proof.
  intros Hlen. unfold sorted_frame, keyed_rows. cbn [rows].
  rewrite length_fmap, sort_descending_perm, length_fmap, length_zip_with. lia.
Qed.

Lemma recommendations_frame_ranked `{SortKind} df ys :
  length ys = length (rows df) →
  ∃ scored,
    zip ys (rows df) ≡ₚ scored
    ∧ Sorted (λ a b, le b.1 a.1) scored
    ∧ recommendations_frame df ys = ranked (columns df) scored.
Proof.
  intros Hlen. destruct (sorted_frame_scored df ys) as (scored & Hperm & Hs & Heq).
  exists scored. split; [done|]. split; [done|].
  unfold recommendations_frame, ranked. rewrite Heq. do 3 f_equal.
  rewrite <- Hperm, length_zip_with. lia.
Qed.

Lemma insert_rank cols rs n :
  get_loc "Rank" cols = None → length rs = n →
  insert 0 "Rank" (range_cells 1 n) {| columns := cols; rows := rs |} =
  inr {| columns := "Rank"%string :: cols;
         rows := zip_with (λ r v, v :: r) rs (range_cells 1 n) |}.
Proof.
  intros Hnone Hlen. unfold insert. cbn [columns rows]. rewrite Hnone.
  unfold range_cells. rewrite length_fmap, length_seq, Hlen, Nat.eqb_refl.
  reflexivity.
Qed.

Lemma insert_rank_exists cols rs i vs :
  get_loc "Rank" cols = Some i →
  insert 0 "Rank" vs {| columns := cols; rows := rs |} =
  inl (ValueError "cannot insert Rank, already exists").
Proof. intros Hsome. unfold insert. cbn [columns]. by rewrite Hsome. Qed.

(** *** Evaluation of the monadic steps *)

Lemma bind_Return {A B} (m : M A) (f : A → M B) st a st' :
  m st = Return a st' → (m ≫= f) st = f a st'.
Proof. intros Hm. unfold mbind, M_bind. by rewrite Hm. Qed.

Lemma bind_Raise {A B} (m : M A) (f : A → M B) st e st' :
  m st = Raise e st' → (m ≫= f) st = Raise e st'.
Proof. intros Hm. unfold mbind, M_bind. by rewrite Hm. Qed.

Lemma deref_Return r st df :
  frames st !! r = Some df → deref r st = Return df st.
Proof. intros Hr. unfold deref. by rewrite Hr. Qed.

Lemma advance_advance n m g : advance m (advance n g) = advance (n + m) g.
Proof. unfold advance. simpl. f_equal. lia. Qed.

Lemma comprehension_scores n fs g :
  comprehension n (x ← random_uniform 65 95; mret (round x 2))
    {| frames := fs; generator := g |} =
  Return (drawn_scores g n) {| frames := fs; generator := advance n g |}.
Proof.
  revert g. induction n as [|n IH]; intros g; simpl.
  - unfold mret, M_ret, advance. destruct g. simpl. by rewrite Nat.add_0_r.
  - unfold mbind, M_bind at 1 2. unfold random_uniform at 1. simpl.
    unfold mret at 1, M_ret at 1. unfold mbind, M_bind. rewrite IH.
    unfold mret, M_ret. by rewrite advance_advance.
Qed.

Lemma length_drawn_scores g n : length (drawn_scores g n) = n.
Proof. revert g. induction n; intros g; simpl; [done|]. by rewrite IHn. Qed.

Lemma df_copy_Return r st df :
  frames st !! r = Some df →
  df_copy r st =
  Return (length (frames st))
    {| frames := frames st ++ [df]; generator := generator st |}.
Proof. intros Hr. unfold df_copy. by erewrite bind_Return by by apply deref_Return. Qed.

Lemma df_len_Return r st df :
  frames st !! r = Some df → df_len r st = Return (length (rows df)) st.
Proof. intros Hr. unfold df_len. by erewrite bind_Return by by apply deref_Return. Qed.

Lemma df_setitem_Return r name vs st df df' :
  frames st !! r = Some df → setitem name vs df = inr df' →
  df_setitem r name vs st =
  Return tt {| frames := <[r := df']> (frames st); generator := generator st |}.
Proof.
  intros Hr Hset. unfold df_setitem.
  erewrite bind_Return by by apply deref_Return. by rewrite Hset.
Qed.

Lemma df_sort_values_Return `{SortKind} r by_ st df df' :
  frames st !! r = Some df → sort_values_descending by_ df = inr df' →
  df_sort_values r by_ st =
  Return (length (frames st))
    {| frames := frames st ++ [df']; generator := generator st |}.
Proof.
  intros Hr Hsort. unfold df_sort_values.
  erewrite bind_Return by by apply deref_Return. by rewrite Hsort.
Qed.

Lemma df_reset_index_Return r st df :
  frames st !! r = Some df →
  df_reset_index r st =
  Return (length (frames st))
    {| frames := frames st ++ [df]; generator := generator st |}.
Proof. apply df_copy_Return. Qed.

Lemma df_insert_Return r loc name vs st df df' :
  frames st !! r = Some df → insert loc name vs df = inr df' →
  df_insert r loc name vs st =
  Return tt {| frames := <[r := df']> (frames st); generator := generator st |}.
Proof.
  intros Hr Hins. unfold df_insert.
  erewrite bind_Return by by apply deref_Return. by rewrite Hins.
Qed.

Lemma df_insert_Raise r loc name vs st df e :
  frames st !! r = Some df → insert loc name vs df = inl e →
  df_insert r loc name vs st = Raise e st.
Proof.
  intros Hr Hins. unfold df_insert.
  erewrite bind_Return by by apply deref_Return. by rewrite Hins.
Qed.

Lemma lookup_heap {A} (fs l : list A) (i : nat) (x : A) :
  l !! i = Some x → (fs ++ l) !! (length fs + i) = Some x.
Proof. intros <-. rewrite lookup_app_r by lia. f_equal. lia. Qed.

Lemma insert_heap_end {A} (l k : list A) (x y : A) :
  <[length l := y]> (l ++ x :: k) = l ++ y :: k.
Proof. by rewrite insert_app_r_alt, Nat.sub_diag by lia. Qed.

Ltac heap_lookup := cbn [frames]; apply lookup_heap; reflexivity.

(** *** The recommendation step, run *)

(** Everything up to the call of [insert]: the copy, the scores, the sort
    and the re-indexing. *)
Lemma create_dummy_recommendations_sorted `{SortKind} r st df :
  frames st !! r = Some df →
  well_formed df →
  let n := length (rows df) in
  let ys := drawn_scores (generator st) n in
  let recommendations := length (frames st) + 2 in
  create_dummy_recommendations_with_scores r st =
  (df_insert recommendations 0 "Rank" (range_cells 1 n);; mret recommendations)
    {| frames := frames st ++ [scored_frame (columns df) (zip ys (rows df));
                               sorted_frame df ys; sorted_frame df ys];
       generator := advance n (generator st) |}.
Proof.
  intros Hr [_ Hwf] n ys recommendations. subst recommendations.
  destruct st as [fs g]. cbn [frames generator] in *.
  assert (length ys = length (rows df)) as Hys by apply length_drawn_scores.
  unfold create_dummy_recommendations_with_scores.
  (* recommendations = original_df.copy() *)
  erewrite bind_Return by (by apply df_copy_Return). cbn [frames generator].
  (* len(recommendations), then the list comprehension *)
  erewrite bind_Return
    by (apply df_len_Return; cbn [frames]; by apply list_lookup_middle).
  erewrite bind_Return by apply comprehension_scores.
  (* recommendations['Match Score'] = scores *)
  erewrite bind_Return; cycle 1.
  { eapply df_setitem_Return; cbn [frames];
      [by apply list_lookup_middle | by apply setitem_scores]. }
  cbn [frames generator]. rewrite insert_heap_end. fold n ys.
  (* .sort_values('Match Score', ascending=False).reset_index(drop=True) *)
  erewrite bind_Return; cycle 1.
  { eapply df_sort_values_Return; cbn [frames];
      [by apply list_lookup_middle | by apply sort_values_scores]. }
  cbn [frames generator]. rewrite <- app_assoc, length_app. cbn [app length].
  erewrite bind_Return by (apply df_reset_index_Return; heap_lookup).
  cbn [frames generator]. rewrite <- app_assoc, length_app. cbn [app length].
  (* len(recommendations) *)
  erewrite bind_Return by (apply df_len_Return; heap_lookup).
  by rewrite length_rows_sorted_frame.
Qed.

Lemma create_dummy_recommendations_Return `{SortKind} r st df :
  frames st !! r = Some df →
  well_formed df →
  get_loc "Rank" (columns df) = None →
  let n := length (rows df) in
  let ys := drawn_scores (generator st) n in
  create_dummy_recommendations_with_scores r st =
  Return (length (frames st) + 2)
    {| frames := frames st ++ [scored_frame (columns df) (zip ys (rows df));
                               sorted_frame df ys; recommendations_frame df ys];
       generator := advance n (generator st) |}.
Proof.
  intros Hr Hwf Hrank n ys.
  rewrite (create_dummy_recommendations_sorted r st df) by done.
  erewrite bind_Return; cycle 1.
  { eapply df_insert_Return; [heap_lookup|].
    apply insert_rank; [by apply get_loc_rank_score_columns|].
    apply length_rows_sorted_frame, length_drawn_scores. }
  cbn [frames generator]. by rewrite insert_app_r.
Qed.

Lemma create_dummy_recommendations_Raise `{SortKind} r st df i :
  frames st !! r = Some df →
  well_formed df →
  get_loc "Rank" (columns df) = Some i →
  let n := length (rows df) in
  let ys := drawn_scores (generator st) n in
  create_dummy_recommendations_with_scores r st =
  Raise (ValueError "cannot insert Rank, already exists")
    {| frames := frames st ++ [scored_frame (columns df) (zip ys (rows df));
                               sorted_frame df ys; sorted_frame df ys];
       generator := advance n (generator st) |}.
Proof.
  intros Hr Hwf Hrank n ys.
  rewrite (create_dummy_recommendations_sorted r st df) by done.
  erewrite bind_Raise; [done|].
  eapply df_insert_Raise; [heap_lookup|].
  eapply insert_rank_exists. unfold sorted_frame. cbn [columns].
  unfold score_columns. destruct (get_loc "Match Score" (columns df)); [done|].
  by apply get_loc_app_Some.
Qed.
End PandasFacts.

(** ** The drawn scores *)

Module ScoreFacts.
Import Binary64 PyRandom Pandas Shape Binary64Facts PandasFacts.

(** The smallest draw gives 65.0, the draw 1/8 gives 68.75, and the largest
    draw, [1 - 2 ^ -53], rounds up to 95.0 already before [round]. *)
Example uniform_of_smallest_draw :
  (uniform 65 95 {| mt_output := λ _, 0%Z; mt_index := 0 |}).1
  = Float (65 * 2 ^ 46) (-46).
Proof. reflexivity. Qed.

Example score_of_one_eighth :
  round (uniform 65 95 {| mt_output := λ _, (2 ^ 50)%Z; mt_index := 0 |}).1 2
  = div_Z 6875 100.
Proof. reflexivity. Qed.

Example uniform_of_largest_draw :
  (uniform 65 95 {| mt_output := λ _, (2 ^ 53 - 1)%Z; mt_index := 0 |}).1
  = Float (95 * 2 ^ 46) (-46).
Proof. reflexivity. Qed.

Lemma draw_range g : (0 ≤ draw g < 2 ^ 53)%Z.
Proof. unfold draw. apply Z.mod_pos_bound. lia. Qed.

Lemma round_uniform_65_95 g : two_decimal_score (round (uniform 65 95 g).1 2).
Proof.
  unfold uniform, random. cbn [fst].
  destruct (uniform_65_95_binade (draw g) (draw_range g)) as (X & -> & HX).
  unfold round. change (10 ^ 2)%Z with 100%Z.
  pose proof (decimal_digits_binade X HX) as Hh.
  exists (decimal_digits (Float X (-46)) 2). split; [done|]. split; [done|].
  destruct (div_Z_hundredths _ Hh) as (Y & -> & HY). by apply to_Q_binade.
Qed.

Lemma drawn_scores_two_decimal g n : Forall two_decimal_score (drawn_scores g n).
Proof.
  revert g. induction n as [|n IH]; intros g; simpl; constructor.
  - apply round_uniform_65_95.
  - apply IH.
Qed.

Lemma drawn_scores_lookup g n i :
  (i < n)%nat →
  drawn_scores g n !! i = Some (round (uniform 65 95 (advance i g)).1 2).
Proof.
  revert g i. induction n as [|n IH]; intros g [|i] Hi; simpl; try lia.
  - unfold uniform, random, draw, advance. simpl. by rewrite Nat.add_0_r.
  - rewrite IH by lia. by rewrite advance_advance.
Qed.

End ScoreFacts.

(** ** The columns of the returned frame *)

Module RankedFacts.
Import Binary64 PyRandom Pandas Shape Binary64Facts PandasFacts ScoreFacts.

Lemma attach_score_lookup cols y r :
  length r = length cols →
  attach_score cols y r !! score_loc cols = Some (Num y).
Proof.
  intros Hr. pose proof (float_key_attach_score cols y r Hr) as Hk.
  unfold float_key in Hk.
  destruct (attach_score cols y r !! score_loc cols) as [[]|]; congruence.
Qed.

Lemma mapM_lookup_cons {A} (i : nat) (rs : list (list A)) (vs : list A) :
  length rs = length vs →
  mapM (λ r, r !! S i) (zip_with (λ r v, v :: r) rs vs) = mapM (λ r, r !! i) rs.
Proof.
  revert vs. induction rs as [|r rs IH]; intros [|v vs]; simpl; try done.
  intros [= Hlen]. by rewrite IH.
Qed.

Lemma mapM_head_cons {A} (rs : list (list A)) (vs : list A) :
  length rs = length vs →
  mapM (λ r, r !! 0%nat) (zip_with (λ r v, v :: r) rs vs) = Some vs.
Proof.
  revert vs. induction rs as [|r rs IH]; intros [|v vs]; simpl; try done.
  intros [= Hlen]. by rewrite IH.
Qed.

Lemma length_rows_ranked cols scored :
  length (rows (ranked cols scored)) = length scored.
Proof.
  unfold ranked, scored_frame, range_cells. cbn [rows].
  rewrite length_zip_with, !length_fmap, length_seq. lia.
Qed.

Lemma getitem_rank_ranked cols scored :
  getitem "Rank" (ranked cols scored) = Some (range_cells 1 (length scored)).
Proof.
  unfold getitem, ranked, scored_frame. cbn [columns rows get_loc String.eqb Ascii.eqb Bool.eqb].
  simpl. apply mapM_head_cons.
  unfold range_cells. by rewrite !length_fmap, length_seq.
Qed.

Lemma getitem_match_score_ranked (cols : list string) scored :
  Forall (λ p : float * list cell, length p.2 = length cols) scored →
  getitem "Match Score" (ranked cols scored) = Some (Num <$> scored.*1).
Proof.
  intros Hlen. unfold getitem, ranked, scored_frame. cbn [columns rows].
  change (get_loc "Match Score" ("Rank"%string :: score_columns cols))
    with (S <$> get_loc "Match Score" (score_columns cols)).
  rewrite get_loc_score_columns. simpl.
  rewrite mapM_lookup_cons
    by (unfold range_cells; by rewrite !length_fmap, length_seq).
  apply mapM_Some. rewrite Forall2_fmap_l, <- list_fmap_compose, Forall2_fmap_r.
  apply Forall_Forall2_diag. eapply Forall_impl; [apply Hlen|].
  intros [y r] Hr. by apply attach_score_lookup.
Qed.

Lemma scored_rows_length (cols : list string) (ys : list float)
  (rs : list (list cell)) scored :
  Forall (λ r, length r = length cols) rs →
  zip ys rs ≡ₚ scored →
  Forall (λ p : float * list cell, length p.2 = length cols) scored.
Proof.
  intros Hrs Hperm. rewrite <- Hperm. clear Hperm.
  revert ys. induction Hrs as [|r rs Hr _ IH]; intros [|y ys]; simpl;
    constructor; [done | apply IH].
Qed.

Lemma scored_keys (ys : list float) (rs : list (list cell)) scored :
  length ys = length rs → zip ys rs ≡ₚ scored → scored.*1 ≡ₚ ys.
Proof. intros Hlen Hperm. rewrite <- Hperm. rewrite fst_zip; [done|lia]. Qed.
Lemma rows_ranked cols scored :
  rows (ranked cols scored) =
  zip_with (λ p k, Int (Z.of_nat k) :: attach_score cols p.1 p.2)
    scored (seq 1 (length scored)).
Proof.
  unfold ranked, scored_frame, range_cells. cbn [rows].
  generalize (seq 1 (length scored)). intros ks.
  revert ks. induction scored as [|p scored IH]; intros [|k ks]; simpl; try done.
  by rewrite IH.
Qed.

Lemma get_loc_recommendations_columns (name : string) cols :
  name ≠ "Rank"%string → name ≠ "Match Score"%string → name ∉ cols →
  get_loc name ("Rank"%string :: score_columns cols) = None.
Proof.
  intros Hr Hm Hc. apply get_loc_None. unfold score_columns.
  rewrite not_elem_of_cons. split; [done|].
  destruct (get_loc "Match Score" cols); [done|].
  rewrite not_elem_of_app, list_elem_of_singleton. done.
Qed.
End RankedFacts.

(** ** Step 3: each quotient by evaluation, the sum by arithmetic *)

Module WeightFacts.
Import Binary64 App Shape Samples.

Lemma all_quotients_checked :
  forallb (λ total, forallb (quotient_checked total) slider_positions)
    slider_totals = true.
Proof. vm_compute. reflexivity. Qed.

Lemma slider_position (w : Z) : (0 ≤ w ≤ 10)%Z → In w slider_positions.
Proof.
  intros Hw.
  assert (w = 0 ∨ w = 1 ∨ w = 2 ∨ w = 3 ∨ w = 4 ∨ w = 5 ∨ w = 6 ∨ w = 7
          ∨ w = 8 ∨ w = 9 ∨ w = 10)%Z as Hcases by lia.
  unfold slider_positions. simpl. intuition.
Qed.

Lemma slider_total (t : Z) : (1 ≤ t ≤ 40)%Z → In t slider_totals.
Proof.
  intros Ht. unfold slider_totals. apply list_elem_of_In, list_elem_of_fmap.
  exists (Z.to_nat t). split; [lia|]. apply elem_of_seq. lia.
Qed.

Lemma div_Z_normalized (x total : Z) :
  (0 ≤ x ≤ 10)%Z → (1 ≤ total ≤ 40)%Z → (x ≤ total)%Z →
  normalized_from x total (div_Z x total).
Proof.
  intros Hx Ht Hxt. pose proof all_quotients_checked as Hall.
  rewrite forallb_forall in Hall. specialize (Hall total (slider_total total Ht)).
  rewrite forallb_forall in Hall. specialize (Hall x (slider_position x Hx)).
  unfold quotient_checked in Hall.
  destruct (Z.ltb_spec total x); [lia|]. cbn [orb] in Hall.
  unfold normalized_from_b in Hall. unfold normalized_from.
  rewrite !andb_true_iff, !Qle_bool_iff in Hall. tauto.
Qed.

Lemma quotients_sum_to_one (a b c d : Z) (p : positive) :
  (a + b + c + d)%Z = Z.pos p →
  ((a # p) + (b # p) + (c # p) + (d # p) == 1)%Q.
Proof.
  intros Hsum. rewrite !Qinv_plus_distr, Hsum.
  unfold Qeq. simpl. lia.
Qed.

Lemma normalized_sum (a b c d total : Z) (ya yb yc yd : float) :
  (0 < total)%Z → (a + b + c + d)%Z = total →
  normalized_from a total ya → normalized_from b total yb →
  normalized_from c total yc → normalized_from d total yd →
  sums_to_one (Factors ya yb yc yd).
Proof.
  intros Hpos Hsum (_ & Ha) (_ & Hb) (_ & Hc) (_ & Hd).
  unfold sums_to_one. cbn [ship month port theo].
  pose proof (quotients_sum_to_one a b c d (Z.to_pos total)) as Hone.
  rewrite Z2Pos.id in Hone by done. specialize (Hone Hsum).
  apply Qabs_Qle_condition in Ha, Hb, Hc, Hd. apply Qabs_Qle_condition.
  revert Ha Hb Hc Hd Hone.
  generalize (a # Z.to_pos total) (b # Z.to_pos total)
             (c # Z.to_pos total) (d # Z.to_pos total)
             (to_Q ya) (to_Q yb) (to_Q yc) (to_Q yd).
  intros qa qb qc qd za zb zc zd Ha Hb Hc Hd Hone. split; lra.
Qed.
End WeightFacts.

(** ** The sample sheet *)

Module SampleFacts.
Import Pandas Samples.
Local Open Scope string_scope.

Lemma sample_sheet_well_formed : well_formed sample_sheet.
Proof.
  split.
  - apply NoDup_ListNoDup. repeat constructor; simpl; intuition congruence.
  - repeat constructor.
Qed.

Lemma sample_sheet_no_rank : "Rank" ∉ columns sample_sheet.
Proof. rewrite list_elem_of_In. simpl. intuition congruence. Qed.
End SampleFacts.

(** ** The steps, run *)

Module StepFacts.
Import Binary64 PyRandom Pandas App Shape Samples SortKinds.
Import Binary64Facts PandasFacts ScoreFacts RankedFacts WeightFacts SampleFacts.
Import Builtins Steps Views.

Lemma NoDup_score_columns (cols : list string) : NoDup cols → NoDup (score_columns cols).
Proof.
  intros Hnd. unfold score_columns.
  destruct (get_loc "Match Score" cols) eqn:Hloc; [done|].
  apply get_loc_None in Hloc. apply NoDup_app. split; [done|]. split.
  - intros x Hx Hin. apply list_elem_of_singleton in Hin. by subst.
  - apply NoDup_singleton.
Qed.

Lemma well_formed_ranked (cols : list string) (scored : list (float * list cell)) :
  NoDup cols → get_loc "Rank" cols = None →
  Forall (λ p : float * list cell, length p.2 = length cols) scored →
  well_formed (ranked cols scored).
Proof.
  intros Hnd Hrank Hlen. split.
  - cbn [ranked columns]. apply NoDup_cons. split.
    + apply get_loc_None. by apply get_loc_rank_score_columns.
    + by apply NoDup_score_columns.
  - rewrite rows_ranked. cbn [ranked columns].
    generalize (seq 1 (length scored)). induction Hlen as [|p scored Hp _ IH];
      intros [|k ks]; cbn; try constructor.
    + cbn. f_equal. by apply length_attach_score.
    + apply IH.
Qed.

Lemma lookup_heap_old {A} (fs more : list A) (i : nat) (x : A) :
  fs !! i = Some x → (fs ++ more) !! i = Some x.
Proof. intros Hi. by apply lookup_app_l_Some. Qed.

(** *** Exceptions *)

Lemma try_except_Return {A} (body : M A) handler st a st' :
  body st = Return a st' → try_except body handler st = Return a st'.
Proof. unfold try_except. by intros ->. Qed.

Lemma try_except_Raise {A} (body : M A) handler st e st' :
  body st = Raise e st' → try_except body handler st = handler e st'.
Proof. unfold try_except. by intros ->. Qed.

Lemma read_excel_Return f df st :
  master_sailings_grid f = Some df →
  read_excel (Some f) st =
  Return (length (frames st))
    {| frames := frames st ++ [df]; generator := generator st |}.
Proof. unfold read_excel. by intros ->. Qed.

Lemma read_excel_Raise f st :
  master_sailings_grid f = None →
  read_excel (Some f) st =
  Raise (ValueError "Worksheet named 'Master Sailings Grid' not found") st.
Proof. unfold read_excel. by intros ->. Qed.

Lemma mapM_pure {A B} (f : A → M B) (g : A → B) (l : list A) st :
  Forall (λ x, ∀ st, f x st = Return (g x) st) l →
  mapM f l st = Return (g <$> l) st.
Proof.
  induction 1 as [|x l Hx _ IH]; [done|].
  cbn [mapM]. rewrite (bind_Return _ _ _ _ _ (Hx st)).
  by rewrite (bind_Return _ _ _ _ _ IH).
Qed.

(** *** The values of a column *)

Definition unique_from (seen cs : list cell) : list cell :=
  foldl (λ seen c, if isin seen c then seen else seen ++ [c]) seen cs.

Lemma cell_eqb_Str_l s c : cell_eqb (Str s) c = true ↔ c = Str s.
Proof.
  destruct c; cbn; try (split; [discriminate|discriminate]).
  rewrite String.eqb_eq. split; congruence.
Qed.

Lemma cell_eqb_Str_r s c : cell_eqb c (Str s) = true ↔ c = Str s.
Proof.
  destruct c; cbn; try (split; [discriminate|discriminate]).
  rewrite String.eqb_eq. split; congruence.
Qed.

Lemma cell_eqb_is_str a b : cell_eqb a b = true → is_str a = is_str b.
Proof. by destruct a, b. Qed.

Lemma isin_Str seen s : isin seen (Str s) = true ↔ Str s ∈ seen.
Proof.
  unfold isin. rewrite existsb_exists. split.
  - intros (c & Hin & Heq). apply cell_eqb_Str_l in Heq. subst.
    by apply list_elem_of_In.
  - intros Hin. exists (Str s). split; [by apply list_elem_of_In|].
    by apply cell_eqb_Str_l.
Qed.

Lemma unique_from_Str seen cs s :
  Str s ∈ unique_from seen cs ↔ Str s ∈ seen ∨ Str s ∈ cs.
Proof.
  revert seen. induction cs as [|c cs IH]; intros seen; cbn.
  - rewrite elem_of_nil. tauto.
  - fold (unique_from (if isin seen c then seen else seen ++ [c]) cs).
    rewrite IH, elem_of_cons. destruct (isin seen c) eqn:Hc.
    + split; [tauto|]. intros [?|[<-|?]]; [tauto| |tauto].
      left. by apply isin_Str.
    + rewrite elem_of_app, list_elem_of_singleton. split; [|tauto].
      intros [[?|?]|?]; tauto.
Qed.

Lemma unique_from_kind (P : cell → bool) seen cs :
  (∀ a b, cell_eqb a b = true → P a = P b) →
  forallb P (unique_from seen cs) = forallb P seen && forallb P cs.
Proof.
  intros HP. revert seen. induction cs as [|c cs IH]; intros seen; cbn.
  - by rewrite andb_true_r.
  - fold (unique_from (if isin seen c then seen else seen ++ [c]) cs).
    rewrite IH. destruct (isin seen c) eqn:Hc.
    + unfold isin in Hc. apply existsb_exists in Hc as (c' & Hin & Heq).
      apply HP in Heq. destruct (forallb P seen) eqn:Hseen; [|done].
      rewrite forallb_forall in Hseen. rewrite Heq, (Hseen c' Hin). done.
    + rewrite forallb_app. cbn. rewrite andb_true_r. by rewrite andb_assoc.
Qed.

Lemma unique_nil_inv cs : unique cs = [] → cs = [].
Proof.
  destruct cs as [|c cs]; [done|]. unfold unique. cbn.
  fold (unique_from [c] cs). intros Hnil.
  assert (length (unique_from [c] cs) ≠ 0) as Hlen; [|by rewrite Hnil in Hlen].
  clear Hnil. generalize [c], (eq_refl : length [c] = 1).
  cut (∀ seen, length seen ≠ 0 → length (unique_from seen cs) ≠ 0).
  { intros Hcut seen Hs. apply Hcut. by rewrite Hs. }
  induction cs as [|c' cs IH]; intros seen Hs; cbn; [done|].
  fold (unique_from (if isin seen c' then seen else seen ++ [c']) cs).
  apply IH. destruct (isin seen c'); [done|]. rewrite length_app. cbn. lia.
Qed.

Lemma forallb_Permutation {A} (P : A → bool) (l k : list A) :
  l ≡ₚ k → forallb P l = forallb P k.
Proof.
  induction 1 as [|x l k _ IH|x y l|l k m _ IH1 _ IH2]; cbn; try congruence.
  by rewrite !andb_assoc, (andb_comm (P y)).
Qed.

Lemma str_items_texts l : forallb is_str l = true → str_items l = inr (texts l).
Proof.
  intros Hl. unfold str_items, texts.
  assert (mapM (M:=option) str_item l = Some (omap str_item l)) as ->; [|done].
  induction l as [|c l IH]; [done|]. cbn in Hl. apply andb_true_iff in Hl as [Hc Hl].
  destruct c; try discriminate. cbn. by rewrite (IH Hl).
Qed.

Lemma str_items_head c k :
  is_str c = false → head k = Some c → ∃ e, str_items k = inl e.
Proof.
  intros Hc Hk. destruct k as [|c' k]; [done|]. injection Hk as ->.
  unfold str_items. destruct c; try discriminate; cbn; eauto.
Qed.

Lemma texts_elem_of l s : s ∈ texts l ↔ Str s ∈ l.
Proof.
  unfold texts. rewrite list_elem_of_omap. split.
  - intros (c & Hin & Hc). by destruct c; simplify_eq/=.
  - intros Hin. by exists (Str s).
Qed.

Lemma dropna_Str cs s : Str s ∈ dropna cs ↔ Str s ∈ cs.
Proof. unfold dropna. rewrite list_elem_of_filter. cbn. tauto. Qed.


(** *** The options of step 2 *)

Lemma deref_alloc fs g (df : DataFrame) :
  deref (length fs) {| frames := fs ++ [df]; generator := g |} =
  Return df {| frames := fs ++ [df]; generator := g |}.
Proof.
  apply deref_Return. cbn [frames]. by rewrite list_lookup_middle.
Qed.

Lemma options_block_Return file col (shown : list cell → list cell) fallback st :
  (∀ c l, head (shown (c :: l)) = Some c) →
  (∀ l, forallb is_str l = true → forallb is_str (shown l) = true) →
  ∃ more,
    try_except
      (r ← read_excel file;
       df ← deref r;
       match get_loc col (columns df) with
       | Some i =>
           available ← lift (sorted (unique (dropna (column_cells i (rows df)))));
           lift (str_items (shown available));;
           mret (texts available)
       | None => mret fallback
       end)
      (λ _, mret fallback) st
    = Return (column_options file col fallback)
        {| frames := frames st ++ more; generator := generator st |}.
Proof.
  intros Hhead Hstr. destruct st as [fs g]. cbn [frames generator].
  destruct file as [f|]; [|exists []; by rewrite app_nil_r].
  unfold column_options.
  destruct (master_sailings_grid f) as [df|] eqn:Hsheet.
  2:{ exists []. rewrite app_nil_r.
      erewrite try_except_Raise; [done|].
      erewrite bind_Raise; [done|]. by apply read_excel_Raise. }
  exists [df].
  set (body := λ r : nat, _).
  assert (∀ o, body (length fs) {| frames := fs ++ [df]; generator := g |} = o →
               (read_excel (Some f) ≫= body) {| frames := fs; generator := g |} = o)
    as Hrun.
  { intros o <-. erewrite bind_Return; [done|]. by apply read_excel_Return. }
  subst body. cbn beta in Hrun.
  destruct (get_loc col (columns df)) as [i|] eqn:Hloc.
  2:{ apply try_except_Return, Hrun.
      erewrite bind_Return; [|apply deref_alloc]. by rewrite Hloc. }
  set (values := dropna (column_cells i (rows df))).
  assert (∀ P, (∀ a b, cell_eqb a b = true → P a = P b) →
               forallb P (merge_sort cell_le (unique values)) = forallb P values)
    as Hkind.
  { intros P HP. rewrite (forallb_Permutation _ _ _ (merge_sort_Permutation _ _)).
    unfold unique. fold (unique_from [] values). by rewrite unique_from_kind. }
  pose proof (Hkind is_str cell_eqb_is_str) as Hs.
  assert (forallb is_str (unique values) = forallb is_str values) as Hu.
  { unfold unique. fold (unique_from [] values).
    by rewrite (unique_from_kind _ _ _ cell_eqb_is_str). }
  assert (forallb (λ c, negb (is_str c)) (unique values)
          = forallb (λ c, negb (is_str c)) values) as Hn.
  { unfold unique. fold (unique_from [] values). rewrite unique_from_kind; [done|].
    intros a b Hab. by rewrite (cell_eqb_is_str a b Hab). }
  destruct (forallb is_str values) eqn:Hvalues.
  - apply try_except_Return, Hrun.
    erewrite bind_Return; [|apply deref_alloc]. rewrite Hloc.
    unfold sorted. fold values. rewrite Hu. cbn [orb lift].
    erewrite bind_Return; [|done].
    rewrite (str_items_texts (shown _)) by (by apply Hstr). done.
  - set (st1 := {| frames := fs ++ [df]; generator := g |}).
    cut (∃ e,
      (available ← lift (sorted (unique values));
       lift (str_items (shown available));;
       mret (texts available)) st1 = Raise e st1).
    { intros [e He]. erewrite try_except_Raise; [done|]. apply Hrun.
      erewrite bind_Return; [|apply deref_alloc]. rewrite Hloc. apply He. }
    unfold sorted. rewrite Hu, Hn. cbn [orb].
    destruct (forallb (λ c, negb (is_str c)) values) eqn:Hnon; [|by eexists].
    cbn [lift]. erewrite bind_Return; [|done].
    destruct (merge_sort cell_le (unique values)) as [|c l] eqn:Hsorted.
    { pose proof (merge_sort_Permutation cell_le (unique values)) as Hperm.
      rewrite Hsorted in Hperm. symmetry in Hperm.
      apply Permutation_nil_r, unique_nil_inv in Hperm.
      by rewrite Hperm in Hvalues. }
    assert (is_str c = false) as Hc.
    { assert (forallb (λ c, negb (is_str c)) (c :: l) = true) as Hall.
      { rewrite <- Hnon. apply Hkind.
        intros a b Hab. by rewrite (cell_eqb_is_str a b Hab). }
      cbn in Hall. apply andb_true_iff in Hall as [Hall _].
      by apply negb_true_iff. }
    destruct (str_items_head c (shown (c :: l)) Hc (Hhead c l)) as [e He].
    exists e. rewrite He. done.
Qed.

(** *** Step 2 *)

Lemma existsb_get_loc (x : string) (l : list string) :
  existsb (String.eqb x) l = true → ∃ i, get_loc x l = Some i ∧ i < length l.
Proof.
  induction l as [|c l IH]; [done|]. cbn. rewrite (String.eqb_sym x c).
  destruct (String.eqb c x); [exists 0; split; [done|lia]|].
  cbn. intros Hx. destruct (IH Hx) as (i & -> & Hi). exists (S i). split; [done|lia].
Qed.

Lemma get_loc_existsb (x : string) (l : list string) i :
  get_loc x l = Some i → existsb (String.eqb x) l = true.
Proof.
  revert i. induction l as [|c l IH]; intros i; [done|]. cbn.
  rewrite (String.eqb_sym x c). destruct (String.eqb c x); [done|].
  destruct (get_loc x l) as [j|] eqn:Hj; [|done]. intros _. by apply (IH j).
Qed.

Lemma month_number_range (month : string) :
  existsb (String.eqb month) month_names = true →
  (1 ≤ month_number month ≤ 12)%Z.
Proof.
  intros Hm. apply existsb_get_loc in Hm as (i & Hi & Hlt).
  unfold month_number. rewrite Hi. cbn in *. lia.
Qed.

Lemma month_number_name (month : string) :
  existsb (String.eqb month) month_names = true →
  month_names !! Z.to_nat (month_number month - 1) = Some month.
Proof.
  intros Hm. apply existsb_get_loc in Hm as (i & Hi & Hlt).
  unfold month_number. rewrite Hi. cbn [default from_option id].
  replace (Z.to_nat (Z.of_nat i + 1 - 1)) with i by lia.
  by apply get_loc_Some.
Qed.

Lemma multiselect_str_options (options picks : list string) :
  Forall (λ p, existsb (String.eqb p) options = true) (multiselect_str options picks).
Proof.
  unfold multiselect_str. apply Forall_forall. intros x Hx.
  by apply list_elem_of_filter in Hx as [Hx _].
Qed.

Lemma month_list_Return (selected : list string) st :
  Forall (λ p, existsb (String.eqb p) month_names = true) selected →
  mapM (λ month, i ← lift (index month month_names); mret (Z.of_nat i + 1)%Z)
    selected st
  = Return (month_number <$> selected) st.
Proof.
  intros Hsel. apply mapM_pure. eapply Forall_impl; [apply Hsel|].
  intros x Hx st0. cbn beta in Hx. apply existsb_get_loc in Hx as (i & Hi & _).
  unfold index, month_number. by rewrite Hi.
Qed.

Lemma month_display_Return (month_list : list Z) :
  Forall (λ m, 1 ≤ m ≤ 12)%Z month_list →
  ∃ month_display, ∀ st,
    mapM (λ m, short ← lift (list_getitem short_month_names (m - 1));
               mret (short ++ " (" ++ str m ++ ")")%string)
      month_list st
    = Return month_display st.
Proof.
  intros Hm.
  exists ((λ m, (default ""%string (short_month_names !! Z.to_nat (m - 1))
                 ++ " (" ++ str m ++ ")")%string) <$> month_list).
  intros st. apply mapM_pure. eapply Forall_impl; [apply Hm|].
  intros m Hrange st0. cbn beta in Hrange. unfold list_getitem.
  destruct (m - 1 <? 0)%Z eqn:Hneg; [lia|]. rewrite Hneg.
  destruct (short_month_names !! Z.to_nat (m - 1)) as [short|] eqn:Hshort; [done|].
  apply lookup_ge_None in Hshort. cbn in Hshort. lia.
Qed.

Lemma forallb_take {A} (P : A → bool) (n : nat) (l : list A) :
  forallb P l = true → forallb P (take n l) = true.
Proof.
  rewrite !forallb_forall. intros Hl x Hx. apply Hl.
  apply list_elem_of_In in Hx. apply list_elem_of_In.
  apply elem_of_take in Hx as (i & Hi & _). by eapply list_elem_of_lookup_2.
Qed.

Lemma handle_preferences_Return ship_picks month_picks port_picks s st f :
  uploaded_file s = Some f →
  let ship_options := column_options (Some f) "Ship Code" default_ships in
  let port_options := column_options (Some f) "Originating Port" default_ports in
  ∃ more summary,
    handle_preferences ship_picks month_picks port_picks s st
    = Return
        ({| uploaded_file := Some f;
            preferences := Some
              {| ships := multiselect_str ship_options ship_picks;
                 months := month_number <$> multiselect_str month_names month_picks;
                 ports := multiselect_str port_options port_picks |};
            weights := weights s |},
         PreferencesForm ship_options port_options summary)
        {| frames := frames st ++ more; generator := generator st |}.
Proof.
  intros Hf ship_options port_options. unfold handle_preferences. rewrite Hf.
  destruct (options_block_Return (Some f) "Ship Code" (λ l, l) default_ships st)
    as [more1 Hships]; [done..|].
  erewrite bind_Return; [|exact Hships]. fold ship_options.
  pose proof (multiselect_str_options month_names month_picks) as Hselected.
  erewrite bind_Return; [|by apply month_list_Return].
  set (st1 := {| frames := frames st ++ more1; generator := generator st |}).
  destruct (options_block_Return (Some f) "Originating Port" (take 10)
              default_ports st1) as [more2 Hports];
    [done|apply forallb_take|].
  erewrite bind_Return; [|exact Hports]. fold port_options.
  cbn [frames generator st1]. rewrite <- app_assoc.
  destruct (month_display_Return (month_number <$> multiselect_str month_names month_picks))
    as [month_display Hdisplay].
  { apply Forall_fmap. eapply Forall_impl; [apply Hselected|].
    intros x Hx. by apply month_number_range. }
  exists (more1 ++ more2).
  destruct (multiselect_str ship_options ship_picks) as [|x xs];
    [destruct (month_number <$> multiselect_str month_names month_picks) as [|m ms];
     [destruct (multiselect_str port_options port_picks) as [|y ys]|]|];
    try (by eexists);
    (erewrite bind_Return; [|apply Hdisplay]); by eexists.
Qed.

Lemma column_options_offered f df col fallback :
  master_sailings_grid f = Some df →
  offered df col fallback (column_options (Some f) col fallback).
Proof.
  intros Hsheet. unfold offered, column_options. rewrite Hsheet.
  destruct (get_loc col (columns df)) as [i|]; [|done].
  destruct (forallb is_str (dropna (column_cells i (rows df)))); [|done].
  intros x. rewrite texts_elem_of.
  rewrite (merge_sort_Permutation cell_le). unfold unique.
  fold (unique_from [] (dropna (column_cells i (rows df)))).
  rewrite unique_from_Str, elem_of_nil, dropna_Str. tauto.
Qed.

(** *** Step 1 *)

Lemma handle_file_upload_Raise f s st :
  master_sailings_grid_nrows f 5 = None →
  handle_file_upload (Some f) s st =
  Return ({| uploaded_file := Some f;
             preferences := preferences s;
             weights := weights s |},
          ReadError (ValueError "Worksheet named 'Master Sailings Grid' not found"))
         st.
Proof.
  intros Hsheet. unfold handle_file_upload.
  erewrite try_except_Raise; [done|].
  erewrite bind_Raise; [done|]. unfold read_excel_nrows. by rewrite Hsheet.
Qed.

Lemma handle_file_upload_Return f preview s st :
  master_sailings_grid_nrows f 5 = Some preview →
  handle_file_upload (Some f) s st =
  Return ({| uploaded_file := Some f;
             preferences := preferences s;
             weights := weights s |},
          FilePreview (name f) preview (columns preview))
         {| frames := frames st ++ [preview]; generator := generator st |}.
Proof.
  intros Hsheet. unfold handle_file_upload.
  erewrite try_except_Return; [done|].
  erewrite bind_Return; [|unfold read_excel_nrows; by rewrite Hsheet].
  destruct st as [fs g]. unfold alloc. cbn [frames generator].
  erewrite bind_Return; [|apply deref_alloc]. done.
Qed.

Lemma handle_recommendations_Raise `{SortKind} s st f :
  uploaded_file s = Some f →
  master_sailings_grid f = None →
  is_Some (preferences s) → is_Some (weights s) →
  handle_recommendations true s st =
  Raise (ValueError "Worksheet named 'Master Sailings Grid' not found") st.
Proof.
  intros Hf Hsheet [p Hp] [w Hw]. unfold handle_recommendations, missing_steps.
  rewrite Hf, Hp, Hw. cbn [app].
  erewrite bind_Raise; [done|]. by apply read_excel_Raise.
Qed.

(** *** The session across runs of [main] *)

Lemma bind_Return_inv {A B} (m : M A) (f : A → M B) st b st' :
  (m ≫= f) st = Return b st' →
  ∃ a st1, m st = Return a st1 ∧ f a st1 = Return b st'.
Proof.
  unfold mbind, M_bind. destruct (m st) as [a st1|e st1]; [|done]. eauto.
Qed.

Lemma handle_weights_valid a b c d s s' v :
  (0 ≤ a ≤ 10)%Z → (0 ≤ b ≤ 10)%Z → (0 ≤ c ≤ 10)%Z → (0 ≤ d ≤ 10)%Z →
  handle_weights a b c d s = (s', v) →
  s' = s
  ∨ ∃ w, is_Some (uploaded_file s) ∧ valid_weights w
         ∧ s' = {| uploaded_file := uploaded_file s;
                   preferences := preferences s;
                   weights := Some w |}.
Proof.
  intros Ha Hb Hc Hd. unfold handle_weights.
  destruct (uploaded_file s) as [f|] eqn:Hf; [|left; congruence].
  destruct (forallb _ _) eqn:Hzero; [left; congruence|].
  intros Heq. injection Heq as <- _. right. eexists. split; [done|].
  split; [|done]. cbn in Hzero.
  assert (0 < a + b + c + d)%Z as Htotal.
  { destruct (Z.eqb_spec a 0), (Z.eqb_spec b 0), (Z.eqb_spec c 0),
      (Z.eqb_spec d 0); cbn in Hzero; try discriminate; lia. }
  unfold valid_weights. cbn [raw normalized ship month port theo foldl].
  replace (0 + a + b + c + d)%Z with (a + b + c + d)%Z by lia.
  split; [done|]. split; [done|]. split; [done|].
  apply (normalized_sum a b c d (a + b + c + d)); [done..| | | |];
    apply div_Z_normalized; lia.
Qed.

Lemma handle_file_upload_session uploaded s st s' v st' :
  handle_file_upload uploaded s st = Return (s', v) st' →
  s' = s
  ∨ ∃ f, s' = {| uploaded_file := Some f;
                 preferences := preferences s;
                 weights := weights s |}.
Proof.
  destruct uploaded as [f|]; [|left; by injection H].
  intros Hrun. right. exists f.
  destruct (master_sailings_grid_nrows f 5) as [df|] eqn:Hsheet.
  - rewrite (handle_file_upload_Return f df) in Hrun by done. by injection Hrun.
  - rewrite handle_file_upload_Raise in Hrun by done. by injection Hrun.
Qed.

Lemma main_consistent `{SortKind} i s st s' v st' :
  slider_values i → consistent s → main i s st = Return (s', v) st' →
  consistent s'.
Proof.
  intros Hsliders [Hw Hp] Hrun. destruct i as [uploaded|sp mp pp|a b c d|clicked];
    cbn [main] in Hrun.
  - apply bind_Return_inv in Hrun as ([s1 v1] & st1 & Hstep & Hret).
    injection Hret as <- _ _.
    apply handle_file_upload_session in Hstep as [->|[f ->]]; [done|].
    split; cbn [weights preferences uploaded_file].
    + destruct (weights s); [|done]. split; [by eexists|]. apply Hw.
    + destruct (preferences s); [|done]. split; [by eexists|]. apply Hp.
  - apply bind_Return_inv in Hrun as ([s1 v1] & st1 & Hstep & Hret).
    injection Hret as <- _ _.
    destruct (uploaded_file s) as [f|] eqn:Hf.
    + destruct (handle_preferences_Return sp mp pp s st f Hf)
        as (more & summary & Heq).
      rewrite Heq in Hstep. injection Hstep as <- _ _.
      split; cbn [weights preferences uploaded_file months].
      * destruct (weights s); [|done]. split; [by eexists|]. apply Hw.
      * split; [by eexists|]. apply Forall_fmap.
        eapply Forall_impl; [apply multiselect_str_options|].
        intros x Hx. by apply month_number_range.
    + unfold handle_preferences in Hstep. rewrite Hf in Hstep.
      injection Hstep as <- _ _. unfold consistent. rewrite Hf. by split.
  - destruct (handle_weights a b c d s) as [s1 v1] eqn:Hstep.
    injection Hrun as <- _ _. destruct Hsliders as (Ha & Hb & Hc & Hd).
    destruct (handle_weights_valid a b c d s s1 v1 Ha Hb Hc Hd Hstep)
      as [->|(w & Hfile & Hvalid & ->)]; [by split|].
    split; cbn [weights preferences uploaded_file]; [done|].
    destruct (preferences s); [|done]. split; [done|]. apply Hp.
  - apply bind_Return_inv in Hrun as (v1 & st1 & _ & Hret).
    injection Hret as <- _ _. by split.
Qed.

Lemma reachable_consistent `{SortKind} s : reachable s → consistent s.
Proof.
  induction 1 as [|i s st s' v st' _ IH Hsliders Hrun]; [by split|].
  by eapply main_consistent.
Qed.

(** *** Weights on display *)

Lemma handle_weights_stored a b c d s :
  is_Some (uploaded_file s) → (0 < a + b + c + d)%Z →
  let total := (a + b + c + d)%Z in
  let nw := Factors (div_Z a total) (div_Z b total) (div_Z c total) (div_Z d total) in
  handle_weights a b c d s =
  ({| uploaded_file := uploaded_file s;
      preferences := preferences s;
      weights := Some {| raw := Factors a b c d; normalized := nw |} |},
   WeightDistribution nw).
Proof.
  intros [f Hf] Htotal total nw. unfold handle_weights. rewrite Hf.
  assert (forallb (λ w, w =? 0)%Z [a; b; c; d] = false) as ->.
  { cbn. destruct (Z.eqb_spec a 0), (Z.eqb_spec b 0), (Z.eqb_spec c 0),
      (Z.eqb_spec d 0); try done. lia. }
  cbn [foldl]. replace (0 + a + b + c + d)%Z with total by (unfold total; lia).
  done.
Qed.

Lemma all_percents_checked :
  forallb (λ total, forallb (percent_checked total) slider_positions)
    slider_totals = true.
Proof. vm_compute. reflexivity. Qed.

Lemma format_percent_quotient (x total : Z) :
  (0 ≤ x ≤ 10)%Z → (1 ≤ total ≤ 40)%Z → (x ≤ total)%Z →
  format_percent (div_Z x total)
  = (fixed_1 (percent_tenths (div_Z x total)) ++ "%")%string
  ∧ (2 * Z.abs (percent_tenths (div_Z x total) * total - 1000 * x) ≤ total)%Z.
Proof.
  intros Hx Ht Hxt. pose proof all_percents_checked as Hall.
  rewrite forallb_forall in Hall. specialize (Hall total (slider_total total Ht)).
  rewrite forallb_forall in Hall. specialize (Hall x (slider_position x Hx)).
  unfold percent_checked in Hall.
  destruct (Z.ltb_spec total x); [lia|]. cbn [orb] in Hall.
  apply andb_true_iff in Hall as [Htext Hbound].
  apply String.eqb_eq in Htext. apply Z.leb_le in Hbound. done.
Qed.

Lemma all_orders_checked :
  forallb (λ total,
    forallb (λ x1, forallb (order_checked total x1) slider_positions)
      slider_positions) slider_totals = true.
Proof. vm_compute. reflexivity. Qed.

Lemma div_Z_order (x1 x2 total : Z) :
  (0 ≤ x1 ≤ 10)%Z → (0 ≤ x2 ≤ 10)%Z → (1 ≤ total ≤ 40)%Z →
  (x1 ≤ total)%Z → (x2 ≤ total)%Z →
  ((x1 ≤ x2)%Z ↔ le (div_Z x1 total) (div_Z x2 total))
  ∧ (x1 = 0%Z ↔ (to_Q (div_Z x1 total) <= 0)%Q).
Proof.
  intros H1 H2 Ht H1t H2t. pose proof all_orders_checked as Hall.
  rewrite forallb_forall in Hall. specialize (Hall total (slider_total total Ht)).
  rewrite forallb_forall in Hall. specialize (Hall x1 (slider_position x1 H1)).
  rewrite forallb_forall in Hall. specialize (Hall x2 (slider_position x2 H2)).
  unfold order_checked in Hall.
  destruct (Z.ltb_spec total x1); [lia|]. destruct (Z.ltb_spec total x2); [lia|].
  cbn [orb] in Hall. apply andb_true_iff in Hall as [Horder Hzero].
  apply Bool.eqb_prop in Horder, Hzero. split.
  - rewrite <- Z.leb_le, Horder. unfold leb, le. apply Qle_bool_iff.
  - rewrite <- Z.eqb_eq, Hzero. apply Qle_bool_iff.
Qed.

(** *** The "Top Recommendations" tab *)

Lemma mapM_filter_get_loc (cols names : list string) :
  ∃ locs,
    mapM (M:=option) (λ c, get_loc c cols)
      (filter (λ col, existsb (String.eqb col) cols = true) names) = Some locs.
Proof.
  induction names as [|c names [locs IH]]; [by exists []|].
  rewrite filter_cons. destruct (decide _) as [Hc|]; [|by exists locs].
  apply existsb_get_loc in Hc as (i & Hi & _). exists (i :: locs).
  cbn [mapM]. rewrite Hi. cbn. by rewrite IH.
Qed.

Lemma length_apply_format cells formatted :
  apply_format cells = inr formatted → length formatted = length cells.
Proof.
  revert formatted. induction cells as [|c cells IH]; intros formatted; cbn.
  - by intros [= <-].
  - destruct (format_score c); [done|]. destruct (apply_format cells); [done|].
    intros [= <-]. cbn. f_equal. by apply IH.
Qed.

Lemma apply_format_numbers cells :
  Forall (λ c, is_str c = false) cells → ∃ formatted, apply_format cells = inr formatted.
Proof.
  induction 1 as [|c cells Hc _ [formatted IH]]; [by exists []|].
  cbn. rewrite IH. destruct c; try discriminate; cbn; eauto.
Qed.

Lemma mapM_lookup_second {A} (f g : A → cell) (h : A → list cell) (l : list A) :
  mapM (M:=option) (λ r : list cell, r !! 1) ((λ x, f x :: g x :: h x) <$> l)
  = Some (g <$> l).
Proof. induction l as [|x l IH]; [done|]. cbn. by rewrite IH. Qed.

Lemma zip_with_insert_second {A} (f g : A → cell) (h : A → list cell)
  (l : list A) (vs : list cell) :
  zip_with (λ (r : list cell) v, <[1 := v]> r) ((λ x, f x :: g x :: h x) <$> l) vs
  = zip_with (λ x v, f x :: v :: h x) l vs.
Proof.
  revert vs. induction l as [|x l IH]; intros [|v vs]; cbn; try done.
  by rewrite IH.
Qed.

Lemma setitem_existing name vs df k :
  get_loc name (columns df) = Some k → length vs = length (rows df) →
  setitem name vs df =
  inr {| columns := columns df;
         rows := zip_with (λ r v, <[k := v]> r) (rows df) vs |}.
Proof. intros Hk Hlen. unfold setitem. by rewrite Hlen, Nat.eqb_refl, Hk. Qed.

Lemma display_top_recommendations_Return r st d i j formatted :
  frames st !! r = Some d →
  get_loc "Rank" (columns d) = Some i →
  get_loc "Match Score" (columns d) = Some j →
  apply_format (take 10 (column_cells j (rows d))) = inr formatted →
  ∃ locs head selected,
    mapM (M:=option) (λ c, get_loc c (columns d)) (drop 2 (top_columns d))
    = Some locs
    ∧ display_top_recommendations r st =
      Return (length (frames st) + 2)
        {| frames := frames st ++ [head; selected; top_table d i locs formatted];
           generator := generator st |}.
Proof.
  intros Hr Hi Hj Hformat. destruct st as [fs g]. cbn [frames generator] in *.
  destruct (mapM_filter_get_loc (columns d)
              ["Ship Code"; "Month"; "Sailing Date"; "Originating Port"]%string)
    as [locs Hlocs].
  set (head := {| columns := columns d; rows := take 10 (rows d) |}).
  set (selected :=
         {| columns := top_columns d;
            rows := (λ row : list cell,
                       default NaN (row !! i) :: default NaN (row !! j)
                       :: ((λ k, default NaN (row !! k)) <$> locs))
                    <$> take 10 (rows d) |}).
  exists locs, head, selected. split; [exact Hlocs|].
  unfold display_top_recommendations.
  (* top_10 = df.head(10) *)
  erewrite bind_Return; cycle 1.
  { unfold df_head. erewrite bind_Return by (by apply deref_Return). done. }
  cbn [frames generator]. fold head.
  erewrite bind_Return
    by (apply deref_Return; cbn [frames]; by apply lookup_heap_old).
  (* top_10[display_columns] *)
  assert (getitem_columns (top_columns d) head = inr selected) as Hselect.
  { unfold getitem_columns, top_columns. cbn [mapM columns head].
    rewrite Hi, Hj. cbn [mbind option_bind]. rewrite Hlocs. done. }
  erewrite bind_Return; cycle 1.
  { unfold df_getitem_columns.
    erewrite bind_Return by apply deref_alloc.
    change (getitem_columns _ head) with (getitem_columns (top_columns d) head).
    rewrite Hselect. done. }
  cbn [frames generator lift].
  rewrite <- app_assoc, length_app. cbn [app length].
  (* .copy() *)
  erewrite bind_Return by (apply df_copy_Return; heap_lookup).
  cbn [frames generator]. rewrite <- app_assoc, length_app. cbn [app length].
  (* display_df['Match Score'].apply(...) *)
  assert (getitem "Match Score" selected
          = Some (take 10 (column_cells j (rows d)))) as Hscores.
  { unfold getitem. cbn [columns rows selected].
    change (get_loc "Match Score" (top_columns d)) with (Some 1).
    cbn [mbind option_bind].
    rewrite (mapM_lookup_second (λ row, default NaN (row !! i))
               (λ row, default NaN (row !! j))).
    unfold column_cells. by rewrite fmap_take. }
  erewrite bind_Return; cycle 1.
  { unfold df_getitem. erewrite bind_Return by (apply deref_Return; heap_lookup).
    rewrite Hscores. done. }
  rewrite Hformat. cbn [lift]. erewrite bind_Return by done.
  erewrite bind_Return; cycle 1.
  { eapply df_setitem_Return; [heap_lookup|].
    rewrite (setitem_existing _ _ _ 1); [|done|].
    - cbn [rows selected columns].
      rewrite (zip_with_insert_second (λ row, default NaN (row !! i))
                 (λ row, default NaN (row !! j))). done.
    - rewrite (length_apply_format _ _ Hformat). cbn [rows selected].
      unfold column_cells. by rewrite <- fmap_take, !length_fmap. }
  cbn [frames generator].
  change [head; selected; selected] with ([head; selected] ++ [selected]).
  rewrite app_assoc.
  replace (length fs + 2) with (length (fs ++ [head; selected]))
    by (rewrite length_app; done).
  rewrite insert_heap_end, <- app_assoc. done.
Qed.

Lemma display_top_recommendations_Raise r st d :
  frames st !! r = Some d →
  get_loc "Rank" (columns d) = None ∨ get_loc "Match Score" (columns d) = None →
  ∃ msg head,
    display_top_recommendations r st =
    Raise (KeyError msg)
      {| frames := frames st ++ [head]; generator := generator st |}.
Proof.
  intros Hr Hmissing. destruct st as [fs g]. cbn [frames generator] in *.
  set (head := {| columns := columns d; rows := take 10 (rows d) |}).
  eexists _, head. unfold display_top_recommendations.
  erewrite bind_Return; cycle 1.
  { unfold df_head. erewrite bind_Return by (by apply deref_Return). done. }
  cbn [frames generator]. fold head.
  erewrite bind_Return
    by (apply deref_Return; cbn [frames]; by apply lookup_heap_old).
  erewrite bind_Raise; [done|].
  unfold df_getitem_columns. erewrite bind_Return by apply deref_alloc.
  erewrite bind_Raise; [done|].
  unfold getitem_columns. cbn [app mapM columns head].
  destruct Hmissing as [-> | Hscore]; [done|].
  destruct (get_loc "Rank" (columns d)); [|done].
  cbn [mbind option_bind]. by rewrite Hscore.
Qed.

(** *** The "Full Results" tab *)



Lemma apply_filter_sublist col chosen df rs :
  apply_filter col chosen df rs `sublist_of` rs.
Proof.
  unfold apply_filter. destruct chosen; [done|].
  destruct (get_loc col (columns df)); [|done]. apply sublist_filter.
Qed.

Lemma column_filter_nil col df : column_filter col [] df = [].
Proof. unfold column_filter. by destruct (get_loc col (columns df)). Qed.


Lemma rows_scores (j : nat) (rs : list (list cell)) (scores : list float)
  (P : float → Prop) :
  mapM (M:=option) (λ r : list cell, r !! j) rs = Some (Num <$> scores) →
  Forall P scores →
  Forall (λ r, ∃ y, r !! j = Some (Num y) ∧ P y) rs.
Proof.
  intros Hcells. apply mapM_Some_1 in Hcells. revert scores Hcells.
  induction rs as [|r rs IH]; intros [|y scores] Hcells Hscores;
    [done|done|by apply Forall2_length in Hcells|].
  cbn in Hcells. apply Forall2_cons_1 in Hcells as [Hr Hrs].
  apply Forall_cons in Hscores as [Hy Hscores].
  constructor; [by exists y|]. by apply (IH scores).
Qed.

(** The frame the recommendation step returns, seen from the tabs: its
    'Rank' column, first, counts from 1, and its 'Match Score' column holds
    two-decimal scores between 65 and 95. *)
Lemma recommendations_frame_columns `{SortKind} df g :
  well_formed df →
  let n := length (rows df) in
  let out := recommendations_frame df (drawn_scores g n) in
  ∃ j scores,
    get_loc "Rank" (columns out) = Some 0
    ∧ get_loc "Match Score" (columns out) = Some j
    ∧ length (rows out) = n
    ∧ mapM (M:=option) (λ r : list cell, r !! 0) (rows out) = Some (range_cells 1 n)
    ∧ mapM (M:=option) (λ r : list cell, r !! j) (rows out) = Some (Num <$> scores)
    ∧ Forall two_decimal_score scores.
Proof.
  intros [Hnd Hlen] n out.
  destruct (recommendations_frame_ranked df (drawn_scores g n))
    as (scored & Hperm & _ & Heq); [apply length_drawn_scores|].
  assert (length scored = n) as Hn.
  { rewrite <- (Permutation_length Hperm), length_zip, length_drawn_scores.
    unfold n. lia. }
  subst out. rewrite Heq.
  pose proof (getitem_rank_ranked (columns df) scored) as Hrank.
  pose proof (getitem_match_score_ranked (columns df) scored) as Hscore.
  specialize (Hscore (scored_rows_length _ _ _ _ Hlen Hperm)).
  unfold getitem in Hrank, Hscore.
  change (get_loc "Rank" (columns (ranked (columns df) scored))) with (Some 0)
    in *.
  destruct (get_loc "Match Score" (columns (ranked (columns df) scored)))
    as [j|] eqn:Hj; [|done].
  cbn [mbind option_bind] in Hrank, Hscore.
  exists j, scored.*1. rewrite Hn in Hrank.
  repeat (split; [done|]). split; [by rewrite length_rows_ranked|].
  repeat (split; [done|]).
  rewrite (scored_keys _ (rows df)) by (done || apply length_drawn_scores).
  apply drawn_scores_two_decimal.
Qed.

Lemma mapM_column_cells (j : nat) (rs : list (list cell)) (cs : list cell) :
  mapM (M:=option) (λ r : list cell, r !! j) rs = Some cs → column_cells j rs = cs.
Proof.
  intros Hcells. apply mapM_Some_1 in Hcells. unfold column_cells.
  induction Hcells as [|r c rs cs Hr _ IH]; [done|]. cbn. by rewrite Hr, IH.
Qed.

Lemma apply_format_Num (scores : list float) :
  apply_format (Num <$> scores)
  = inr ((λ y, Str (format_1f y ++ "%")) <$> scores).
Proof. induction scores as [|y scores IH]; [done|]. cbn. by rewrite IH. Qed.

Lemma length_rows_top_table d i locs formatted :
  length formatted = length (take 10 (rows d)) →
  length (rows (top_table d i locs formatted)) = 10 `min` length (rows d).
Proof.
  intros Hlen. unfold top_table. cbn [rows].
  rewrite length_zip_with, Hlen, length_take. lia.
Qed.

Lemma getitem_top_table d i locs formatted :
  length formatted = length (take 10 (rows d)) →
  getitem "Rank" (top_table d i locs formatted)
  = Some (take 10 (column_cells i (rows d)))
  ∧ getitem "Match Score" (top_table d i locs formatted) = Some formatted.
Proof.
  intros Hlen. unfold getitem, top_table. cbn [columns rows].
  change (get_loc "Rank" (top_columns d)) with (Some 0).
  change (get_loc "Match Score" (top_columns d)) with (Some 1).
  cbn [mbind option_bind]. unfold column_cells. rewrite <- fmap_take.
  revert Hlen. generalize (take 10 (rows d)). intros rs. revert formatted.
  induction rs as [|row rs IH]; intros [|v formatted] Hlen; try done.
  cbn in Hlen. injection Hlen as Hlen. destruct (IH formatted Hlen) as [IH1 IH2].
  cbn. cbn in IH1, IH2. by rewrite IH1, IH2.
Qed.



(** *** Step 4 and its tabs *)

Lemma one_kind_unique cells : one_kind (unique cells) = one_kind cells.
Proof.
  unfold one_kind, unique. fold (unique_from [] cells).
  rewrite !unique_from_kind; [done|..].
  - intros a b Hab. by rewrite (cell_eqb_is_str a b).
  - apply cell_eqb_is_str.
Qed.

Lemma sorted_one_kind values :
  one_kind values = true → sorted values = inr (merge_sort cell_le values).
Proof. unfold sorted, one_kind. by intros ->. Qed.

Lemma sorted_mixed values :
  one_kind values = false → ∃ msg, sorted values = inl (TypeError msg).
Proof. unfold sorted, one_kind. intros ->. by eexists. Qed.





Lemma existsb_sublist {A} (P : A → bool) (l k : list A) :
  l `sublist_of` k → existsb P k = false → existsb P l = false.
Proof.
  induction 1 as [|x l k _ IH|x l k _ IH]; cbn; [done|..].
  - intros [Hx Hk]%orb_false_elim. by rewrite Hx, IH.
  - intros [_ Hk]%orb_false_elim. by apply IH.
Qed.

Lemma existsb_negb_forallb {A} (P : A → bool) (l : list A) :
  forallb (λ x, negb (P x)) l = true → existsb P l = false.
Proof.
  induction l as [|x l IH]; cbn; [done|].
  intros [Hx Hl]%andb_prop. by rewrite (negb_true_iff _) in Hx; rewrite Hx, IH.
Qed.

(** The tab on a frame it accepts. *)
Lemma display_full_results_Return df ship_picks month_picks min_score j :
  get_loc "Match Score" (columns df) = Some j →
  month_one_kind df = true →
  numeric_scores df = true →
  display_full_results df ship_picks month_picks min_score
  = inr {| columns := columns df;
           rows := filter (λ r, score_at_least j min_score r = true)
                     (apply_filter "Month" (month_choice df month_picks) df
                        (apply_filter "Ship Code"
                           (column_filter "Ship Code" ship_picks df) df (rows df))) |}.
Proof.
  intros Hj Hmonth Hscores. unfold display_full_results, month_choice.
  unfold month_one_kind in Hmonth. unfold numeric_scores in Hscores.
  rewrite Hj in Hscores |- *.
  assert (∀ chosen,
            existsb (λ r : list cell, is_str (default NaN (r !! j)))
              (apply_filter "Month" chosen df
                 (apply_filter "Ship Code"
                    (column_filter "Ship Code" ship_picks df) df (rows df)))
            = false) as Hnumbers.
  { intros chosen. eapply existsb_sublist; [|by apply existsb_negb_forallb].
    etrans; apply apply_filter_sublist. }
  destruct (get_loc "Month" (columns df)) as [i|] eqn:Hi.
  - rewrite sorted_one_kind by (by rewrite one_kind_unique).
    by rewrite Hnumbers.
  - by rewrite Hnumbers.
Qed.

(** The tab on a frame whose 'Month' column mixes text with other values. *)
Lemma display_full_results_Raise df ship_picks month_picks min_score :
  month_one_kind df = false →
  ∃ msg, display_full_results df ship_picks month_picks min_score
         = inl (TypeError msg).
Proof.
  intros Hmonth. unfold display_full_results.
  unfold month_one_kind in Hmonth.
  destruct (get_loc "Month" (columns df)) as [i|]; [|done].
  rewrite <- one_kind_unique in Hmonth.
  destruct (sorted_mixed _ Hmonth) as [msg ->]. by exists msg.
Qed.

(** In the frame the recommendation step returns, a column of the sheet
    other than 'Match Score' sits one place to the right and holds the
    cells it held, in another order. *)
Lemma attach_score_other cols y r name i :
  get_loc name cols = Some i → name ≠ "Match Score"%string →
  length r = length cols →
  default NaN (attach_score cols y r !! i) = default NaN (r !! i).
Proof.
  intros Hi Hname Hlen. unfold attach_score.
  apply get_loc_Some in Hi as Hcol.
  destruct (get_loc "Match Score" cols) as [k|] eqn:Hk.
  - apply get_loc_Some in Hk. rewrite list_lookup_insert_ne; [done|].
    intros ->. congruence.
  - rewrite lookup_app_l; [done|]. rewrite Hlen. by eapply lookup_lt_Some.
Qed.

Lemma column_cells_ranked cols scored name i :
  get_loc name cols = Some i → name ≠ "Match Score"%string →
  Forall (λ p : float * list cell, length p.2 = length cols) scored →
  column_cells (S i) (rows (ranked cols scored))
  = (λ p : float * list cell, default NaN (p.2 !! i)) <$> scored.
Proof.
  intros Hi Hname Hlen. rewrite rows_ranked. unfold column_cells.
  assert (length (seq 1 (length scored)) = length scored) as Hks
    by apply length_seq.
  revert Hks.
  generalize (seq 1 (length scored)). intros ks Hks. revert ks Hks.
  induction Hlen as [|p scored Hp _ IH]; intros [|k ks] Hks; cbn in Hks;
    [done|done|lia|].
  cbn. rewrite (IH ks) by lia. f_equal.
  by eapply attach_score_other.
Qed.

Lemma get_loc_ranked name cols i :
  name ≠ "Rank"%string → get_loc name cols = Some i →
  get_loc name ("Rank"%string :: score_columns cols) = Some (S i).
Proof.
  intros Hname Hi. cbn [get_loc].
  destruct (String.eqb_spec "Rank" name) as [Heq|_]; [by subst|].
  unfold score_columns. destruct (get_loc "Match Score" cols).
  - by rewrite Hi.
  - by rewrite (get_loc_app_Some _ _ _ _ Hi).
Qed.

Lemma month_one_kind_recommendations `{SortKind} df ys :
  well_formed df → length ys = length (rows df) →
  month_one_kind (recommendations_frame df ys) = month_one_kind df.
Proof.
  intros [Hnd Hlen] Hys.
  destruct (recommendations_frame_ranked df ys Hys) as (scored & Hperm & _ & ->).
  unfold month_one_kind. cbn [ranked columns].
  destruct (get_loc "Month" (columns df)) as [i|] eqn:Hi.
  - rewrite (get_loc_ranked "Month" _ i) by done.
    rewrite (column_cells_ranked _ _ "Month") by
      (done || by eapply scored_rows_length).
    assert ((λ p : float * list cell, default NaN (p.2 !! i)) <$> scored
            ≡ₚ column_cells i (rows df)) as Hcells.
    { rewrite <- Hperm. unfold column_cells.
      rewrite <- (snd_zip ys (rows df)) at 2 by lia.
      by rewrite <- list_fmap_compose. }
    unfold one_kind.
    by rewrite (forallb_Permutation is_str _ _ Hcells),
      (forallb_Permutation (λ c, negb (is_str c)) _ _ Hcells).
  - rewrite get_loc_recommendations_columns; [done..|]. by apply get_loc_None.
Qed.

Lemma numeric_scores_recommendations `{SortKind} df g :
  well_formed df →
  numeric_scores (recommendations_frame df (drawn_scores g (length (rows df))))
  = true.
Proof.
  intros Hwf.
  destruct (recommendations_frame_columns df g Hwf)
    as (j & scores & _ & Hj & _ & _ & Hscores & _).
  cbv zeta in Hj, Hscores. unfold numeric_scores. rewrite Hj.
  apply forallb_forall. intros row Hrow.
  assert (Forall (λ _ : float, True) scores) as Htrue by by apply Forall_true.
  pose proof (rows_scores j _ scores _ Hscores Htrue) as Hrows.
  rewrite Forall_forall in Hrows.
  destruct (Hrows row) as (y & -> & _); [|done].
  by apply list_elem_of_In.
Qed.

(** *** The "Score Breakdown" tab *)

Lemma display_score_breakdown_Return r st d i j :
  frames st !! r = Some d →
  get_loc "Rank" (columns d) = Some i →
  get_loc "Match Score" (columns d) = Some j →
  Forall (λ c, is_str c = false) (take 5 (column_cells j (rows d))) →
  ∃ views head,
    display_score_breakdown r st =
    Return views {| frames := frames st ++ [head]; generator := generator st |}.
Proof.
  intros Hr Hi Hj Hnumbers. destruct st as [fs g]. cbn [frames generator] in *.
  set (head := {| columns := columns d; rows := take 5 (rows d) |}).
  eexists _, head. unfold display_score_breakdown.
  erewrite bind_Return; cycle 1.
  { unfold df_head. erewrite bind_Return by (by apply deref_Return). done. }
  cbn [frames generator]. fold head.
  erewrite bind_Return by apply deref_alloc.
  apply (mapM_pure _
           (λ row, {| final_match_score :=
                        match format_score (default NaN (row !! j)) with
                        | inr text => text
                        | inl _ => NaN
                        end;
                      sailing_details :=
                        filter (λ col, detail_shown (columns head) row col = true)
                          ["Ship Code"; "Sailing Date"; "Originating Port";
                           "Rdss Product Code"; "Month"]%string |})).
  cbn [rows columns head]. unfold column_cells in Hnumbers.
  rewrite <- fmap_take, Forall_fmap in Hnumbers.
  eapply Forall_impl; [apply Hnumbers|]. intros row Hrow st. cbn in Hrow.
  unfold row_getitem. rewrite Hi, Hj.
  by destruct (default NaN (row !! j)).
Qed.

(** *** Step 4, from the click to the download *)

(** The run on a well-formed sheet without a 'Rank' column: the first two
    tabs succeed, and the run ends as the third tab does. *)
Lemma handle_recommendations_tabs `{SortKind} s st f df p w :
  uploaded_file s = Some f →
  master_sailings_grid f = Some df →
  preferences s = Some p →
  weights s = Some w →
  well_formed df →
  get_loc "Rank" (columns df) = None →
  let n := length (rows df) in
  let ys := drawn_scores (generator st) n in
  ∃ more,
    handle_recommendations true s st =
    match display_full_results (recommendations_frame df ys) [] [] 70 with
    | inr _ =>
        Return
          (Generated (length (frames st) + 3)
             {| master_sailings_grid_sheet := df;
                sailing_recommendations_sheet := recommendations_frame df ys |})
          {| frames := frames st
                       ++ [df; scored_frame (columns df) (zip ys (rows df));
                           sorted_frame df ys; recommendations_frame df ys]
                       ++ more;
             generator := advance n (generator st) |}
    | inl e =>
        Raise e
          {| frames := frames st
                       ++ [df; scored_frame (columns df) (zip ys (rows df));
                           sorted_frame df ys; recommendations_frame df ys]
                       ++ more;
             generator := advance n (generator st) |}
    end.
Proof.
  intros Hf Hsheet Hp Hw Hwf Hrank n ys.
  set (out := recommendations_frame df ys).
  set (made := [df; scored_frame (columns df) (zip ys (rows df));
                sorted_frame df ys; out]).
  destruct (recommendations_frame_columns df (generator st) Hwf)
    as (j & scores & Hrank_loc & Hscore_loc & _ & _ & Hscores & _).
  fold n ys out in Hrank_loc, Hscore_loc, Hscores.
  apply mapM_column_cells in Hscores as Hscore_cells.
  assert (apply_format (take 10 (column_cells j (rows out)))
          = inr ((λ y, Str (format_1f y ++ "%")) <$> take 10 scores)) as Hformat.
  { by rewrite Hscore_cells, <- fmap_take, apply_format_Num. }
  assert (Forall (λ c, is_str c = false) (take 5 (column_cells j (rows out))))
    as Hnumbers.
  { rewrite Hscore_cells, <- fmap_take. by apply Forall_fmap, Forall_true. }
  set (st2 := {| frames := frames st ++ made;
                 generator := advance n (generator st) |}).
  assert (frames st2 !! (length (frames st) + 3) = Some out) as Hout
    by (subst st2 made; heap_lookup).
  destruct (display_top_recommendations_Return _ st2 out 0 j _ Hout
              Hrank_loc Hscore_loc Hformat)
    as (locs & head & selected & _ & Htop).
  set (shown := top_table out 0 locs _) in Htop.
  set (st3 := {| frames := frames st2 ++ [head; selected; shown];
                 generator := generator st2 |}) in Htop.
  assert (frames st3 !! (length (frames st) + 3) = Some out) as Hout3
    by (subst st3; cbn [frames]; by apply lookup_heap_old).
  destruct (display_score_breakdown_Return _ st3 out 0 j Hout3
              Hrank_loc Hscore_loc Hnumbers)
    as (views & head5 & Hbreakdown).
  set (st4 := {| frames := frames st3 ++ [head5];
                 generator := generator st3 |}) in Hbreakdown.
  assert (frames st4 !! (length (frames st) + 3) = Some out) as Hout4
    by (subst st4; cbn [frames]; by apply lookup_heap_old).
  assert (frames st4 !! length (frames st) = Some df) as Hdf4.
  { subst st4 st3 st2 made. cbn [frames]. do 2 apply lookup_heap_old.
    by apply list_lookup_middle. }
  assert (st4 = {| frames := frames st ++ made ++ [head; selected; shown; head5];
                   generator := advance n (generator st) |}) as Hst4.
  { subst st4 st3 st2. cbn [frames generator]. f_equal.
    by rewrite <- !app_assoc. }
  exists [head; selected; shown; head5]. fold made. rewrite <- Hst4.
  unfold handle_recommendations, missing_steps. rewrite Hf, Hp, Hw. cbn [app].
  (* original_df = pd.read_excel(...) *)
  erewrite bind_Return by (by apply read_excel_Return).
  (* recommendations_df = create_dummy_recommendations_with_scores(original_df) *)
  erewrite bind_Return; cycle 1.
  { apply (create_dummy_recommendations_Return _ _ df); cbn [frames];
      [by apply list_lookup_middle | done | done]. }
  cbn [frames generator]. fold n ys out.
  rewrite <- app_assoc, length_app. cbn [app length].
  rewrite <- Nat.add_assoc. change (1 + 2) with 3. fold made st2.
  (* the three tabs *)
  erewrite bind_Return by exact Htop.
  erewrite bind_Return by exact Hbreakdown.
  erewrite bind_Return by (by apply deref_Return).
  destruct (display_full_results out [] [] 70) as [e|full].
  { erewrite bind_Raise; done. }
  erewrite bind_Return by done.
  (* the two sheets written to the workbook *)
  erewrite bind_Return by (by apply deref_Return).
  erewrite bind_Return by (by apply deref_Return).
  reflexivity.
Qed.

Lemma handle_recommendations_Generated `{SortKind} s st f df p w :
  uploaded_file s = Some f →
  master_sailings_grid f = Some df →
  preferences s = Some p →
  weights s = Some w →
  well_formed df →
  get_loc "Rank" (columns df) = None →
  month_one_kind df = true →
  let n := length (rows df) in
  let ys := drawn_scores (generator st) n in
  ∃ more,
    handle_recommendations true s st =
    Return
      (Generated (length (frames st) + 3)
         {| master_sailings_grid_sheet := df;
            sailing_recommendations_sheet := recommendations_frame df ys |})
      {| frames := frames st
                   ++ [df; scored_frame (columns df) (zip ys (rows df));
                       sorted_frame df ys; recommendations_frame df ys]
                   ++ more;
         generator := advance n (generator st) |}.
Proof.
  intros Hf Hsheet Hp Hw Hwf Hrank Hmonth n ys.
  destruct (handle_recommendations_tabs s st f df p w Hf Hsheet Hp Hw Hwf Hrank)
    as [more Hrun].
  exists more. rewrite Hrun. fold n ys.
  destruct (recommendations_frame_columns df (generator st) Hwf)
    as (j & scores & _ & Hscore_loc & _).
  fold n ys in Hscore_loc.
  rewrite (display_full_results_Return _ _ _ _ j); [done..| |].
  - rewrite month_one_kind_recommendations; [done..|].
    apply length_drawn_scores.
  - by apply numeric_scores_recommendations.
Qed.

Lemma handle_recommendations_mixed_month `{SortKind} s st f df p w :
  uploaded_file s = Some f →
  master_sailings_grid f = Some df →
  preferences s = Some p →
  weights s = Some w →
  well_formed df →
  get_loc "Rank" (columns df) = None →
  month_one_kind df = false →
  let n := length (rows df) in
  let ys := drawn_scores (generator st) n in
  ∃ msg more,
    handle_recommendations true s st =
    Raise (TypeError msg)
      {| frames := frames st
                   ++ [df; scored_frame (columns df) (zip ys (rows df));
                       sorted_frame df ys; recommendations_frame df ys]
                   ++ more;
         generator := advance n (generator st) |}.
Proof.
  intros Hf Hsheet Hp Hw Hwf Hrank Hmonth n ys.
  destruct (handle_recommendations_tabs s st f df p w Hf Hsheet Hp Hw Hwf Hrank)
    as [more Hrun].
  destruct (display_full_results_Raise (recommendations_frame df ys) [] [] 70)
    as [msg Hfull].
  { rewrite month_one_kind_recommendations; [done..|].
    apply length_drawn_scores. }
  exists msg, more. rewrite Hrun. fold n ys. by rewrite Hfull.
Qed.

Lemma handle_file_upload_generator uploaded s st s' v st' :
  handle_file_upload uploaded s st = Return (s', v) st' →
  preferences s' = preferences s ∧ weights s' = weights s
  ∧ generator st' = generator st.
Proof.
  destruct uploaded as [f|]; [|by intros [= <- _ <-]].
  destruct (master_sailings_grid_nrows f 5) as [df|] eqn:Hsheet.
  - rewrite (handle_file_upload_Return f df) by done. by intros [= <- _ <-].
  - rewrite handle_file_upload_Raise by done. by intros [= <- _ <-].
Qed.

Lemma handle_preferences_generator sp mp pp s st s' v st' :
  handle_preferences sp mp pp s st = Return (s', v) st' →
  uploaded_file s' = uploaded_file s ∧ weights s' = weights s
  ∧ generator st' = generator st.
Proof.
  destruct (uploaded_file s) as [f|] eqn:Hf.
  - destruct (handle_preferences_Return sp mp pp s st f Hf)
      as (more & summary & ->).
    by intros [= <- _ <-].
  - unfold handle_preferences. rewrite Hf. by intros [= <- _ <-].
Qed.

Lemma handle_weights_session a b c d s :
  uploaded_file (handle_weights a b c d s).1 = uploaded_file s
  ∧ preferences (handle_weights a b c d s).1 = preferences s.
Proof.
  unfold handle_weights. destruct (uploaded_file s) eqn:Hf; [|done].
  by destruct (forallb _ _).
Qed.
End StepFacts.

(** * The claims *)

Module Claims.
Import Binary64 PyRandom Pandas Shape App SortKinds Samples.
Import Binary64Facts PandasFacts ScoreFacts RankedFacts SampleFacts WeightFacts.
Import Builtins Steps Views StepFacts.
Local Open Scope string_scope.




(** C2 (amended).  For a well-formed dataset without a column named 'Rank',
    the Match Score attached to the i-th input record is
    [round(random.uniform(65, 95), 2)] computed from the i-th draw of the
    generator after the call starts: it depends on neither the record's
    fields nor any weight or preference, and lies in [0, 100]. *)
Theorem match_score_is_the_rounded_draw `{SortKind} st r df :
  frames st !! r = Some df →
  well_formed df →
  "Rank" ∉ columns df →
  ∃ r' st' scored,
    create_dummy_recommendations_with_scores r st = Return r' st'
    ∧ frames st' !! r' = Some (ranked (columns df) scored)
    ∧ length scored = length (rows df)
    ∧ (∀ i record, rows df !! i = Some record →
         (round (uniform 65 95 (advance i (generator st))).1 2, record) ∈ scored)
    ∧ Forall (λ p, (0 <= to_Q p.1 <= 100)%Q) scored.
Proof.
  intros Hr Hwf Hrank. apply get_loc_None in Hrank.
  set (ys := drawn_scores (generator st) (length (rows df))).
  assert (length ys = length (rows df)) as Hys by apply length_drawn_scores.
  destruct (recommendations_frame_ranked df ys Hys)
    as (scored & Hperm & _ & Heq).
  eexists _, _, scored.
  split; [by apply create_dummy_recommendations_Return|]. cbn [frames].
  split; [rewrite <- Heq; by apply (lookup_heap _ _ 2)|].
  split; [rewrite <- Hperm, length_zip_with; lia|].
  split.
  - intros i record Hi. rewrite <- Hperm. apply list_elem_of_lookup. exists i.
    rewrite lookup_zip_with, Hi. unfold ys.
    rewrite drawn_scores_lookup by (by eapply lookup_lt_Some). done.
  - assert (Forall two_decimal_score scored.*1) as Hs.
    { rewrite (scored_keys ys (rows df)) by done. apply drawn_scores_two_decimal. }
    rewrite Forall_fmap in Hs. eapply Forall_impl; [apply Hs|].
    intros p (h & _ & _ & Hlo & Hhi). simpl in *. split.
    + eapply Qle_trans; [|apply Hlo]. done.
    + eapply Qle_trans; [apply Hhi|]. done.
Qed.

Lemma match_score_is_the_rounded_draw_witness :
  ∃ r' st' scored,
    create_dummy_recommendations_with_scores (H:=stable_kind) 0 sample_state
      = Return r' st'
    ∧ frames st' !! r' = Some (ranked (columns sample_sheet) scored)
    ∧ length scored = length (rows sample_sheet)
    ∧ (∀ i record, rows sample_sheet !! i = Some record →
         (round (uniform 65 95 (advance i (generator sample_state))).1 2, record)
         ∈ scored)
    ∧ Forall (λ p, (0 <= to_Q p.1 <= 100)%Q) scored.
Proof.
  apply (match_score_is_the_rounded_draw (H:=stable_kind) sample_state 0 sample_sheet).
  - reflexivity.
  - apply sample_sheet_well_formed.
  - apply sample_sheet_no_rank.
Defined.

(** C2, as stated, fails.  The first and the third record of [sample_sheet]
    are identical (ship IC, month 1, port MIA), so any factor scores computed
    from a record, and any weights, give both the same weighted sum; the
    step gives one 72.5 and the other 65.0. *)
Lemma identical_records_get_different_match_scores :
  ∃ st',
    create_dummy_recommendations_with_scores (H:=stable_kind) 0 sample_state
      = Return 3 st'
    ∧ frames st' !! 3 =
      Some {| columns := ["Rank"; "Ship Code"; "Month"; "Originating Port"; "Match Score"];
              rows := [[Int 1; Str "IC"; Int 1; Str "MIA"; Num (div_Z 7250 100)];
                       [Int 2; Str "ST"; Int 2; Str "FLL"; Num (div_Z 6875 100)];
                       [Int 3; Str "IC"; Int 1; Str "MIA"; Num (div_Z 6500 100)]] |}
    ∧ ∀ (normalized_weight : factors Q) (factor_score : list cell → factors Q),
        ¬ ((to_Q (div_Z 7250 100)
              == weighted_sum normalized_weight
                   (factor_score [Str "IC"; Int 1; Str "MIA"]))%Q
           ∧ (to_Q (div_Z 6500 100)
              == weighted_sum normalized_weight
                   (factor_score [Str "IC"; Int 1; Str "MIA"]))%Q).
Proof.
  eexists. split; [vm_compute; reflexivity|]. split; [vm_compute; reflexivity|].
  intros w fs [H1 H2]. rewrite <- H2 in H1. vm_compute in H1. discriminate.
Qed.

(** C4.  For slider positions of which at least one is positive, step 3
    stores and shows the four float quotients [raw / total]; each lies in
    [0, 1] and within 1e-16 of the exact quotient, and their exact sum is
    within 1e-9 of 1. *)
Theorem normalized_weights_sum_to_one s ship_weight month_weight port_weight
    theo_weight :
  is_Some (uploaded_file s) →
  (0 ≤ ship_weight ≤ 10)%Z → (0 ≤ month_weight ≤ 10)%Z →
  (0 ≤ port_weight ≤ 10)%Z → (0 ≤ theo_weight ≤ 10)%Z →
  (0 < ship_weight + month_weight + port_weight + theo_weight)%Z →
  let total := (ship_weight + month_weight + port_weight + theo_weight)%Z in
  let nw := Factors (div_Z ship_weight total) (div_Z month_weight total)
                    (div_Z port_weight total) (div_Z theo_weight total) in
  handle_weights ship_weight month_weight port_weight theo_weight s =
    ({| uploaded_file := uploaded_file s;
        preferences := preferences s;
        weights := Some {| raw := Factors ship_weight month_weight port_weight
                                    theo_weight;
                           normalized := nw |} |},
     WeightDistribution nw)
  ∧ normalized_from ship_weight total (ship nw)
  ∧ normalized_from month_weight total (month nw)
  ∧ normalized_from port_weight total (port nw)
  ∧ normalized_from theo_weight total (theo nw)
  ∧ sums_to_one nw.
Proof.
  intros [f Hf] Ha Hb Hc Hd Hpos total nw. split.
  - unfold handle_weights. rewrite Hf.
    assert (forallb (λ w, w =? 0)%Z
              [ship_weight; month_weight; port_weight; theo_weight] = false) as ->.
    { apply not_true_is_false. rewrite forallb_forall. intros Hall.
      assert (ship_weight = 0 ∧ month_weight = 0 ∧ port_weight = 0
              ∧ theo_weight = 0)%Z
        by (repeat split; apply Z.eqb_eq, Hall; simpl; tauto).
      lia. }
    reflexivity.
  - assert (1 ≤ total ≤ 40)%Z as Ht by (subst total; lia).
    assert (normalized_from ship_weight total (div_Z ship_weight total)) as H1
      by (apply div_Z_normalized; subst total; lia).
    assert (normalized_from month_weight total (div_Z month_weight total)) as H2
      by (apply div_Z_normalized; subst total; lia).
    assert (normalized_from port_weight total (div_Z port_weight total)) as H3
      by (apply div_Z_normalized; subst total; lia).
    assert (normalized_from theo_weight total (div_Z theo_weight total)) as H4
      by (apply div_Z_normalized; subst total; lia).
    repeat (split; [done|]).
    by apply (normalized_sum ship_weight month_weight port_weight theo_weight total);
      [lia|..].
Qed.

Lemma normalized_weights_sum_to_one_witness :
  handle_weights 3 3 3 1 sample_session =
    ({| uploaded_file := uploaded_file sample_session;
        preferences := preferences sample_session;
        weights := Some {| raw := Factors 3%Z 3%Z 3%Z 1%Z;
                           normalized := Factors (div_Z 3 10) (div_Z 3 10)
                                           (div_Z 3 10) (div_Z 1 10) |} |},
     WeightDistribution
       (Factors (div_Z 3 10) (div_Z 3 10) (div_Z 3 10) (div_Z 1 10)))
  ∧ normalized_from 3 10 (div_Z 3 10)
  ∧ normalized_from 3 10 (div_Z 3 10)
  ∧ normalized_from 3 10 (div_Z 3 10)
  ∧ normalized_from 1 10 (div_Z 1 10)
  ∧ sums_to_one (Factors (div_Z 3 10) (div_Z 3 10) (div_Z 3 10) (div_Z 1 10)).
Proof.
  apply (normalized_weights_sum_to_one sample_session 3 3 3 1).
  - eexists; reflexivity.
  - lia.
  - lia.
  - lia.
  - lia.
  - lia.
Defined.

(** C5.  With a file in the session (without one step 3 shows no sliders),
    the configuration with all four sliders at zero is rejected: step 3
    reports the error before it normalises anything, returns the session as
    it was, creates no frame and draws no score, and so does the run of
    [main] that renders it.  The guard realises the specification's
    InvalidConfiguration as the error view [AllZeroError].  Hence no session
    ever holds an all-zero configuration: the raw weights a visitor's
    session stores have a positive sum. *)
Theorem all_zero_weights_are_rejected `{SortKind} s st :
  is_Some (uploaded_file s) →
  handle_weights 0 0 0 0 s = (s, AllZeroError)
  ∧ main (ConfigureWeights 0 0 0 0) s st = Return (s, WeightsPage AllZeroError) st
  ∧ (reachable s → ∀ w, weights s = Some w →
       (0 < ship (raw w) + month (raw w) + port (raw w) + theo (raw w))%Z).
Proof.
  intros [f Hf].
  assert (handle_weights 0 0 0 0 s = (s, AllZeroError)) as Hstep
    by (unfold handle_weights; by rewrite Hf).
  split; [done|]. split.
  - cbn [main]. by rewrite Hstep.
  - intros Hs w Hw.
    destruct (reachable_consistent s Hs) as [Hweights _].
    rewrite Hw in Hweights. by destruct Hweights as (_ & _ & Hpos & _).
Qed.

Lemma all_zero_weights_are_rejected_witness :
  handle_weights 0 0 0 0 ready_session = (ready_session, AllZeroError)
  ∧ main (H:=stable_kind) (ConfigureWeights 0 0 0 0) ready_session start_state
    = Return (ready_session, WeightsPage AllZeroError) start_state
  ∧ ∃ w, weights ready_session = Some w
         ∧ (0 < ship (raw w) + month (raw w) + port (raw w) + theo (raw w))%Z.
Proof.
  destruct (all_zero_weights_are_rejected (H:=stable_kind) ready_session
              start_state) as (Hstep & Hrun & Hstored).
  - eexists; reflexivity.
  - split; [exact Hstep|]. split; [exact Hrun|].
    eexists. split; [reflexivity|]. apply Hstored; [|reflexivity].
    eapply (reachable_main (ConfigureWeights 3 3 3 3) sample_session start_state).
    + eapply (reachable_main (SetPreferences ["IC"] ["January"] ["MIA"])
                {| uploaded_file := Some sample_file;
                   preferences := None; weights := None |} start_state).
      * eapply (reachable_main (UploadData (Some sample_file)) new_session
                  start_state).
        -- apply reachable_new.
        -- exact I.
        -- reflexivity.
      * exact I.
      * reflexivity.
    + cbn. lia.
    + reflexivity.
Defined.

(** C6: on a sheet that already has a column named 'Rank' the step raises
    from [insert] and returns no frame at all. *)
Lemma existing_rank_column_makes_the_step_raise :
  ∃ st',
    create_dummy_recommendations_with_scores (H:=stable_kind) 0
      {| frames := [preranked_sheet]; generator := sample_generator |}
    = Raise (ValueError "cannot insert Rank, already exists") st'.
Proof. eexists. vm_compute. reflexivity. Qed.

(** C8 (amended).  Scoring reads no field of the dataset, so it succeeds on
    any well-formed sheet without a 'Rank' column; and when the sheet has no
    'Ship Code' and no 'Month' column, the Full Results tab skips both
    filters, whatever is picked, and applies the score threshold alone.  No
    error is raised for a missing field. *)
Theorem missing_fields_are_skipped `{SortKind} s st f df :
  uploaded_file s = Some f →
  master_sailings_grid f = Some df →
  is_Some (preferences s) → is_Some (weights s) →
  well_formed df →
  "Rank" ∉ columns df →
  "Ship Code" ∉ columns df →
  "Month" ∉ columns df →
  ∃ r' download st',
    handle_recommendations true s st = Return (Generated r' download) st'
    ∧ ∀ ship_picks month_picks min_score,
        display_full_results (sailing_recommendations_sheet download)
          ship_picks month_picks min_score
        = inr {| columns := columns (sailing_recommendations_sheet download);
                 rows := filter
                   (λ r, score_at_least (S (score_loc (columns df))) min_score r = true)
                   (rows (sailing_recommendations_sheet download)) |}.
Proof.
  intros Hf Hsheet [p Hp] [w Hw] Hwf Hrank Hship Hmonth.
  apply get_loc_None in Hrank.
  assert (month_one_kind df = true) as Hkind.
  { unfold month_one_kind. by apply get_loc_None in Hmonth as ->. }
  destruct (handle_recommendations_Generated s st f df p w) as [more Hrun];
    [done..|].
  eexists _, _, _. split; [exact Hrun|].
  intros ship_picks month_picks min_score.
  cbn [sailing_recommendations_sheet].
  set (out := recommendations_frame df _).
  assert (get_loc "Match Score" (columns out) = Some (S (score_loc (columns df))))
    as Hscore.
  { change (get_loc "Match Score" (columns out))
      with (S <$> get_loc "Match Score" (score_columns (columns df))).
    by rewrite get_loc_score_columns. }
  rewrite (display_full_results_Return out _ _ _ _ Hscore).
  - unfold month_choice, column_filter, apply_filter.
    change (columns out) with ("Rank" :: score_columns (columns df)).
    rewrite (get_loc_recommendations_columns "Ship Code") by done.
    by rewrite (get_loc_recommendations_columns "Month") by done.
  - subst out. rewrite month_one_kind_recommendations; [done..|].
    apply length_drawn_scores.
  - by apply numeric_scores_recommendations.
Qed.

Lemma missing_fields_are_skipped_witness :
  ∃ r' download st',
    handle_recommendations (H:=stable_kind) true dates_only_session start_state
      = Return (Generated r' download) st'
    ∧ ∀ ship_picks month_picks min_score,
        display_full_results (sailing_recommendations_sheet download)
          ship_picks month_picks min_score
        = inr {| columns := columns (sailing_recommendations_sheet download);
                 rows := filter (λ r, score_at_least 2 min_score r = true)
                           (rows (sailing_recommendations_sheet download)) |}.
Proof.
  apply (missing_fields_are_skipped (H:=stable_kind) dates_only_session start_state
           dates_only_file
           {| columns := ["Sailing Date"];
              rows := [[Str "2025-01-04"]; [Str "2025-01-11"]] |}).
  - reflexivity.
  - reflexivity.
  - eexists; reflexivity.
  - eexists; reflexivity.
  - split; [apply NoDup_singleton | repeat constructor].
  - rewrite list_elem_of_In. simpl. intuition congruence.
  - rewrite list_elem_of_In. simpl. intuition congruence.
  - rewrite list_elem_of_In. simpl. intuition congruence.
Defined.

(** C8, as stated, fails: on a sheet with a 'Sailing Date' column only,
    step 4 returns scored output instead of an error, and the Full Results
    tab shows the rows scoring at least 66, ignoring the picks. *)
Lemma dataset_without_required_fields_is_scored :
  ∃ r download st' shown,
    handle_recommendations (H:=stable_kind) true dates_only_session start_state
      = Return (Generated r download) st'
    ∧ display_full_results (sailing_recommendations_sheet download)
        [Str "IC"] [Int 1] 66 = inr shown
    ∧ rows shown = [[Int 1; Str "2025-01-11"; Num (div_Z 6875 100)]].
Proof.
  eexists _, _, _, _. split; [vm_compute; reflexivity|].
  split; vm_compute; reflexivity.
Qed.

(** C9.  Whenever the recommendation step returns, every cell of the
    'Match Score' column of its result is a float between 65 and 95 that is
    the double nearest to a two-decimal number, whatever the dataset and the
    state of the generator. *)
Theorem match_score_between_65_and_95 `{SortKind} st r df r' st' out cells :
  frames st !! r = Some df →
  well_formed df →
  create_dummy_recommendations_with_scores r st = Return r' st' →
  frames st' !! r' = Some out →
  getitem "Match Score" out = Some cells →
  Forall (λ c, ∃ y, c = Num y ∧ two_decimal_score y) cells.
Proof.
  intros Hr Hwf Hrun Hout Hget.
  destruct (get_loc "Rank" (columns df)) as [i|] eqn:Hrank.
  { by rewrite (create_dummy_recommendations_Raise r st df i) in Hrun. }
  rewrite (create_dummy_recommendations_Return r st df) in Hrun by done.
  injection Hrun as <- <-. cbn [frames] in Hout.
  rewrite (lookup_heap _ _ 2 (recommendations_frame df
             (drawn_scores (generator st) (length (rows df))))) in Hout by done.
  injection Hout as <-.
  destruct (recommendations_frame_ranked df
              (drawn_scores (generator st) (length (rows df))))
    as (scored & Hperm & _ & Heq); [apply length_drawn_scores|].
  rewrite Heq, getitem_match_score_ranked in Hget
    by (eapply scored_rows_length; [apply Hwf | done]).
  injection Hget as <-. apply Forall_fmap.
  rewrite (scored_keys _ (rows df)) by (done || apply length_drawn_scores).
  eapply Forall_impl; [apply drawn_scores_two_decimal|]. intros y Hy. by exists y.
Qed.

Lemma match_score_between_65_and_95_witness :
  Forall (λ c, ∃ y, c = Num y ∧ two_decimal_score y)
    [Num (div_Z 7250 100); Num (div_Z 6875 100); Num (div_Z 6500 100)].
Proof.
  apply (match_score_between_65_and_95 (H:=stable_kind) sample_state 0 sample_sheet 3
           (final_state (create_dummy_recommendations_with_scores
                           (H:=stable_kind) 0 sample_state))
           {| columns := ["Rank"; "Ship Code"; "Month"; "Originating Port"; "Match Score"];
              rows := [[Int 1; Str "IC"; Int 1; Str "MIA"; Num (div_Z 7250 100)];
                       [Int 2; Str "ST"; Int 2; Str "FLL"; Num (div_Z 6875 100)];
                       [Int 3; Str "IC"; Int 1; Str "MIA"; Num (div_Z 6500 100)]] |}).
  - reflexivity.
  - apply sample_sheet_well_formed.
  - vm_compute. reflexivity.
  - vm_compute. reflexivity.
  - vm_compute. reflexivity.
Defined.

(** C10 (amended).  For a well-formed dataset without a column named 'Rank',
    the step returns a new frame and leaves every frame that existed before
    the call, the source dataset among them, as it was.  The result has the
    column 'Rank' first, then the original columns, with 'Match Score' set:
    appended as the last column when the dataset has no such column,
    overwritten in place when it has one.  Its rows are the input rows, each
    with its own score, in some order; all other cells are unchanged. *)
Theorem recommendation_step_works_on_a_copy `{SortKind} st r df :
  frames st !! r = Some df →
  well_formed df →
  "Rank" ∉ columns df →
  ∃ r' st' scored,
    create_dummy_recommendations_with_scores r st = Return r' st'
    ∧ (∀ r0 df0, frames st !! r0 = Some df0 → frames st' !! r0 = Some df0)
    ∧ zip (drawn_scores (generator st) (length (rows df))) (rows df) ≡ₚ scored
    ∧ frames st' !! r' =
      Some {| columns := "Rank" :: score_columns (columns df);
              rows := zip_with
                        (λ p k, Int (Z.of_nat k) :: attach_score (columns df) p.1 p.2)
                        scored (seq 1 (length (rows df))) |}.
Proof.
  intros Hr Hwf Hrank. apply get_loc_None in Hrank.
  set (ys := drawn_scores (generator st) (length (rows df))).
  assert (length ys = length (rows df)) as Hys by apply length_drawn_scores.
  destruct (recommendations_frame_ranked df ys Hys)
    as (scored & Hperm & _ & Heq).
  eexists _, _, scored.
  split; [by apply create_dummy_recommendations_Return|]. cbn [frames].
  split; [intros r0 df0 H0; by apply lookup_app_l_Some|].
  split; [done|].
  rewrite (lookup_heap _ _ 2 (recommendations_frame df ys)) by done.
  rewrite Heq. f_equal.
  assert (length scored = length (rows df)) as <-
    by (rewrite <- Hperm, length_zip_with; lia).
  rewrite <- rows_ranked. done.
Qed.

Lemma recommendation_step_works_on_a_copy_witness :
  ∃ r' st' scored,
    create_dummy_recommendations_with_scores (H:=stable_kind) 0 sample_state
      = Return r' st'
    ∧ (∀ r0 df0, frames sample_state !! r0 = Some df0 → frames st' !! r0 = Some df0)
    ∧ zip (drawn_scores (generator sample_state) (length (rows sample_sheet)))
          (rows sample_sheet) ≡ₚ scored
    ∧ frames st' !! r' =
      Some {| columns := "Rank" :: score_columns (columns sample_sheet);
              rows := zip_with
                        (λ p k, Int (Z.of_nat k)
                                :: attach_score (columns sample_sheet) p.1 p.2)
                        scored (seq 1 (length (rows sample_sheet))) |}.
Proof.
  apply (recommendation_step_works_on_a_copy (H:=stable_kind) sample_state 0 sample_sheet).
  - reflexivity.
  - apply sample_sheet_well_formed.
  - apply sample_sheet_no_rank.
Defined.

(** C10, as stated, fails on a sheet that already has a 'Match Score'
    column: its values (99 here) are replaced by the drawn score, and 'Rank'
    is the only column added. *)
Lemma existing_match_score_column_is_overwritten :
  ∃ st',
    create_dummy_recommendations_with_scores (H:=stable_kind) 0
      {| frames := [prescored_sheet]; generator := constant_generator |}
      = Return 3 st'
    ∧ frames st' !! 0%nat = Some prescored_sheet
    ∧ frames st' !! 3 =
      Some {| columns := ["Rank"; "Ship Code"; "Match Score"];
              rows := [[Int 1; Str "IC"; Num (div_Z 6500 100)]] |}.
Proof. eexists. repeat split; vm_compute; reflexivity. Qed.
End Claims.

(** * Further properties of the program *)

Module Coverage.
Import Binary64 PyRandom Pandas App Shape Samples SortKinds.
Import Binary64Facts PandasFacts ScoreFacts RankedFacts WeightFacts SampleFacts.
Import Builtins Steps Views MoreSamples StepFacts.
Local Open Scope string_scope.

(** X1.  Whether it returns or raises, the recommendation step consumes
    exactly one draw of the generator per row of the sheet and leaves every
    frame that existed before the call as it was; it raises, from [insert],
    exactly when the sheet already has a column named 'Rank'. *)
Theorem one_draw_per_row_returned_or_raised `{SortKind} st r df :
  frames st !! r = Some df →
  well_formed df →
  let o := create_dummy_recommendations_with_scores r st in
  generator (final_state o) = advance (length (rows df)) (generator st)
  ∧ (∀ r0 df0, frames st !! r0 = Some df0 → frames (final_state o) !! r0 = Some df0)
  ∧ ((("Rank" ∉ columns df) ∧ o = Return (length (frames st) + 2) (final_state o))
     ∨ (("Rank" ∈ columns df)
        ∧ o = Raise (ValueError "cannot insert Rank, already exists") (final_state o))).
Proof.
  intros Hr Hwf o. subst o.
  destruct (get_loc "Rank" (columns df)) as [i|] eqn:Hrank.
  - rewrite (create_dummy_recommendations_Raise r st df i) by done.
    cbn [final_state generator frames]. split; [done|]. split.
    + intros r0 df0 H0. by apply lookup_heap_old.
    + right. split; [|done].
      apply get_loc_Some in Hrank. by eapply list_elem_of_lookup_2.
  - rewrite (create_dummy_recommendations_Return r st df) by done.
    cbn [final_state generator frames]. split; [done|]. split.
    + intros r0 df0 H0. by apply lookup_heap_old.
    + left. split; [|done]. by apply get_loc_None.
Qed.

Lemma one_draw_per_row_returned_or_raised_witness :
  generator (final_state (create_dummy_recommendations_with_scores
                            (H:=stable_kind) 0 preranked_state))
  = advance (length (rows preranked_sheet)) (generator preranked_state)
  ∧ (∀ r0 df0, frames preranked_state !! r0 = Some df0 →
       frames (final_state (create_dummy_recommendations_with_scores
                              (H:=stable_kind) 0 preranked_state)) !! r0 = Some df0)
  ∧ ((("Rank" ∉ columns preranked_sheet)
      ∧ create_dummy_recommendations_with_scores (H:=stable_kind) 0 preranked_state
        = Return (length (frames preranked_state) + 2)
            (final_state (create_dummy_recommendations_with_scores
                            (H:=stable_kind) 0 preranked_state)))
     ∨ (("Rank" ∈ columns preranked_sheet)
        ∧ create_dummy_recommendations_with_scores (H:=stable_kind) 0 preranked_state
          = Raise (ValueError "cannot insert Rank, already exists")
              (final_state (create_dummy_recommendations_with_scores
                              (H:=stable_kind) 0 preranked_state)))).
Proof.
  apply (one_draw_per_row_returned_or_raised (H:=stable_kind) preranked_state
           0 preranked_sheet).
  - reflexivity.
  - split; [|by repeat constructor].
    cbn. apply NoDup_cons. split; [|apply NoDup_singleton].
    intros Hin. apply list_elem_of_singleton in Hin. discriminate.
Defined.

(** X2.  For a well-formed sheet without a 'Rank' column the step returns a
    well-formed frame (distinct column labels, one cell per column in every
    row) with as many rows as the sheet; and that frame cannot be scored
    again: given to the step as its input, in any state, it makes the step
    raise. *)
Theorem recommendations_cannot_be_scored_again `{SortKind} st r df :
  frames st !! r = Some df →
  well_formed df →
  "Rank" ∉ columns df →
  ∃ r' st' out,
    create_dummy_recommendations_with_scores r st = Return r' st'
    ∧ frames st' !! r' = Some out
    ∧ well_formed out
    ∧ length (rows out) = length (rows df)
    ∧ ∀ st2 r2, frames st2 !! r2 = Some out →
        ∃ st3, create_dummy_recommendations_with_scores r2 st2
               = Raise (ValueError "cannot insert Rank, already exists") st3.
Proof.
  intros Hr Hwf Hrank. apply get_loc_None in Hrank.
  set (ys := drawn_scores (generator st) (length (rows df))).
  eexists (length (frames st) + 2), _, (recommendations_frame df ys).
  split; [by apply create_dummy_recommendations_Return|].
  split; [heap_lookup|].
  destruct (recommendations_frame_ranked df ys) as (scored & Hperm & _ & Heq);
    [apply length_drawn_scores|].
  assert (well_formed (recommendations_frame df ys)) as Hout.
  { rewrite Heq. destruct Hwf as [Hnd Hlen]. apply well_formed_ranked; [done..|].
    by eapply scored_rows_length. }
  split; [done|]. split.
  { rewrite Heq, length_rows_ranked, <- (Permutation_length Hperm).
    rewrite length_zip. unfold ys. rewrite length_drawn_scores. lia. }
  intros st2 r2 Hr2. eexists.
  by apply (create_dummy_recommendations_Raise r2 st2 (recommendations_frame df ys) 0).
Qed.

Lemma recommendations_cannot_be_scored_again_witness :
  ∃ r' st' out,
    create_dummy_recommendations_with_scores (H:=stable_kind) 0 sample_state
      = Return r' st'
    ∧ frames st' !! r' = Some out
    ∧ well_formed out
    ∧ length (rows out) = length (rows sample_sheet)
    ∧ ∀ st2 r2, frames st2 !! r2 = Some out →
        ∃ st3, create_dummy_recommendations_with_scores (H:=stable_kind) r2 st2
               = Raise (ValueError "cannot insert Rank, already exists") st3.
Proof.
  apply (recommendations_cannot_be_scored_again (H:=stable_kind) sample_state 0
           sample_sheet).
  - reflexivity.
  - apply sample_sheet_well_formed.
  - apply sample_sheet_no_rank.
Defined.

(** X3.  Step 1 keeps whatever file the uploader returns and never raises.
    When the partial parse of the sheet ([nrows=5]) succeeds, it previews
    that parse and lists its columns.  When it fails, it shows the read
    error, yet the file is in the session afterwards: for a workbook without
    the sheet 'Master Sailings Grid', step 1 no longer counts as missing,
    and step 4, once preferences and weights are set and the button is
    clicked, raises the error of the full parse without drawing a score. *)
Theorem unreadable_workbook_is_kept `{SortKind} f s st :
  let s1 := {| uploaded_file := Some f;
               preferences := preferences s;
               weights := weights s |} in
  match master_sailings_grid_nrows f 5 with
  | Some preview =>
      handle_file_upload (Some f) s st
      = Return (s1, FilePreview (name f) preview (columns preview))
          {| frames := frames st ++ [preview]; generator := generator st |}
  | None =>
      handle_file_upload (Some f) s st
      = Return (s1, ReadError (ValueError
                                 "Worksheet named 'Master Sailings Grid' not found"))
          st
  end
  ∧ (master_sailings_grid f = None →
     ∀ s2 st2,
       uploaded_file s2 = Some f →
       is_Some (preferences s2) → is_Some (weights s2) →
       ("Upload file (Step 1)" ∉ missing_steps s2)
       ∧ handle_recommendations true s2 st2
         = Raise (ValueError "Worksheet named 'Master Sailings Grid' not found")
             st2).
Proof.
  intros s1. split.
  - destruct (master_sailings_grid_nrows f 5) as [preview|] eqn:Hpreview.
    + by apply handle_file_upload_Return.
    + by apply handle_file_upload_Raise.
  - intros Hsheet s2 st2 Hf Hp Hw.
    split; [|by eapply handle_recommendations_Raise].
    destruct Hp as [p Hp], Hw as [w Hw]. unfold missing_steps.
    rewrite Hf, Hp, Hw. cbn. apply not_elem_of_nil.
Qed.

Lemma unreadable_workbook_is_kept_witness :
  handle_file_upload (Some sheetless_file) new_session start_state
  = Return ({| uploaded_file := Some sheetless_file;
               preferences := None; weights := None |},
            ReadError (ValueError "Worksheet named 'Master Sailings Grid' not found"))
      start_state
  ∧ ("Upload file (Step 1)" ∉ missing_steps sheetless_session)
  ∧ handle_recommendations (H:=stable_kind) true sheetless_session start_state
    = Raise (ValueError "Worksheet named 'Master Sailings Grid' not found")
        start_state.
Proof.
  destruct (unreadable_workbook_is_kept (H:=stable_kind) sheetless_file
              new_session start_state) as [Hupload Hlater].
  split; [exact Hupload|].
  apply (Hlater eq_refl sheetless_session start_state);
    [reflexivity|by eexists..].
Defined.

(** X4.  With a file in the session, step 2 never raises, whatever the
    workbook holds and whatever is picked: errors while reading the sheet are
    swallowed, it draws no random number, leaves every existing frame as it
    was, and it always stores preferences, so that step 2 no longer counts as
    missing even when nothing was picked.  The stored months are numbers
    from 1 to 12, and they name, in [month_names], exactly the picked
    months in the order of the picks. *)
Theorem preferences_are_always_stored ship_picks month_picks port_picks s st :
  is_Some (uploaded_file s) →
  ∃ p v st',
    handle_preferences ship_picks month_picks port_picks s st
    = Return ({| uploaded_file := uploaded_file s;
                 preferences := Some p;
                 weights := weights s |}, v) st'
    ∧ generator st' = generator st
    ∧ (∀ r0 df0, frames st !! r0 = Some df0 → frames st' !! r0 = Some df0)
    ∧ Forall (λ m, 1 ≤ m ≤ 12)%Z (months p)
    ∧ (λ m, month_names !! Z.to_nat (m - 1)) <$> months p
      = Some <$> multiselect_str month_names month_picks.
Proof.
  intros [f Hf].
  destruct (handle_preferences_Return ship_picks month_picks port_picks s st f Hf)
    as (more & summary & Hrun).
  rewrite Hf. eexists _, _, _. split; [exact Hrun|].
  cbn [generator frames months]. split; [done|]. split.
  { intros r0 df0 H0. by apply lookup_heap_old. }
  pose proof (multiselect_str_options month_names month_picks) as Hselected.
  split.
  - apply Forall_fmap. eapply Forall_impl; [apply Hselected|].
    intros x Hx. by apply month_number_range.
  - rewrite <- list_fmap_compose. apply Forall_fmap_ext_1.
    eapply Forall_impl; [apply Hselected|].
    intros x Hx. by apply month_number_name.
Qed.

Lemma preferences_are_always_stored_witness :
  ∃ p v st',
    handle_preferences ["IC"] ["March"; "Smarch"; "January"] [] sample_session
      start_state
    = Return ({| uploaded_file := uploaded_file sample_session;
                 preferences := Some p;
                 weights := weights sample_session |}, v) st'
    ∧ generator st' = generator start_state
    ∧ (∀ r0 df0, frames start_state !! r0 = Some df0 → frames st' !! r0 = Some df0)
    ∧ Forall (λ m, 1 ≤ m ≤ 12)%Z (months p)
    ∧ (λ m, month_names !! Z.to_nat (m - 1)) <$> months p
      = Some <$> multiselect_str month_names ["March"; "Smarch"; "January"].
Proof.
  apply (preferences_are_always_stored ["IC"] ["March"; "Smarch"; "January"] []
           sample_session start_state).
  by exists sample_file.
Defined.

(** X5.  The ships and ports step 2 offers come from the uploaded sheet
    only when the sheet has the column and every cell of it that is not
    missing is text: then the options are exactly the text values of the
    column.  When the column is absent, or holds a number, the hard-coded
    default list is offered instead and no error is shown.  What is stored
    are the picks that are among the options. *)
Theorem options_come_from_the_sheet_or_the_defaults ship_picks month_picks
    port_picks s st f df :
  uploaded_file s = Some f →
  master_sailings_grid f = Some df →
  ∃ s' ship_options port_options summary st' p,
    handle_preferences ship_picks month_picks port_picks s st
    = Return (s', PreferencesForm ship_options port_options summary) st'
    ∧ offered df "Ship Code" default_ships ship_options
    ∧ offered df "Originating Port" default_ports port_options
    ∧ preferences s' = Some p
    ∧ ships p = multiselect_str ship_options ship_picks
    ∧ ports p = multiselect_str port_options port_picks.
Proof.
  intros Hf Hsheet.
  destruct (handle_preferences_Return ship_picks month_picks port_picks s st f Hf)
    as (more & summary & Hrun).
  eexists _, _, _, _, _, _. split; [exact Hrun|].
  split; [by apply column_options_offered|].
  split; [by apply column_options_offered|]. done.
Qed.

Lemma options_come_from_the_sheet_or_the_defaults_witness :
  ∃ s' ship_options port_options summary st' p,
    handle_preferences ["IC"; "WN"] [] ["MIA"] sample_session start_state
    = Return (s', PreferencesForm ship_options port_options summary) st'
    ∧ offered sample_sheet "Ship Code" default_ships ship_options
    ∧ offered sample_sheet "Originating Port" default_ports port_options
    ∧ preferences s' = Some p
    ∧ ships p = multiselect_str ship_options ["IC"; "WN"]
    ∧ ports p = multiselect_str port_options ["MIA"].
Proof.
  apply (options_come_from_the_sheet_or_the_defaults ["IC"; "WN"] [] ["MIA"]
           sample_session start_state sample_file sample_sheet);
    reflexivity.
Defined.

(** X6.  Across any sequence of runs of [main], with the sliders inside
    their range, the session stays consistent: weights are in the session
    only together with a file, their raw values are slider positions that
    are not all zero, and the normalised values are the four quotients
    [raw / total], adding up to 1 within 1e-9; preferences are in the
    session only together with a file, and their months are numbers from 1
    to 12. *)
Theorem stored_settings_stay_consistent `{SortKind} s :
  reachable s → consistent s.
Proof.
  induction 1 as [|i s st s' v st' _ IH Hsliders Hrun]; [by split|].
  by eapply main_consistent.
Qed.

Lemma stored_settings_stay_consistent_witness : consistent ready_session.
Proof.
  apply (stored_settings_stay_consistent (H:=stable_kind) ready_session).
  eapply (reachable_main (ConfigureWeights 3 3 3 3) sample_session start_state).
  - eapply (reachable_main (SetPreferences ["IC"] ["January"] ["MIA"])
              {| uploaded_file := Some sample_file;
                 preferences := None; weights := None |} start_state).
    + eapply (reachable_main (UploadData (Some sample_file)) new_session
                start_state).
      * apply reachable_new.
      * exact I.
      * reflexivity.
    + exact I.
    + reflexivity.
  - cbn. lia.
  - reflexivity.
Defined.

(** X7.  For weights stored by step 3, the sheet 'Preferences & Weights'
    is a well-formed frame of 16 rows with the columns 'Setting' and
    'Value'.  Its four importance rows show each normalised weight as a
    percentage with one decimal that is within 0.05 of [100 * raw / total],
    so that the four displayed percentages add up to 100.0 within 0.2, and
    its last four rows show the slider positions. *)
Theorem summary_sheet_shows_the_stored_weights p a b c d s :
  is_Some (uploaded_file s) →
  (0 ≤ a ≤ 10)%Z → (0 ≤ b ≤ 10)%Z → (0 ≤ c ≤ 10)%Z → (0 ≤ d ≤ 10)%Z →
  (0 < a + b + c + d)%Z →
  let total := (a + b + c + d)%Z in
  ∃ sheet ta tb tc td,
    create_preferences_summary_sheet (Some p)
      (weights (handle_weights a b c d s).1) = inr sheet
    ∧ well_formed sheet
    ∧ columns sheet = ["Setting"; "Value"]
    ∧ length (rows sheet) = 16
    ∧ take 4 (drop 6 (rows sheet))
      = [[Str "Ship Importance:"; Str (fixed_1 ta ++ "%")];
         [Str "Month Importance:"; Str (fixed_1 tb ++ "%")];
         [Str "Port Importance:"; Str (fixed_1 tc ++ "%")];
         [Str "Theo Adjustment Importance:"; Str (fixed_1 td ++ "%")]]
    ∧ drop 12 (rows sheet)
      = [[Str "Ship (Raw):"; Str (str a)]; [Str "Month (Raw):"; Str (str b)];
         [Str "Port (Raw):"; Str (str c)]; [Str "Theo (Raw):"; Str (str d)]]
    ∧ (2 * Z.abs (ta * total - 1000 * a) ≤ total)%Z
    ∧ (2 * Z.abs (tb * total - 1000 * b) ≤ total)%Z
    ∧ (2 * Z.abs (tc * total - 1000 * c) ≤ total)%Z
    ∧ (2 * Z.abs (td * total - 1000 * d) ≤ total)%Z
    ∧ (Z.abs (ta + tb + tc + td - 1000) ≤ 2)%Z.
Proof.
  intros Hfile Ha Hb Hc Hd Htotal total.
  rewrite handle_weights_stored by done. fold total.
  cbn [fst weights create_preferences_summary_sheet raw normalized
       ship month port theo].
  destruct (format_percent_quotient a total) as [-> Hta]; [unfold total; lia..|].
  destruct (format_percent_quotient b total) as [-> Htb]; [unfold total; lia..|].
  destruct (format_percent_quotient c total) as [-> Htc]; [unfold total; lia..|].
  destruct (format_percent_quotient d total) as [-> Htd]; [unfold total; lia..|].
  eexists _, _, _, _, _. split; [reflexivity|].
  split.
  { split; [|by repeat constructor]. cbn [columns].
    apply NoDup_cons. split; [|apply NoDup_singleton].
    rewrite list_elem_of_singleton. discriminate. }
  do 4 (split; [reflexivity|]).
  do 4 (split; [assumption|]).
  revert Hta Htb Htc Htd Htotal. fold total.
  generalize (percent_tenths (div_Z a total)) (percent_tenths (div_Z b total))
             (percent_tenths (div_Z c total)) (percent_tenths (div_Z d total)).
  intros ta tb tc td Hta Htb Htc Htd Htotal.
  assert (a + b + c + d = total)%Z as Hsum by done.
  clearbody total.
  assert (- (2 * total) ≤ (ta + tb + tc + td - 1000) * total ≤ 2 * total)%Z
    as [Hlo Hhi] by lia.
  apply Z.abs_le. split.
  - apply (Z.mul_le_mono_pos_r _ _ total); lia.
  - apply (Z.mul_le_mono_pos_r _ _ total); lia.
Qed.

Lemma summary_sheet_shows_the_stored_weights_witness :
  ∃ sheet ta tb tc td,
    create_preferences_summary_sheet
      (Some {| ships := ["IC"]; months := [3; 1]%Z; ports := [] |})
      (weights (handle_weights 1 1 1 0 sample_session).1) = inr sheet
    ∧ well_formed sheet
    ∧ columns sheet = ["Setting"; "Value"]
    ∧ length (rows sheet) = 16
    ∧ take 4 (drop 6 (rows sheet))
      = [[Str "Ship Importance:"; Str (fixed_1 ta ++ "%")];
         [Str "Month Importance:"; Str (fixed_1 tb ++ "%")];
         [Str "Port Importance:"; Str (fixed_1 tc ++ "%")];
         [Str "Theo Adjustment Importance:"; Str (fixed_1 td ++ "%")]]
    ∧ drop 12 (rows sheet)
      = [[Str "Ship (Raw):"; Str (str 1)]; [Str "Month (Raw):"; Str (str 1)];
         [Str "Port (Raw):"; Str (str 1)]; [Str "Theo (Raw):"; Str (str 0)]]
    ∧ (2 * Z.abs (ta * (1 + 1 + 1 + 0) - 1000 * 1) ≤ 1 + 1 + 1 + 0)%Z
    ∧ (2 * Z.abs (tb * (1 + 1 + 1 + 0) - 1000 * 1) ≤ 1 + 1 + 1 + 0)%Z
    ∧ (2 * Z.abs (tc * (1 + 1 + 1 + 0) - 1000 * 1) ≤ 1 + 1 + 1 + 0)%Z
    ∧ (2 * Z.abs (td * (1 + 1 + 1 + 0) - 1000 * 0) ≤ 1 + 1 + 1 + 0)%Z
    ∧ (Z.abs (ta + tb + tc + td - 1000) ≤ 2)%Z.
Proof.
  apply (summary_sheet_shows_the_stored_weights
           {| ships := ["IC"]; months := [3; 1]%Z; ports := [] |}
           1 1 1 0 sample_session);
    [by exists sample_file|lia..].
Defined.

(** X8.  Normalising keeps the order of the sliders: for slider positions
    that are not all zero, one stored normalised weight is at most another
    exactly when its slider is at most the other's, and a normalised weight
    is zero exactly when its slider is at 0. *)
Theorem normalized_weights_keep_the_slider_order a b c d s :
  is_Some (uploaded_file s) →
  (0 ≤ a ≤ 10)%Z → (0 ≤ b ≤ 10)%Z → (0 ≤ c ≤ 10)%Z → (0 ≤ d ≤ 10)%Z →
  (0 < a + b + c + d)%Z →
  ∃ w,
    weights (handle_weights a b c d s).1 = Some w
    ∧ raw w = Factors a b c d
    ∧ ∀ k1 k2,
        ((weight_of k1 (raw w) ≤ weight_of k2 (raw w))%Z
         ↔ le (weight_of k1 (normalized w)) (weight_of k2 (normalized w)))
        ∧ (weight_of k1 (raw w) = 0%Z
           ↔ (to_Q (weight_of k1 (normalized w)) <= 0)%Q).
Proof.
  intros Hfile Ha Hb Hc Hd Htotal.
  rewrite handle_weights_stored by done.
  eexists. split; [reflexivity|]. split; [reflexivity|].
  cbn [raw normalized].
  intros k1 k2. destruct k1, k2; cbn [weight_of ship month port theo];
    apply div_Z_order; lia.
Qed.

Lemma normalized_weights_keep_the_slider_order_witness :
  ∃ w,
    weights (handle_weights 0 7 2 7 sample_session).1 = Some w
    ∧ raw w = Factors 0%Z 7%Z 2%Z 7%Z
    ∧ ∀ k1 k2,
        ((weight_of k1 (raw w) ≤ weight_of k2 (raw w))%Z
         ↔ le (weight_of k1 (normalized w)) (weight_of k2 (normalized w)))
        ∧ (weight_of k1 (raw w) = 0%Z
           ↔ (to_Q (weight_of k1 (normalized w)) <= 0)%Q).
Proof.
  apply (normalized_weights_keep_the_slider_order 0 7 2 7 sample_session);
    [by exists sample_file|lia..].
Defined.

(** X9.  On a frame with a 'Rank' and a 'Match Score' column whose first
    ten scores are numbers or missing, the "Top Recommendations" tab shows a
    new frame: the first ten rows (all of them when there are fewer), in
    order, with the columns 'Rank', 'Match Score' and those of 'Ship Code',
    'Month', 'Sailing Date', 'Originating Port' that the frame has, the
    score formatted with one decimal and a percent sign.  The frame it was
    given and every other existing frame stay as they were, and no random
    number is drawn. *)
Theorem top_tab_shows_the_first_ten_rows r st d i j :
  frames st !! r = Some d →
  get_loc "Rank" (columns d) = Some i →
  get_loc "Match Score" (columns d) = Some j →
  Forall (λ c, is_str c = false) (take 10 (column_cells j (rows d))) →
  ∃ shown st' locs formatted,
    display_top_recommendations r st = Return shown st'
    ∧ mapM (λ c, get_loc c (columns d)) (drop 2 (top_columns d)) = Some locs
    ∧ apply_format (take 10 (column_cells j (rows d))) = inr formatted
    ∧ frames st' !! shown = Some (top_table d i locs formatted)
    ∧ length (rows (top_table d i locs formatted)) = 10 `min` length (rows d)
    ∧ generator st' = generator st
    ∧ ∀ r0 df0, frames st !! r0 = Some df0 → frames st' !! r0 = Some df0.
Proof.
  intros Hr Hi Hj Hnumbers.
  destruct (apply_format_numbers _ Hnumbers) as [formatted Hformat].
  destruct (display_top_recommendations_Return r st d i j formatted Hr Hi Hj Hformat)
    as (locs & head & selected & Hlocs & Hrun).
  eexists _, _, locs, formatted. split; [exact Hrun|].
  do 2 (split; [done|]). split; [heap_lookup|]. split.
  { apply length_rows_top_table. rewrite (length_apply_format _ _ Hformat).
    unfold column_cells. by rewrite <- fmap_take, length_fmap. }
  split; [done|]. intros r0 df0 H0. by apply lookup_heap_old.
Qed.

Lemma top_tab_shows_the_first_ten_rows_witness :
  ∃ shown st' locs formatted,
    display_top_recommendations 0 scored_table_state = Return shown st'
    ∧ mapM (λ c, get_loc c (columns scored_table)) (drop 2 (top_columns scored_table))
      = Some locs
    ∧ apply_format (take 10 (column_cells 2 (rows scored_table))) = inr formatted
    ∧ frames st' !! shown = Some (top_table scored_table 0 locs formatted)
    ∧ length (rows (top_table scored_table 0 locs formatted))
      = 10 `min` length (rows scored_table)
    ∧ generator st' = generator scored_table_state
    ∧ ∀ r0 df0, frames scored_table_state !! r0 = Some df0 →
        frames st' !! r0 = Some df0.
Proof.
  apply (top_tab_shows_the_first_ten_rows 0 scored_table_state scored_table 0 2).
  - reflexivity.
  - reflexivity.
  - reflexivity.
  - repeat constructor.
Defined.

(** X10.  The "Top Recommendations" tab needs the columns the
    recommendation step adds: on a frame without a 'Rank' or without a
    'Match Score' column it raises a KeyError, having drawn no random number
    and changed no existing frame. *)
Theorem top_tab_needs_rank_and_match_score r st d :
  frames st !! r = Some d →
  "Rank" ∉ columns d ∨ "Match Score" ∉ columns d →
  ∃ msg st',
    display_top_recommendations r st = Raise (KeyError msg) st'
    ∧ generator st' = generator st
    ∧ ∀ r0 df0, frames st !! r0 = Some df0 → frames st' !! r0 = Some df0.
Proof.
  intros Hr Hmissing.
  destruct (display_top_recommendations_Raise r st d Hr) as (msg & head & Hrun).
  { destruct Hmissing as [Hm|Hm]; [left|right]; by apply get_loc_None. }
  eexists _, _. split; [exact Hrun|]. split; [done|].
  intros r0 df0 H0. by apply lookup_heap_old.
Qed.

Lemma top_tab_needs_rank_and_match_score_witness :
  ∃ msg st',
    display_top_recommendations 0 sample_state = Raise (KeyError msg) st'
    ∧ generator st' = generator sample_state
    ∧ ∀ r0 df0, frames sample_state !! r0 = Some df0 → frames st' !! r0 = Some df0.
Proof.
  apply (top_tab_needs_rank_and_match_score 0 sample_state sample_sheet).
  - reflexivity.
  - left. apply sample_sheet_no_rank.
Defined.

(** X11.  After the recommendation step, on a well-formed sheet without a
    'Rank' column, the "Top Recommendations" tab never fails: it shows the
    ranks 1 to 10 (1 to the number of rows when there are fewer) with the
    scores of these rows formatted with one decimal and a percent sign, and
    leaves the recommendations frame itself unformatted for the other tabs
    and the download. *)
Theorem top_tab_after_the_recommendation_step `{SortKind} st r df :
  frames st !! r = Some df →
  well_formed df →
  "Rank" ∉ columns df →
  ∃ r' st' out shown st'' view scores,
    create_dummy_recommendations_with_scores r st = Return r' st'
    ∧ frames st' !! r' = Some out
    ∧ display_top_recommendations r' st' = Return shown st''
    ∧ frames st'' !! shown = Some view
    ∧ frames st'' !! r' = Some out
    ∧ length (rows view) = 10 `min` length (rows df)
    ∧ getitem "Rank" view = Some (range_cells 1 (10 `min` length (rows df)))
    ∧ getitem "Match Score" out = Some (Num <$> scores)
    ∧ getitem "Match Score" view
      = Some ((λ y, Str (format_1f y ++ "%")) <$> take 10 scores).
Proof.
  intros Hr Hwf Hrank. apply get_loc_None in Hrank.
  pose proof (create_dummy_recommendations_Return r st df Hr Hwf Hrank) as Hrun.
  cbv zeta in Hrun.
  set (out := recommendations_frame df
                (drawn_scores (generator st) (length (rows df)))) in *.
  set (st' := {| frames := _; generator := _ |}) in Hrun.
  assert (frames st' !! (length (frames st) + 2) = Some out) as Hout
    by (subst st'; heap_lookup).
  destruct (recommendations_frame_columns df (generator st) Hwf)
    as (j & scores & Hrank_loc & Hscore_loc & Hlen & Hranks & Hscores & _).
  fold out in Hrank_loc, Hscore_loc, Hlen, Hranks, Hscores.
  apply mapM_column_cells in Hranks as Hrank_cells.
  apply mapM_column_cells in Hscores as Hscore_cells.
  assert (apply_format (take 10 (column_cells j (rows out)))
          = inr ((λ y, Str (format_1f y ++ "%")) <$> take 10 scores)) as Hformat.
  { by rewrite Hscore_cells, <- fmap_take, apply_format_Num. }
  destruct (display_top_recommendations_Return _ st' out 0 j _ Hout
              Hrank_loc Hscore_loc Hformat)
    as (locs & head & selected & _ & Htop).
  assert (length ((λ y, Str (format_1f y ++ "%")) <$> take 10 scores)
          = length (take 10 (rows out))) as Hformatted.
  { rewrite length_fmap, !length_take, Hlen.
    apply (f_equal length) in Hscore_cells.
    unfold column_cells in Hscore_cells. rewrite !length_fmap in Hscore_cells.
    lia. }
  destruct (getitem_top_table out 0 locs _ Hformatted) as [Hview_rank Hview_score].
  eexists _, _, out, _, _, _, scores.
  split; [exact Hrun|]. split; [exact Hout|]. split; [exact Htop|].
  split; [heap_lookup|].
  split; [cbn [frames]; by apply lookup_heap_old|].
  split; [by rewrite length_rows_top_table, Hlen|].
  split.
  { rewrite Hview_rank, Hrank_cells. unfold range_cells.
    by rewrite <- fmap_take, take_seq. }
  split; [|exact Hview_score].
  unfold getitem. rewrite Hscore_loc. cbn [mbind option_bind]. exact Hscores.
Qed.

Lemma top_tab_after_the_recommendation_step_witness :
  ∃ r' st' out shown st'' view scores,
    create_dummy_recommendations_with_scores (H:=stable_kind) 0 sample_state
      = Return r' st'
    ∧ frames st' !! r' = Some out
    ∧ display_top_recommendations r' st' = Return shown st''
    ∧ frames st'' !! shown = Some view
    ∧ frames st'' !! r' = Some out
    ∧ length (rows view) = 10 `min` length (rows sample_sheet)
    ∧ getitem "Rank" view
      = Some (range_cells 1 (10 `min` length (rows sample_sheet)))
    ∧ getitem "Match Score" out = Some (Num <$> scores)
    ∧ getitem "Match Score" view
      = Some ((λ y, Str (format_1f y ++ "%")) <$> take 10 scores).
Proof.
  apply (top_tab_after_the_recommendation_step (H:=stable_kind) sample_state 0
           sample_sheet).
  - reflexivity.
  - apply sample_sheet_well_formed.
  - apply sample_sheet_no_rank.
Defined.





(** X14.  What step 4 can answer, for a session whose file holds a
    well-formed sheet.  It generates only when the button is clicked and no
    step is missing; then the sheet has no 'Rank' column, the 'Master
    Sailings Grid' sheet of the download is the uploaded sheet as it was
    read, the 'Sailing Recommendations' sheet is the frame the step returns
    and has as many rows, and one draw per row was consumed.  Otherwise it
    warns, or waits for the click, having created no frame and drawn
    nothing. *)
Theorem what_step_4_can_answer `{SortKind} clicked s st f df v st' :
  uploaded_file s = Some f →
  master_sailings_grid f = Some df →
  well_formed df →
  handle_recommendations clicked s st = Return v st' →
  match v with
  | Generated r download =>
      clicked = true
      ∧ missing_steps s = []
      ∧ ("Rank" ∉ columns df)
      ∧ master_sailings_grid_sheet download = df
      ∧ frames st' !! r = Some (sailing_recommendations_sheet download)
      ∧ length (rows (sailing_recommendations_sheet download)) = length (rows df)
      ∧ generator st' = advance (length (rows df)) (generator st)
  | AwaitingClick => clicked = false ∧ missing_steps s = [] ∧ st' = st
  | MissingStepsWarning steps =>
      steps = missing_steps s ∧ steps ≠ [] ∧ st' = st
  end.
Proof.
  intros Hf Hsheet Hwf Hrun.
  destruct (missing_steps s) as [|step steps] eqn:Hmissing.
  2:{ unfold handle_recommendations in Hrun. rewrite Hmissing in Hrun.
      by injection Hrun as <- <-. }
  destruct clicked.
  2:{ unfold handle_recommendations in Hrun. rewrite Hmissing in Hrun.
      by injection Hrun as <- <-. }
  assert (is_Some (preferences s) ∧ is_Some (weights s)) as [[p Hp] [w Hw]].
  { unfold missing_steps in Hmissing. rewrite Hf in Hmissing.
    destruct (preferences s), (weights s); done. }
  destruct (get_loc "Rank" (columns df)) as [i|] eqn:Hrank.
  { unfold handle_recommendations in Hrun. rewrite Hmissing, Hf in Hrun.
    erewrite bind_Return in Hrun by (by apply read_excel_Return).
    erewrite bind_Raise in Hrun; [done|].
    eapply (create_dummy_recommendations_Raise _ _ df i);
      [by apply list_lookup_middle|done..]. }
  destruct (month_one_kind df) eqn:Hmonth; cycle 1.
  { destruct (handle_recommendations_mixed_month s st f df p w)
      as (msg & more & Hraise); [done..|]. by rewrite Hraise in Hrun. }
  destruct (handle_recommendations_Generated s st f df p w) as [more Hgen];
    [done..|].
  rewrite Hgen in Hrun. injection Hrun as <- <-.
  cbn [master_sailings_grid_sheet sailing_recommendations_sheet generator].
  split; [done|]. split; [done|]. split; [by apply get_loc_None|].
  split; [done|]. split; [heap_lookup|]. split; [|done].
  destruct (recommendations_frame_columns df (generator st) Hwf)
    as (j & scores & _ & _ & Hlen & _). exact Hlen.
Qed.

Lemma what_step_4_can_answer_witness :
  ∃ r download st',
    handle_recommendations (H:=stable_kind) true ready_session start_state
    = Return (Generated r download) st'
    ∧ true = true
    ∧ missing_steps ready_session = []
    ∧ ("Rank" ∉ columns sample_sheet)
    ∧ master_sailings_grid_sheet download = sample_sheet
    ∧ frames st' !! r = Some (sailing_recommendations_sheet download)
    ∧ length (rows (sailing_recommendations_sheet download))
      = length (rows sample_sheet)
    ∧ generator st' = advance (length (rows sample_sheet)) (generator start_state).
Proof.
  destruct (handle_recommendations_Generated (H:=stable_kind) ready_session
              start_state sample_file sample_sheet _ _ eq_refl eq_refl eq_refl
              eq_refl sample_sheet_well_formed
              (proj2 (get_loc_None _ _) sample_sheet_no_rank) eq_refl)
    as [more Hrun].
  eexists _, _, _. split; [exact Hrun|].
  exact (what_step_4_can_answer (H:=stable_kind) true ready_session start_state
           sample_file sample_sheet _ _ eq_refl eq_refl sample_sheet_well_formed
           Hrun).
Defined.

(** X15.  On a sheet without rows and without a 'Rank' column the step
    returns the empty ranking, a frame with the columns 'Rank' and 'Match
    Score' added and no rows, and leaves the generator where it was. *)
Theorem empty_sheet_gives_an_empty_ranking `{SortKind} st r df :
  frames st !! r = Some df →
  NoDup (columns df) →
  rows df = [] →
  "Rank" ∉ columns df →
  ∃ r' st',
    create_dummy_recommendations_with_scores r st = Return r' st'
    ∧ frames st' !! r'
      = Some {| columns := "Rank" :: score_columns (columns df); rows := [] |}
    ∧ generator st' = generator st.
Proof.
  intros Hr Hnd Hrows Hrank. apply get_loc_None in Hrank.
  assert (well_formed df) as Hwf by (split; [done|]; by rewrite Hrows).
  pose proof (create_dummy_recommendations_Return r st df Hr Hwf Hrank) as Hrun.
  cbv zeta in Hrun. rewrite Hrows in Hrun. cbn [length drawn_scores] in Hrun.
  eexists _, _. split; [exact Hrun|]. split.
  - cbn [frames]. rewrite (lookup_heap _ _ 2 (recommendations_frame df [])) by done.
    unfold recommendations_frame, range_cells. rewrite Hrows. cbn [length seq].
    by rewrite fmap_nil, zip_with_nil_r.
  - cbn [generator]. destruct (generator st) as [output index].
    unfold advance. cbn. by rewrite Nat.add_0_r.
Qed.

Lemma empty_sheet_gives_an_empty_ranking_witness :
  ∃ r' st',
    create_dummy_recommendations_with_scores (H:=stable_kind) 0
      {| frames := [{| columns := ["Ship Code"]; rows := [] |}];
         generator := sample_generator |} = Return r' st'
    ∧ frames st' !! r'
      = Some {| columns := "Rank" :: score_columns ["Ship Code"]; rows := [] |}
    ∧ generator st' = sample_generator.
Proof.
  apply (empty_sheet_gives_an_empty_ranking (H:=stable_kind)
           {| frames := [{| columns := ["Ship Code"]; rows := [] |}];
              generator := sample_generator |}
           0 {| columns := ["Ship Code"]; rows := [] |}).
  - reflexivity.
  - apply NoDup_singleton.
  - reflexivity.
  - cbn. rewrite list_elem_of_singleton. discriminate.
Defined.

(** X16.  A run of [main] that returns writes at most the session entry of
    the step it renders: step 1 leaves preferences and weights as they were
    (also when a new file replaces the one they were chosen for), step 2
    leaves file and weights, step 3 leaves file and preferences, step 4
    leaves the whole session.  Only step 4 can draw random numbers. *)
Theorem each_step_writes_its_own_entry `{SortKind} i s st s' v st' :
  main i s st = Return (s', v) st' →
  match i with
  | UploadData _ =>
      preferences s' = preferences s ∧ weights s' = weights s
      ∧ generator st' = generator st
  | SetPreferences _ _ _ =>
      uploaded_file s' = uploaded_file s ∧ weights s' = weights s
      ∧ generator st' = generator st
  | ConfigureWeights _ _ _ _ =>
      uploaded_file s' = uploaded_file s ∧ preferences s' = preferences s
      ∧ st' = st
  | GenerateRecommendations _ => s' = s
  end.
Proof.
  intros Hrun. destruct i as [uploaded|sp mp pp|a b c d|clicked];
    cbn [main] in Hrun.
  - apply bind_Return_inv in Hrun as ([s1 v1] & st1 & Hstep & Hret).
    injection Hret as <- _ <-. by eapply handle_file_upload_generator.
  - apply bind_Return_inv in Hrun as ([s1 v1] & st1 & Hstep & Hret).
    injection Hret as <- _ <-. by eapply handle_preferences_generator.
  - pose proof (handle_weights_session a b c d s) as [Hfile Hprefs].
    destruct (handle_weights a b c d s) as [s1 v1].
    by injection Hrun as <- _ <-.
  - apply bind_Return_inv in Hrun as (v1 & st1 & _ & Hret).
    by injection Hret as <- _ _.
Qed.

Lemma each_step_writes_its_own_entry_witness :
  preferences {| uploaded_file := Some sheetless_file;
                 preferences := preferences ready_session;
                 weights := weights ready_session |}
  = preferences ready_session
  ∧ weights {| uploaded_file := Some sheetless_file;
               preferences := preferences ready_session;
               weights := weights ready_session |}
    = weights ready_session
  ∧ generator start_state = generator start_state.
Proof.
  apply (each_step_writes_its_own_entry (H:=stable_kind)
           (UploadData (Some sheetless_file)) ready_session start_state
           {| uploaded_file := Some sheetless_file;
              preferences := preferences ready_session;
              weights := weights ready_session |}
           (UploadPage (ReadError (ValueError
              "Worksheet named 'Master Sailings Grid' not found")))
           start_state).
  reflexivity.
Defined.

(** X17.  For a well-formed dataset without a column named 'Rank', and
    for any sort that meets the contract pandas documents for the default
    [kind] (the rows come back in descending key order), the step returns a
    frame whose 'Match Score' column is in descending order and whose 'Rank'
    column is 1, 2, ..., the number of rows: resetting the index and
    inserting the ranks keep the order the sort produced.  Nothing is said
    about the order of rows with equal scores. *)
Theorem recommendations_sorted_and_ranked `{SortKind} st r df :
  frames st !! r = Some df →
  well_formed df →
  "Rank" ∉ columns df →
  ∃ r' st' out scores,
    create_dummy_recommendations_with_scores r st = Return r' st'
    ∧ frames st' !! r' = Some out
    ∧ getitem "Match Score" out = Some (Num <$> scores)
    ∧ Sorted (λ a b, le b a) scores
    ∧ getitem "Rank" out = Some (range_cells 1 (length (rows out))).
Proof.
  intros Hr Hwf Hrank. apply get_loc_None in Hrank.
  set (ys := drawn_scores (generator st) (length (rows df))).
  destruct (recommendations_frame_ranked df ys)
    as (scored & Hperm & Hsorted & Heq); [apply length_drawn_scores|].
  eexists _, _, (recommendations_frame df ys), scored.*1.
  split; [by apply create_dummy_recommendations_Return|].
  split; [by apply (lookup_heap _ _ 2)|]. rewrite Heq.
  split; [apply getitem_match_score_ranked;
          eapply scored_rows_length; [apply Hwf | done]|].
  split; [|by rewrite getitem_rank_ranked, length_rows_ranked].
  eapply Sorted_fmap; [|apply Hsorted]. done.
Qed.

Lemma recommendations_sorted_and_ranked_witness :
  ∃ r' st' out scores,
    create_dummy_recommendations_with_scores (H:=stable_kind) 0 sample_state
      = Return r' st'
    ∧ frames st' !! r' = Some out
    ∧ getitem "Match Score" out = Some (Num <$> scores)
    ∧ Sorted (λ a b, le b a) scores
    ∧ getitem "Rank" out = Some (range_cells 1 (length (rows out))).
Proof.
  apply (recommendations_sorted_and_ranked (H:=stable_kind) sample_state 0 sample_sheet).
  - reflexivity.
  - apply sample_sheet_well_formed.
  - apply sample_sheet_no_rank.
Defined.

(** X18.  A sheet whose 'Month' column mixes text with numbers or blank
    cells stops step 4 after the scores were drawn: the "Full Results" tab
    raises a TypeError when it sorts the options of its month filter, so
    the run of [main] raises and no download is built, although one draw
    per row was consumed; the frames that existed before stay as they
    were. *)
Theorem mixed_month_column_stops_step_4 `{SortKind} s st f df :
  uploaded_file s = Some f →
  master_sailings_grid f = Some df →
  is_Some (preferences s) → is_Some (weights s) →
  well_formed df →
  "Rank" ∉ columns df →
  month_one_kind df = false →
  ∃ msg st',
    handle_recommendations true s st = Raise (TypeError msg) st'
    ∧ main (GenerateRecommendations true) s st = Raise (TypeError msg) st'
    ∧ generator st' = advance (length (rows df)) (generator st)
    ∧ ∀ r0 df0, frames st !! r0 = Some df0 → frames st' !! r0 = Some df0.
Proof.
  intros Hf Hsheet [p Hp] [w Hw] Hwf Hrank Hmonth. apply get_loc_None in Hrank.
  destruct (handle_recommendations_mixed_month s st f df p w)
    as (msg & more & Hraise); [done..|].
  eexists msg, _. split; [exact Hraise|]. split.
  - cbn [main]. by erewrite bind_Raise.
  - split; [done|]. intros r0 df0 H0. cbn [frames]. by apply lookup_heap_old.
Qed.

Lemma mixed_month_column_stops_step_4_witness :
  ∃ msg st',
    handle_recommendations (H:=stable_kind) true mixed_month_session start_state
      = Raise (TypeError msg) st'
    ∧ main (H:=stable_kind) (GenerateRecommendations true) mixed_month_session
        start_state = Raise (TypeError msg) st'
    ∧ generator st'
      = advance (length (rows mixed_month_sheet)) (generator start_state)
    ∧ ∀ r0 df0, frames start_state !! r0 = Some df0 → frames st' !! r0 = Some df0.
Proof.
  apply (mixed_month_column_stops_step_4 (H:=stable_kind) mixed_month_session
           start_state mixed_month_file mixed_month_sheet).
  - reflexivity.
  - reflexivity.
  - eexists; reflexivity.
  - eexists; reflexivity.
  - split; [|by repeat constructor].
    cbn. apply NoDup_cons. split; [|apply NoDup_singleton].
    intros Hin. apply list_elem_of_singleton in Hin. discriminate.
  - rewrite list_elem_of_In. simpl. intuition congruence.
  - reflexivity.
Defined.

(** X19.  The "Full Results" tab needs numeric scores.  On a frame whose
    'Month' column, if there is one, holds values of one kind: without a
    'Match Score' column the tab raises KeyError('Match Score'), whatever is
    picked; with one that holds a text, and nothing picked, it raises a
    TypeError when it compares the scores with the slider. *)
Theorem full_results_needs_numeric_scores df min_score :
  month_one_kind df = true →
  match get_loc "Match Score" (columns df) with
  | None =>
      ∀ ship_picks month_picks,
        display_full_results df ship_picks month_picks min_score
        = inl (KeyError "Match Score")
  | Some j =>
      numeric_scores df = false →
      ∃ msg, display_full_results df [] [] min_score = inl (TypeError msg)
  end.
Proof.
  intros Hmonth. unfold numeric_scores.
  destruct (get_loc "Match Score" (columns df)) as [j|] eqn:Hj.
  - intros Hscores. unfold display_full_results. rewrite Hj.
    rewrite column_filter_nil. unfold month_one_kind in Hmonth.
    assert (existsb (λ r : list cell, is_str (default NaN (r !! j))) (rows df)
            = true) as Htext.
    { apply not_false_iff_true. intros Hnone.
      rewrite <- not_true_iff_false in Hscores. apply Hscores.
      apply forallb_forall. intros row Hrow. apply negb_true_iff.
      apply not_true_iff_false. intros Hstr.
      rewrite <- not_true_iff_false in Hnone. apply Hnone.
      apply existsb_exists. by exists row. }
    destruct (get_loc "Month" (columns df)) as [i|].
    + rewrite sorted_one_kind by (by rewrite one_kind_unique).
      cbn [multiselect filter list_filter apply_filter]. rewrite Htext.
      by eexists.
    + cbn [apply_filter]. rewrite Htext. by eexists.
  - intros ship_picks month_picks. unfold display_full_results. rewrite Hj.
    unfold month_one_kind in Hmonth.
    destruct (get_loc "Month" (columns df)) as [i|]; [|done].
    by rewrite sorted_one_kind by (by rewrite one_kind_unique).
Qed.

Lemma full_results_needs_numeric_scores_witness :
  ∃ msg, display_full_results text_score_table [] [] 70 = inl (TypeError msg).
Proof.
  apply (full_results_needs_numeric_scores text_score_table 70).
  - reflexivity.
  - reflexivity.
Defined.
End Coverage.
